(** * gocommands: remove, list and upload against a remote collection tree

    A shallow embedding of the command cores of [cmd/subcmd/rm.go],
    [cmd/subcmd/ls.go] and [cmd/goput/goput.go].

    The remote file system client, the local file system and package
    [commons] are collaborators of these files: every call to one of them is
    a step of a state-passing computation over an abstract world, and every
    call is recorded, in order, with its arguments.  What the commands print
    and what they log is collected in the same way. *)

From Stdlib Require Import String Ascii List ZArith Lia Bool Arith.
From Stdlib Require Import Permutation Sorted DecimalString OrderedTypeEx.
Import ListNotations.

Open Scope string_scope.

Set Implicit Arguments.

(** ** Go values used by the commands *)

Module Go.

(** Go's [error] interface.  [Errorf] is [xerrors.Errorf] on a format
    without a [%w] verb, [Wrap msg cause] is [xerrors.Errorf] on the format
    [msg ++ ": %w"] applied to [cause].  [External] stands for the errors
    made by the collaborators.  A function returning [error] returns an
    [option error], and [None] is Go's [nil]. *)
Inductive error : Type :=
| External (code : Z) (msg : string)
| Errorf (msg : string)
| Wrap (msg : string) (cause : error).

(** A function returning [(T, error)]. *)
Inductive result (A : Type) : Type :=
| Ok (a : A)
| Err (e : error).
Arguments Ok {A} a.
Arguments Err {A} e.

(** [err.Error()] *)
Fixpoint Error (e : error) : string :=
  match e with
  | External _ msg => msg
  | Errorf msg => msg
  | Wrap msg cause => msg ++ ": " ++ Error cause
  end.

(** [errors.Unwrap] *)
Definition Unwrap (e : error) : option error :=
  match e with
  | Wrap _ cause => Some cause
  | _ => None
  end.

Definition tab : string := String (ascii_of_nat 9) "".
Definition newline : string := String (ascii_of_nat 10) "".
Definition quote : string := String (ascii_of_nat 34) "".

(** The [%d] verb of [fmt.Printf] on an [int64]. *)
Definition formatInt (z : Z) : string :=
  NilZero.string_of_int (Z.to_int z).

(** [strconv.ParseBool] *)
Definition ParseBool (str : string) : result bool :=
  if (str =? "1") || (str =? "t") || (str =? "T")
     || (str =? "TRUE") || (str =? "true") || (str =? "True")
  then Ok true
  else if (str =? "0") || (str =? "f") || (str =? "F")
          || (str =? "FALSE") || (str =? "false") || (str =? "False")
  then Ok false
  else Err (External 0 ("strconv.ParseBool: parsing " ++ quote ++ str ++ quote
                        ++ ": invalid syntax")).

(** [a < b] on Go strings: byte-wise lexicographic. *)
Definition string_lt (a b : string) : bool := String.ltb a b.

(** [sort.SliceStable(entries, less)].  A stable sort has one possible
    result, and straight insertion computes it: taking the entries from the
    last to the first, each is placed in front of the first element that is
    not less than it. *)
Section SliceStable.
Variable A : Type.
Variable less : A -> A -> bool.

Fixpoint insert (x : A) (sorted : list A) : list A :=
  match sorted with
  | [] => [x]
  | y :: rest => if less y x then y :: insert x rest else x :: y :: rest
  end.

Definition SliceStable (entries : list A) : list A :=
  fold_right insert [] entries.

End SliceStable.

End Go.
Import Go.

(** ** Package [path] (and [path/filepath] on a slash-separated system) *)

Module Path.

Definition is_slash (c : ascii) : bool := (c =? "/")%char.

(** The elements between the slashes of a path. *)
Fixpoint elements (s : string) : list string :=
  match s with
  | EmptyString => [""]
  | String c s' =>
      if is_slash c then "" :: elements s'
      else match elements s' with
           | [] => [String c ""]
           | e :: es => String c e :: es
           end
  end.

(** One step of [Clean]: [written] holds the elements kept so far, the last
    one first.  Empty and [.] elements are dropped, [..] removes the element
    before it when there is one to remove, is dropped at the root, and is
    kept at the start of a path that is not rooted. *)
Definition clean_step (rooted : bool) (written : list string) (e : string)
  : list string :=
  if (e =? "") || (e =? ".") then written
  else if e =? ".." then
    match written with
    | top :: below => if top =? ".." then e :: written else below
    | [] => if rooted then [] else [e]
    end
  else e :: written.

Definition rooted (s : string) : bool :=
  match s with
  | String c _ => is_slash c
  | EmptyString => false
  end.

(** [path.Clean] *)
Definition Clean (s : string) : string :=
  let kept := rev (fold_left (clean_step (rooted s)) (elements s) []) in
  let body := String.concat "/" kept in
  if rooted s then "/" ++ body
  else if body =? "" then "." else body.

(** [path.Join] of two elements. *)
Definition Join (a b : string) : string :=
  if (a =? "") && (b =? "") then ""
  else if a =? "" then Clean b
  else Clean (a ++ "/" ++ b).

Fixpoint drop_slashes (l : list ascii) : list ascii :=
  match l with
  | c :: l' => if is_slash c then drop_slashes l' else l
  | [] => []
  end.

Fixpoint until_slash (l : list ascii) : list ascii :=
  match l with
  | c :: l' => if is_slash c then [] else c :: until_slash l'
  | [] => []
  end.

Fixpoint from_slash (l : list ascii) : list ascii :=
  match l with
  | c :: l' => if is_slash c then l else from_slash l'
  | [] => []
  end.

(** [path.Base]: the last element, trailing slashes removed first. *)
Definition Base (s : string) : string :=
  if s =? "" then "."
  else
    match rev (until_slash (drop_slashes (rev (list_ascii_of_string s)))) with
    | [] => "/"
    | last => string_of_list_ascii last
    end.

(** [path.Dir]: everything up to the final slash, cleaned. *)
Definition Dir (s : string) : string :=
  Clean (string_of_list_ascii (rev (from_slash (rev (list_ascii_of_string s))))).

End Path.

(** ** Package [commons] *)

Module Commons.

(** Modelled from the spec: [commons.MakeIRODSPath] is not among the sources.
    Section 4.1 gives its rules, applied in order: an empty path or [.] is the
    current working collection; a path that starts with [~] has the home
    collection substituted for it; a path that is not absolute is joined under
    the current working collection; the result is lexically normalized. *)
Definition MakeIRODSPath (cwd home zone irodsPath : string) : string :=
  Path.Clean
    (if (irodsPath =? "") || (irodsPath =? ".") then cwd
     else if String.prefix "~" irodsPath
          then home ++ "/" ++ String.substring 1 (String.length irodsPath - 1) irodsPath
     else if Path.rooted irodsPath then irodsPath
     else cwd ++ "/" ++ irodsPath).

End Commons.

(** ** The data the remote client hands out *)

(** [irodsclient_fs.EntryType] *)
Inductive EntryType : Type :=
| FileEntry
| DirectoryEntry.

(** [irodsclient_fs.Entry], the answer of [commons.StatIRODSPath]. *)
Module Entry.
Record t : Type := { Type_ : EntryType; Path : string; Name : string; Size : Z }.
End Entry.

(** [irodsclient_types.IRODSReplica] *)
Module IRODSReplica.
Record t : Type := {
  Number : Z;
  Owner : string;
  CheckSum : string;
  Status : string;
  ResourceHierarchy : string;
  Path : string;
  ModifyTime : Z
}.
End IRODSReplica.

(** [irodsclient_types.IRODSDataObject] *)
Module IRODSDataObject.
Record t : Type := {
  Path : string;
  Name : string;
  Size : Z;
  Replicas : list IRODSReplica.t
}.
End IRODSDataObject.

(** [irodsclient_types.IRODSCollection] *)
Module IRODSCollection.
Record t : Type := { Path : string; Name : string }.
End IRODSCollection.

(** Handles: the file system client, one of its metadata connections, and
    the account it was opened for. *)
Inductive FileSystem : Type := FileSystemHandle (id : nat).
Inductive IRODSConnection : Type := ConnectionHandle (id : nat).
Inductive IRODSAccount : Type := Account (user : string).

(** [os.FileInfo] and [os.DirEntry], as far as [putOne] looks at them. *)
Module FileInfo.
Record t : Type := { IsDir : bool }.
End FileInfo.

Module DirEntry.
Record t : Type := { Name : string }.
End DirEntry.

(** [cobra.Command], as far as the commands look at it: the flag set, each
    flag with the text [Value.String()] gives for it.  [Lookup] answers
    [None] for Go's [nil]. *)
Module Command.
Record t : Type := { Flags : list (string * string) }.

Fixpoint assoc (name : string) (flags : list (string * string)) : option string :=
  match flags with
  | [] => None
  | (n, v) :: rest => if n =? name then Some v else assoc name rest
  end.

Definition Lookup (command : t) (name : string) : option string :=
  assoc name (Flags command).
End Command.

(** ** Calls to the collaborators *)

Inductive Call : Type :=
(* package commons *)
| ProcessCommonFlags_ (command : Command.t)
| InputMissingFields_
| GetAccount_
| GetIRODSFSClient_ (account : IRODSAccount)
| StatIRODSPath_ (fs : FileSystem) (irodsPath : string)
(* irodsclient_fs.FileSystem *)
| NewFileSystemWithDefault_ (account : IRODSAccount) (applicationName : string)
| Release_ (fs : FileSystem)
| RemoveFile_ (fs : FileSystem) (irodsPath : string) (force : bool)
| RemoveDir_ (fs : FileSystem) (irodsPath : string) (recurse force : bool)
| MakeDir_ (fs : FileSystem) (irodsPath : string) (recurse : bool)
| UploadFileParallel_ (fs : FileSystem) (localPath irodsPath resource : string)
                      (taskNum : Z) (replicate : bool)
| GetMetadataConnection_ (fs : FileSystem)
| ReturnMetadataConnection_ (fs : FileSystem) (conn : IRODSConnection)
(* irodsclient_irodsfs *)
| GetCollection_ (conn : IRODSConnection) (irodsPath : string)
| ListSubCollections_ (conn : IRODSConnection) (irodsPath : string)
| ListDataObjects_ (conn : IRODSConnection) (collection : IRODSCollection.t)
| GetDataObject_ (conn : IRODSConnection) (collection : IRODSCollection.t)
                 (filename : string)
(* package os *)
| Stat_ (name : string)
| ReadDir_ (name : string).

(** The collaborators over a world [W].  A call takes the world and answers
    with its result and the world after it.  The getters of the session
    (working collection, home, zone) and the two pure helpers read the world
    and leave it alone. *)
Record Collaborators (W : Type) : Type := {
  (* package commons *)
  ProcessCommonFlags : Command.t -> W -> (bool * option error) * W;
  InputMissingFields : W -> (bool * option error) * W;
  GetAccount : W -> IRODSAccount * W;
  GetIRODSFSClient : IRODSAccount -> W -> result FileSystem * W;
  StatIRODSPath : FileSystem -> string -> W -> result Entry.t * W;
  GetCWD : W -> string;
  GetHomeDir : W -> string;
  GetZone : W -> string;
  MakeLocalPath : string -> string;
  MakeDateTimeString : Z -> string;
  (* irodsclient_types *)
  IsFileNotFoundError : error -> bool;
  (* irodsclient_fs.FileSystem *)
  NewFileSystemWithDefault : IRODSAccount -> string -> W -> result FileSystem * W;
  Release : FileSystem -> W -> unit * W;
  RemoveFile : FileSystem -> string -> bool -> W -> option error * W;
  RemoveDir : FileSystem -> string -> bool -> bool -> W -> option error * W;
  MakeDir : FileSystem -> string -> bool -> W -> option error * W;
  UploadFileParallel :
    FileSystem -> string -> string -> string -> Z -> bool -> W -> option error * W;
  GetMetadataConnection : FileSystem -> W -> result IRODSConnection * W;
  ReturnMetadataConnection : FileSystem -> IRODSConnection -> W -> unit * W;
  (* irodsclient_irodsfs *)
  GetCollection : IRODSConnection -> string -> W -> result IRODSCollection.t * W;
  ListSubCollections :
    IRODSConnection -> string -> W -> result (list IRODSCollection.t) * W;
  ListDataObjects :
    IRODSConnection -> IRODSCollection.t -> W -> result (list IRODSDataObject.t) * W;
  GetDataObject :
    IRODSConnection -> IRODSCollection.t -> string -> W -> result IRODSDataObject.t * W;
  (* package os *)
  Stat : string -> W -> result FileInfo.t * W;
  ReadDir : string -> W -> result (list DirEntry.t) * W
}.

(** ** Computations *)

(** What a run leaves behind: its value, the world after it, the calls it
    made, the lines it printed and the lines it logged, each in order. *)
Record Outcome (W A : Type) : Type := mkOutcome {
  value : A;
  world : W;
  calls : list Call;
  stdout : list string;
  logged : list string
}.

Definition M (W A : Type) : Type := W -> Outcome W A.

Definition ret {W A} (a : A) : M W A :=
  fun w => mkOutcome a w [] [] [].

Definition bind {W A B} (m : M W A) (k : A -> M W B) : M W B :=
  fun w =>
    match m w with
    | mkOutcome a w1 calls1 stdout1 logged1 =>
        match k a w1 with
        | mkOutcome b w2 calls2 stdout2 logged2 =>
            mkOutcome b w2 (calls1 ++ calls2) (stdout1 ++ stdout2)
                      (logged1 ++ logged2)
        end
    end.

(** A recorded call to a collaborator. *)
Definition call {W A} (c : Call) (op : W -> A * W) : M W A :=
  fun w => mkOutcome (fst (op w)) (snd (op w)) [c] [] [].

(** A read of the package state of [commons]. *)
Definition get {W A} (read : W -> A) : M W A :=
  fun w => mkOutcome (read w) w [] [] [].

(** [fmt.Printf], the format already applied. *)
Definition Printf {W} (line : string) : M W unit :=
  fun w => mkOutcome tt w [] [line] [].

(** [logger.Debugf] and [logger.Error]. *)
Definition Log {W} (line : string) : M W unit :=
  fun w => mkOutcome tt w [] [] [line].

(** [defer f()]: [f] runs when the rest of the function has returned, and
    the function returns what the rest returned. *)
Definition defer {W A} (deferred : M W unit) (rest : M W A) : M W A :=
  bind rest (fun r => bind deferred (fun _ => ret r)).

Declare Scope go_scope.
Delimit Scope go_scope with go.
Notation "x <- m ;; k" := (bind m (fun x => k))
  (at level 61, m at next level, right associativity) : go_scope.
Notation "m ;;; k" := (bind m (fun _ => k))
  (at level 61, right associativity) : go_scope.
Open Scope go_scope.

(** [for _, x := range xs { err = body(x); if err != nil { return wrap x err } }]:
    the loop of the three commands.  It returns what the first failing body
    gives, wrapped, and [None] when every body ran. *)
Fixpoint range {W A} (xs : list A) (body : A -> M W (option error))
         (wrap : A -> error -> error) : M W (option error) :=
  match xs with
  | [] => ret None
  | x :: rest =>
      err <- body x ;;
      match err with
      | Some e => ret (Some (wrap x e))
      | None => range rest body wrap
      end
  end.

(** [for _, x := range xs { body(x) }] on a body that returns nothing. *)
Fixpoint forEach {W A} (xs : list A) (body : A -> M W unit) : M W unit :=
  match xs with
  | [] => ret tt
  | x :: rest => body x ;;; forEach rest body
  end.

(** The flag blocks of [processRmCommand] and [processLsCommand]:
    [v := false; if flag != nil { v, err = strconv.ParseBool(flag.Value.String());
    if err != nil { v = false } }]. *)
Definition boolFlag (command : Command.t) (name : string) : bool :=
  match Command.Lookup command name with
  | Some text =>
      match ParseBool text with
      | Ok b => b
      | Err _ => false
      end
  | None => false
  end.

(** ** [cmd/subcmd/rm.go] *)

Module Rm.
Section WithCollaborators.
Variable W : Type.
Variable env : Collaborators W.

Definition removeOne (filesystem : FileSystem) (targetPath : string)
           (force recurse : bool) : M W (option error) :=
  cwd <- get (GetCWD env) ;;
  home <- get (GetHomeDir env) ;;
  zone <- get (GetZone env) ;;
  let targetPath := Commons.MakeIRODSPath cwd home zone targetPath in
  r <- call (StatIRODSPath_ filesystem targetPath)
            (StatIRODSPath env filesystem targetPath) ;;
  match r with
  | Err err => ret (Some (Wrap ("failed to stat " ++ targetPath) err))
  | Ok targetEntry =>
      match Entry.Type_ targetEntry with
      | FileEntry =>
          (* file *)
          Log ("removing a data object " ++ targetPath) ;;;
          err <- call (RemoveFile_ filesystem targetPath force)
                      (RemoveFile env filesystem targetPath force) ;;
          match err with
          | Some err => ret (Some (Wrap ("failed to remove " ++ targetPath) err))
          | None => ret None
          end
      | DirectoryEntry =>
          (* dir *)
          if negb recurse
          then ret (Some (Errorf "cannot remove a collection, recurse is not set"))
          else
            Log ("removing a collection " ++ targetPath) ;;;
            err <- call (RemoveDir_ filesystem targetPath recurse force)
                        (RemoveDir env filesystem targetPath recurse force) ;;
            match err with
            | Some err => ret (Some (Wrap ("failed to remove dir " ++ targetPath) err))
            | None => ret None
            end
      end
  end.

Definition processRmCommand (command : Command.t) (args : list string)
  : M W (option error) :=
  r <- call (ProcessCommonFlags_ command) (ProcessCommonFlags env command) ;;
  match snd r with
  | Some err => ret (Some (Wrap "failed to process common flags" err))
  | None =>
      if negb (fst r) then ret None
      else
        (* handle local flags *)
        r <- call InputMissingFields_ (InputMissingFields env) ;;
        match snd r with
        | Some err => ret (Some (Wrap "failed to input missing fields" err))
        | None =>
            let recurse := boolFlag command "recurse" in
            let force := boolFlag command "force" in
            (* Create a file system *)
            account <- call GetAccount_ (GetAccount env) ;;
            r <- call (GetIRODSFSClient_ account) (GetIRODSFSClient env account) ;;
            match r with
            | Err err => ret (Some (Wrap "failed to get iRODS FS Client" err))
            | Ok filesystem =>
                defer (call (Release_ filesystem) (Release env filesystem))
                  (match args with
                   | [] => ret (Some (Errorf "not enough input arguments"))
                   | _ =>
                       range args
                         (fun sourcePath => removeOne filesystem sourcePath force recurse)
                         (fun sourcePath err =>
                            Wrap ("failed to perform rm " ++ sourcePath) err)
                   end)
            end
        end
  end.

End WithCollaborators.
End Rm.

(** ** [cmd/subcmd/ls.go] *)

Module Ls.

Definition getStatusMark (status : string) : string :=
  if status =? "0" then "X" (* stale *)
  else if status =? "1" then "&" (* good *)
  else "?".

Section WithCollaborators.
Variable W : Type.
Variable env : Collaborators W.

(** The line of the long formats,
    [fmt.Printf("  %s\t%d\t%s\t%d\t%s\t%s\t%s\n", ...)]. *)
Definition replicaLine (entry : IRODSDataObject.t) (replica : IRODSReplica.t)
  : string :=
  let modTime := MakeDateTimeString env (IRODSReplica.ModifyTime replica) in
  "  " ++ IRODSReplica.Owner replica
  ++ tab ++ formatInt (IRODSReplica.Number replica)
  ++ tab ++ IRODSReplica.ResourceHierarchy replica
  ++ tab ++ formatInt (IRODSDataObject.Size entry)
  ++ tab ++ modTime
  ++ tab ++ getStatusMark (IRODSReplica.Status replica)
  ++ tab ++ IRODSDataObject.Name entry ++ newline.

Definition printDataObject (entry : IRODSDataObject.t)
           (veryLongFormat longFormat : bool) : M W unit :=
  if veryLongFormat then
    forEach (IRODSDataObject.Replicas entry) (fun replica =>
      Printf (replicaLine entry replica) ;;;
      Printf ("    " ++ IRODSReplica.CheckSum replica
              ++ tab ++ IRODSReplica.Path replica ++ newline))
  else if longFormat then
    forEach (IRODSDataObject.Replicas entry) (fun replica =>
      Printf (replicaLine entry replica))
  else
    Printf ("  " ++ IRODSDataObject.Name entry ++ newline).

Definition printDataObjects (entries : list IRODSDataObject.t)
           (veryLongFormat longFormat : bool) : M W unit :=
  (* sort by name *)
  let entries :=
    SliceStable (fun a b => string_lt (IRODSDataObject.Name a) (IRODSDataObject.Name b))
                entries in
  forEach entries (fun entry => printDataObject entry veryLongFormat longFormat).

Definition printCollections (entries : list IRODSCollection.t) : M W unit :=
  (* sort by name *)
  let entries :=
    SliceStable (fun a b => string_lt (IRODSCollection.Name a) (IRODSCollection.Name b))
                entries in
  forEach entries (fun entry =>
    Printf ("  C- " ++ IRODSCollection.Path entry ++ newline)).

Definition listOne (fs : FileSystem) (sourcePath : string)
           (longFormat veryLongFormat : bool) : M W (option error) :=
  cwd <- get (GetCWD env) ;;
  home <- get (GetHomeDir env) ;;
  zone <- get (GetZone env) ;;
  let sourcePath := Commons.MakeIRODSPath cwd home zone sourcePath in
  r <- call (GetMetadataConnection_ fs) (GetMetadataConnection env fs) ;;
  match r with
  | Err err => ret (Some (Wrap "failed to get connection" err))
  | Ok connection =>
      defer (call (ReturnMetadataConnection_ fs connection)
                  (ReturnMetadataConnection env fs connection))
        (r <- call (GetCollection_ connection sourcePath)
                   (GetCollection env connection sourcePath) ;;
         match r with
         | Ok collection =>
             r <- call (ListSubCollections_ connection sourcePath)
                       (ListSubCollections env connection sourcePath) ;;
             match r with
             | Err err =>
                 ret (Some (Wrap ("failed to list sub-collections in " ++ sourcePath) err))
             | Ok colls =>
                 r <- call (ListDataObjects_ connection collection)
                           (ListDataObjects env connection collection) ;;
                 match r with
                 | Err err =>
                     ret (Some (Wrap ("failed to list data-objects in " ++ sourcePath) err))
                 | Ok objs =>
                     printDataObjects objs veryLongFormat longFormat ;;;
                     printCollections colls ;;;
                     ret None
                 end
             end
         | Err err =>
             if negb (IsFileNotFoundError env err)
             then ret (Some (Wrap ("failed to get collection " ++ sourcePath) err))
             else
               (* data object *)
               let parentSourcePath := Path.Dir sourcePath in
               r <- call (GetCollection_ connection parentSourcePath)
                         (GetCollection env connection parentSourcePath) ;;
               match r with
               | Err err =>
                   ret (Some (Wrap ("failed to get collection " ++ parentSourcePath) err))
               | Ok parentCollection =>
                   r <- call (GetDataObject_ connection parentCollection
                                             (Path.Base sourcePath))
                             (GetDataObject env connection parentCollection
                                            (Path.Base sourcePath)) ;;
                   match r with
                   | Err err =>
                       ret (Some (Wrap ("failed to get data-object " ++ sourcePath) err))
                   | Ok entry =>
                       printDataObject entry veryLongFormat longFormat ;;;
                       ret None
                   end
               end
         end)
  end.

Definition processLsCommand (command : Command.t) (args : list string)
  : M W (option error) :=
  r <- call (ProcessCommonFlags_ command) (ProcessCommonFlags env command) ;;
  match snd r with
  | Some err => ret (Some (Wrap "failed to process common flags" err))
  | None =>
      if negb (fst r) then ret None
      else
        (* handle local flags *)
        r <- call InputMissingFields_ (InputMissingFields env) ;;
        match snd r with
        | Some err => ret (Some (Wrap "failed to input missing fields" err))
        | None =>
            let longFormat := boolFlag command "long" in
            let veryLongFormat := boolFlag command "verylong" in
            (* Create a file system *)
            account <- call GetAccount_ (GetAccount env) ;;
            r <- call (GetIRODSFSClient_ account) (GetIRODSFSClient env account) ;;
            match r with
            | Err err => ret (Some (Wrap "failed to get iRODS FS Client" err))
            | Ok filesystem =>
                defer (call (Release_ filesystem) (Release env filesystem))
                  (let sourcePaths :=
                     match args with
                     | [] => ["."]
                     | _ => args
                     end in
                   range sourcePaths
                     (fun sourcePath =>
                        listOne filesystem sourcePath longFormat veryLongFormat)
                     (fun sourcePath err =>
                        Wrap ("failed to perform ls " ++ sourcePath) err))
            end
        end
  end.

End WithCollaborators.
End Ls.

(** ** [cmd/goput/goput.go] *)

Module Goput.

(** [putOne] calls itself once for every entry of a local directory, as deep
    as the local tree is.  The embedding counts the nesting down from
    [fuel]; a run that would nest deeper stops with [OutOfFuel]. *)
Inductive run (A : Type) : Type :=
| Returned (a : A)
| OutOfFuel.
Arguments Returned {A} a.
Arguments OutOfFuel {A}.

Section WithCollaborators.
Variable W : Type.
Variable env : Collaborators W.

(** [commons.MakeIRODSPath(cwd, targetPath)], the two-argument call of
    [goput.go]: the resolver above, home and zone read from the session. *)
Definition MakeIRODSPath2 (cwd irodsPath : string) : M W string :=
  home <- get (GetHomeDir env) ;;
  zone <- get (GetZone env) ;;
  ret (Commons.MakeIRODSPath cwd home zone irodsPath).

Definition putDataObject (filesystem : FileSystem) (sourcePath targetPath : string)
  : M W (option error) :=
  Log ("uploading a file " ++ sourcePath ++ " to an iRODS collection "
       ++ targetPath ++ newline) ;;;
  err <- call (UploadFileParallel_ filesystem sourcePath targetPath "" 0 false)
              (UploadFileParallel env filesystem sourcePath targetPath "" 0 false) ;;
  match err with
  | Some err => ret (Some err)
  | None => ret None
  end.

(** [for _, entryInDir := range entries { err = putOne(...); if err != nil
    { return err } }] *)
Fixpoint rangeEntries (entries : list DirEntry.t)
         (body : DirEntry.t -> M W (run (option error)))
  : M W (run (option error)) :=
  match entries with
  | [] => ret (Returned None)
  | entryInDir :: rest =>
      r <- body entryInDir ;;
      match r with
      | Returned None => rangeEntries rest body
      | stopped => ret stopped
      end
  end.

Fixpoint putOne (fuel : nat) (filesystem : FileSystem)
         (sourcePath targetPath : string) : M W (run (option error)) :=
  match fuel with
  | O => ret OutOfFuel
  | S fuel =>
      let sourcePath := MakeLocalPath env sourcePath in
      cwd <- get (GetCWD env) ;;
      targetPath <- MakeIRODSPath2 cwd targetPath ;;
      r <- call (Stat_ sourcePath) (Stat env sourcePath) ;;
      match r with
      | Err err => ret (Returned (Some err))
      | Ok st =>
          if negb (FileInfo.IsDir st) then
            err <- putDataObject filesystem sourcePath targetPath ;;
            ret (Returned err)
          else
            (* dir *)
            r <- call (ReadDir_ sourcePath) (ReadDir env sourcePath) ;;
            match r with
            | Err err => ret (Returned (Some err))
            | Ok entries =>
                (* make target dir *)
                let targetDir := Path.Join targetPath (Path.Base sourcePath) in
                err <- call (MakeDir_ filesystem targetDir true)
                            (MakeDir env filesystem targetDir true) ;;
                match err with
                | Some err => ret (Returned (Some err))
                | None =>
                    rangeEntries entries (fun entryInDir =>
                      putOne fuel filesystem
                             (Path.Join sourcePath (DirEntry.Name entryInDir))
                             targetDir)
                end
            end
      end
  end.

End WithCollaborators.
End Goput.

(** ** A recording fake of the collaborators

    An in-memory remote namespace, to run the commands on concrete inputs.
    The local tree is fixed, and remote changes on a path listed in
    [failing] are refused. *)

Module Fake.

Record World : Type := {
  collections : list IRODSCollection.t;
  objects : list IRODSDataObject.t
}.

Record Local : Type := {
  localDirs : list (string * list string);
  localFiles : list string
}.

Definition notFound (p : string) : error := External (-310000) ("not found: " ++ p).
Definition refused (p : string) : error := External (-818000) ("refused: " ++ p).

Definition mem (p : string) (ps : list string) : bool := existsb (String.eqb p) ps.

Definition findCollection (p : string) (w : World) : option IRODSCollection.t :=
  find (fun c => IRODSCollection.Path c =? p) (collections w).

Definition findObject (p : string) (w : World) : option IRODSDataObject.t :=
  find (fun o => IRODSDataObject.Path o =? p) (objects w).

Definition under (p child : string) : bool :=
  (child =? p) || String.prefix (p ++ "/") child.

Definition stat (p : string) (w : World) : result Entry.t :=
  match findCollection p w, findObject p w with
  | Some c, _ =>
      Ok {| Entry.Type_ := DirectoryEntry; Entry.Path := p;
            Entry.Name := IRODSCollection.Name c; Entry.Size := 0 |}
  | None, Some o =>
      Ok {| Entry.Type_ := FileEntry; Entry.Path := p;
            Entry.Name := IRODSDataObject.Name o; Entry.Size := IRODSDataObject.Size o |}
  | None, None => Err (notFound p)
  end.

Definition removeFile (failing : list string) (p : string) (w : World)
  : option error * World :=
  if mem p failing then (Some (refused p), w)
  else match findObject p w with
       | None => (Some (notFound p), w)
       | Some _ =>
           (None,
            {| collections := collections w;
               objects := filter (fun o => negb (IRODSDataObject.Path o =? p))
                                 (objects w) |})
       end.

Definition removeDir (failing : list string) (p : string) (w : World)
  : option error * World :=
  if mem p failing then (Some (refused p), w)
  else match findCollection p w with
       | None => (Some (notFound p), w)
       | Some _ =>
           (None,
            {| collections :=
                 filter (fun c => negb (under p (IRODSCollection.Path c))) (collections w);
               objects :=
                 filter (fun o => negb (under p (IRODSDataObject.Path o))) (objects w) |})
       end.

Definition makeDir (failing : list string) (p : string) (w : World)
  : option error * World :=
  if mem p failing then (Some (refused p), w)
  else (None,
        match findCollection p w with
        | Some _ => w
        | None =>
            {| collections :=
                 collections w
                 ++ [{| IRODSCollection.Path := p; IRODSCollection.Name := Path.Base p |}];
               objects := objects w |}
        end).

Definition upload (failing : list string) (src dst : string) (w : World)
  : option error * World :=
  let p := Path.Join dst (Path.Base src) in
  if mem p failing then (Some (refused p), w)
  else (None,
        {| collections := collections w;
           objects :=
             objects w
             ++ [{| IRODSDataObject.Path := p; IRODSDataObject.Name := Path.Base src;
                    IRODSDataObject.Size := 0; IRODSDataObject.Replicas := [] |}] |}).

Definition getCollection (p : string) (w : World) : result IRODSCollection.t :=
  match findCollection p w with
  | Some c => Ok c
  | None => Err (notFound p)
  end.

Definition localStat (local : Local) (p : string) : result FileInfo.t :=
  if existsb (fun d => fst d =? p) (localDirs local) then Ok {| FileInfo.IsDir := true |}
  else if mem p (localFiles local) then Ok {| FileInfo.IsDir := false |}
  else Err (External 2 ("stat " ++ p ++ ": no such file or directory")).

Definition localReadDir (local : Local) (p : string) : result (list DirEntry.t) :=
  match find (fun d => fst d =? p) (localDirs local) with
  | Some d => Ok (map (fun n => {| DirEntry.Name := n |}) (snd d))
  | None => Err (External 2 ("open " ++ p ++ ": no such file or directory"))
  end.

Definition pure {A} (f : World -> A) (w : World) : A * World := (f w, w).

Definition collaborators (local : Local) (failing : list string)
  : Collaborators World := {|
  ProcessCommonFlags := fun _ => pure (fun _ => (true, None));
  InputMissingFields := pure (fun _ => (false, None));
  GetAccount := pure (fun _ => Account "alice");
  GetIRODSFSClient := fun _ => pure (fun _ => Ok (FileSystemHandle 1));
  StatIRODSPath := fun _ p => pure (stat p);
  GetCWD := fun _ => "/tempZone/home/alice";
  GetHomeDir := fun _ => "/tempZone/home/alice";
  GetZone := fun _ => "tempZone";
  MakeLocalPath := fun p =>
    Path.Clean (if Path.rooted p then p else "/home/alice/" ++ p);
  MakeDateTimeString := formatInt;
  IsFileNotFoundError := fun e =>
    match e with
    | External code _ => (code =? -310000)%Z
    | _ => false
    end;
  NewFileSystemWithDefault := fun _ _ => pure (fun _ => Ok (FileSystemHandle 1));
  Release := fun _ => pure (fun _ => tt);
  RemoveFile := fun _ p _ => removeFile failing p;
  RemoveDir := fun _ p _ _ => removeDir failing p;
  MakeDir := fun _ p _ => makeDir failing p;
  UploadFileParallel := fun _ src dst _ _ _ => upload failing src dst;
  GetMetadataConnection := fun _ => pure (fun _ => Ok (ConnectionHandle 1));
  ReturnMetadataConnection := fun _ _ => pure (fun _ => tt);
  GetCollection := fun _ p => pure (getCollection p);
  ListSubCollections := fun _ p =>
    pure (fun w =>
            match findCollection p w with
            | None => Err (notFound p)
            | Some _ =>
                Ok (filter (fun c => negb (IRODSCollection.Path c =? p)
                                     && (Path.Dir (IRODSCollection.Path c) =? p))
                           (collections w))
            end);
  ListDataObjects := fun _ c =>
    pure (fun w =>
            Ok (filter (fun o => Path.Dir (IRODSDataObject.Path o)
                                 =? IRODSCollection.Path c)
                       (objects w)));
  GetDataObject := fun _ c name =>
    pure (fun w =>
            match findObject (Path.Join (IRODSCollection.Path c) name) w with
            | Some o => Ok o
            | None => Err (notFound (Path.Join (IRODSCollection.Path c) name))
            end);
  Stat := fun p => pure (fun _ => localStat local p);
  ReadDir := fun p => pure (fun _ => localReadDir local p)
|}.

Definition coll (p : string) : IRODSCollection.t :=
  {| IRODSCollection.Path := p; IRODSCollection.Name := Path.Base p |}.

Definition obj (p : string) : IRODSDataObject.t :=
  {| IRODSDataObject.Path := p; IRODSDataObject.Name := Path.Base p;
     IRODSDataObject.Size := 12;
     IRODSDataObject.Replicas :=
       [{| IRODSReplica.Number := 0; IRODSReplica.Owner := "alice";
           IRODSReplica.CheckSum := "sha2:abc"; IRODSReplica.Status := "1";
           IRODSReplica.ResourceHierarchy := "demoResc";
           IRODSReplica.Path := "/var/lib/irods/Vault" ++ p;
           IRODSReplica.ModifyTime := 1700000000 |}] |}.

(** Remote: the home collection with objects [b] and [a] and sub-collections
    [z] and [y], enumerated in that order. *)
Definition world : World := {|
  collections := map coll ["/tempZone/home/alice"; "/tempZone/home/alice/z";
                           "/tempZone/home/alice/y"];
  objects := map obj ["/tempZone/home/alice/b"; "/tempZone/home/alice/a"]
|}.

(** Local: [root/{a.txt, sub/b.txt}] and [bad/{w.txt, x.txt, y.txt}] under
    [/home/alice]. *)
Definition local : Local := {|
  localDirs := [("/home/alice/root", ["a.txt"; "sub"]);
                ("/home/alice/root/sub", ["b.txt"]);
                ("/home/alice/bad", ["w.txt"; "x.txt"; "y.txt"])];
  localFiles := ["/home/alice/root/a.txt"; "/home/alice/root/sub/b.txt";
                 "/home/alice/bad/w.txt"; "/home/alice/bad/x.txt";
                 "/home/alice/bad/y.txt"]
|}.

(** A remote that accepts every change, and one that refuses [bad/x.txt]. *)
Definition env : Collaborators World := collaborators local [].

Definition faulty : Collaborators World :=
  collaborators local ["/tempZone/home/alice/T/bad/x.txt"].

Definition fs : FileSystem := FileSystemHandle 1.

End Fake.


(** ** [cmd/goput/goput.go]: the command *)

Module GoputCommand.
Import Goput.
Section WithCollaborators.
Variable W : Type.
Variable env : Collaborators W.

(** [err = putOne(...); if err != nil { logger.Error(err); return err }] *)
Definition logged_putOne (fuel : nat) (filesystem : FileSystem)
           (sourcePath targetPath : string) (next : M W (run (option error)))
  : M W (run (option error)) :=
  r <- putOne env fuel filesystem sourcePath targetPath ;;
  match r with
  | Returned (Some err) => Log (Error err) ;;; ret (Returned (Some err))
  | Returned None => next
  | OutOfFuel => ret OutOfFuel
  end.

(** [for _, sourcePath := range args[:len(args)-1] { ... }] *)
Fixpoint rangeSources (fuel : nat) (filesystem : FileSystem)
         (sourcePaths : list string) (targetPath : string)
  : M W (run (option error)) :=
  match sourcePaths with
  | [] => ret (Returned None)
  | sourcePath :: rest =>
      logged_putOne fuel filesystem sourcePath targetPath
                    (rangeSources fuel filesystem rest targetPath)
  end.

Definition processCommand (fuel : nat) (command : Command.t) (args : list string)
  : M W (run (option error)) :=
  r <- call (ProcessCommonFlags_ command) (ProcessCommonFlags env command) ;;
  match snd r with
  | Some err => Log (Error err)
  | None => ret tt
  end ;;;
  if negb (fst r) then ret (Returned (snd r))
  else
    (* handle local flags *)
    r <- call InputMissingFields_ (InputMissingFields env) ;;
    match snd r with
    | Some err => Log (Error err) ;;; ret (Returned (Some err))
    | None =>
        (* Create a file system *)
        account <- call GetAccount_ (GetAccount env) ;;
        r <- call (NewFileSystemWithDefault_ account "gocommands-put")
                  (NewFileSystemWithDefault env account "gocommands-put") ;;
        match r with
        | Err err => ret (Returned (Some err))
        | Ok filesystem =>
            defer (call (Release_ filesystem) (Release env filesystem))
              (match args with
               | [] => ret (Returned None)
               | [sourcePath] =>
                   (* upload to current collection *)
                   logged_putOne fuel filesystem sourcePath "./" (ret (Returned None))
               | _ =>
                   let targetPath := last args "" in
                   rangeSources fuel filesystem (removelast args) targetPath
               end)
        end
    end.

End WithCollaborators.
End GoputCommand.

(** ** [cmd/subcmd/init.go] *)

(** [init] talks to collaborators of its own: the environment manager of
    [commons], the connection test and the printing of the account.  Its run
    is recorded like the runs above, with its own calls. *)
Module Init.

Inductive Call : Type :=
| ProcessCommonFlags_ (command : Command.t)
| InputMissingFields_
| ToIRODSAccount_
| TestConnect_ (account : IRODSAccount)
| SaveEnvironment_
| PrintAccount_.

Record Collaborators (W : Type) : Type := {
  ProcessCommonFlags : Command.t -> W -> (bool * option error) * W;
  InputMissingFields : W -> (bool * option error) * W;
  ToIRODSAccount : W -> result IRODSAccount * W;
  TestConnect : IRODSAccount -> W -> option error * W;
  SaveEnvironment : W -> option error * W;
  PrintAccount : W -> option error * W
}.

Record Outcome (W A : Type) : Type := mkOutcome {
  value : A;
  world : W;
  calls : list Call;
  stdout : list string
}.

Definition M (W A : Type) : Type := W -> Outcome W A.

Definition ret {W A} (a : A) : M W A := fun w => mkOutcome a w [] [].

Definition bind {W A B} (m : M W A) (k : A -> M W B) : M W B :=
  fun w =>
    match m w with
    | mkOutcome a w1 calls1 stdout1 =>
        match k a w1 with
        | mkOutcome b w2 calls2 stdout2 =>
            mkOutcome b w2 (calls1 ++ calls2) (stdout1 ++ stdout2)
        end
    end.

Definition call {W A} (c : Call) (op : W -> A * W) : M W A :=
  fun w => mkOutcome (fst (op w)) (snd (op w)) [c] [].

(** [fmt.Println] *)
Definition Println {W} (line : string) : M W unit :=
  fun w => mkOutcome tt w [] [line ++ newline].

Section WithCollaborators.
Variable W : Type.
Variable env : Collaborators W.

Definition processInitCommand (command : Command.t) (args : list string)
  : M W (option error) :=
  bind (call (ProcessCommonFlags_ command) (ProcessCommonFlags env command)) (fun r =>
  match snd r with
  | Some err => ret (Some (Wrap "failed to process common flags" err))
  | None =>
      if negb (fst r) then ret None
      else
        (* handle local flags *)
        bind (call InputMissingFields_ (InputMissingFields env)) (fun r =>
        match snd r with
        | Some err => ret (Some (Wrap "failed to input missing fields" err))
        | None =>
            let updated := fst r in
            bind (call ToIRODSAccount_ (ToIRODSAccount env)) (fun r =>
            match r with
            | Err err =>
                ret (Some (Wrap "failed to get iRODS account info from iCommands Environment"
                                err))
            | Ok account =>
                bind (call (TestConnect_ account) (TestConnect env account)) (fun err =>
                match err with
                | Some err => ret (Some (Wrap "failed to connect to iRODS server" err))
                | None =>
                    if updated then
                      (* save *)
                      bind (call SaveEnvironment_ (SaveEnvironment env)) (fun err =>
                      match err with
                      | Some err =>
                          ret (Some (Wrap "failed to save iCommands Environment" err))
                      | None => ret None
                      end)
                    else
                      bind (Println "gocommands is already configured for following account:")
                           (fun _ =>
                      bind (call PrintAccount_ (PrintAccount env)) (fun err =>
                      match err with
                      | Some err => ret (Some (Wrap "failed to print account info" err))
                      | None => ret None
                      end))
                end)
            end)
        end)
  end).

End WithCollaborators.

(** A fake: the connection test answers [connects], the missing fields were
    asked for when [updated]. *)
Definition fake (updated : bool) (connects : option error) : Collaborators unit := {|
  ProcessCommonFlags := fun _ w => ((true, None), w);
  InputMissingFields := fun w => ((updated, None), w);
  ToIRODSAccount := fun w => (Ok (Account "alice"), w);
  TestConnect := fun _ w => (connects, w);
  SaveEnvironment := fun w => (None, w);
  PrintAccount := fun w => (None, w)
|}.

End Init.

(** The fake above with the two listings of a collection refused on demand. *)
Module FakeListing.
Import Fake.

Definition refusing (subCollections dataObjects : bool) : Collaborators World := {|
  ProcessCommonFlags := ProcessCommonFlags env;
  InputMissingFields := InputMissingFields env;
  GetAccount := GetAccount env;
  GetIRODSFSClient := GetIRODSFSClient env;
  StatIRODSPath := StatIRODSPath env;
  GetCWD := GetCWD env;
  GetHomeDir := GetHomeDir env;
  GetZone := GetZone env;
  MakeLocalPath := MakeLocalPath env;
  MakeDateTimeString := MakeDateTimeString env;
  IsFileNotFoundError := IsFileNotFoundError env;
  NewFileSystemWithDefault := NewFileSystemWithDefault env;
  Release := Release env;
  RemoveFile := RemoveFile env;
  RemoveDir := RemoveDir env;
  MakeDir := MakeDir env;
  UploadFileParallel := UploadFileParallel env;
  GetMetadataConnection := GetMetadataConnection env;
  ReturnMetadataConnection := ReturnMetadataConnection env;
  GetCollection := GetCollection env;
  ListSubCollections := fun conn p =>
    if subCollections then pure (fun _ => Err (refused p))
    else ListSubCollections env conn p;
  ListDataObjects := fun conn c =>
    if dataObjects then pure (fun _ => Err (refused (IRODSCollection.Path c)))
    else ListDataObjects env conn c;
  GetDataObject := GetDataObject env;
  Stat := Stat env;
  ReadDir := ReadDir env
|}.

End FakeListing.

(** The fake above with a start that stops: at [stage] 1 the common flags
    fail, at 2 they say not to continue, at 3 they fail and say to continue,
    at 4 the missing fields fail, at 5 no client is to be had. *)
Module FakePrelude.
Import Fake.

Definition flagsError : error := External 1 "unknown flag".
Definition fieldsError : error := External 2 "no terminal".
Definition clientError : error := External 3 "connection refused".

Definition stopping (stage : nat) : Collaborators World := {|
  ProcessCommonFlags := fun _ =>
    pure (fun _ => match stage with
                   | 1 => (false, Some flagsError)
                   | 2 => (false, None)
                   | 3 => (true, Some flagsError)
                   | _ => (true, None)
                   end);
  InputMissingFields :=
    pure (fun _ => match stage with
                   | 4 => (false, Some fieldsError)
                   | _ => (false, None)
                   end);
  GetAccount := GetAccount env;
  GetIRODSFSClient := fun account =>
    match stage with
    | 5 => pure (fun _ => Err clientError)
    | _ => GetIRODSFSClient env account
    end;
  StatIRODSPath := StatIRODSPath env;
  GetCWD := GetCWD env;
  GetHomeDir := GetHomeDir env;
  GetZone := GetZone env;
  MakeLocalPath := MakeLocalPath env;
  MakeDateTimeString := MakeDateTimeString env;
  IsFileNotFoundError := IsFileNotFoundError env;
  NewFileSystemWithDefault := fun account name =>
    match stage with
    | 5 => pure (fun _ => Err clientError)
    | _ => NewFileSystemWithDefault env account name
    end;
  Release := Release env;
  RemoveFile := RemoveFile env;
  RemoveDir := RemoveDir env;
  MakeDir := MakeDir env;
  UploadFileParallel := UploadFileParallel env;
  GetMetadataConnection := GetMetadataConnection env;
  ReturnMetadataConnection := ReturnMetadataConnection env;
  GetCollection := GetCollection env;
  ListSubCollections := ListSubCollections env;
  ListDataObjects := ListDataObjects env;
  GetDataObject := GetDataObject env;
  Stat := Stat env;
  ReadDir := ReadDir env
|}.

End FakePrelude.

(** The fake above on a local tree that holds one empty directory. *)
Module FakeEmpty.

Definition local : Fake.Local := {|
  Fake.localDirs := [("/home/alice/empty", [])];
  Fake.localFiles := []
|}.

Definition env : Collaborators Fake.World := Fake.collaborators local [].

End FakeEmpty.

(** ** What the properties look at *)

(** The resolved remote path of [p] in the session the world [w] holds. *)
Definition resolved {W} (env : Collaborators W) (w : W) (p : string) : string :=
  Commons.MakeIRODSPath (GetCWD env w) (GetHomeDir env w) (GetZone env w) p.

(** The remote delete calls, of either kind. *)
Definition isRemoval (c : Call) : bool :=
  match c with
  | RemoveFile_ _ _ _ | RemoveDir_ _ _ _ _ => true
  | _ => false
  end.

(** The classification queries. *)
Definition isStatIRODSPath (c : Call) : bool :=
  match c with
  | StatIRODSPath_ _ _ => true
  | _ => false
  end.

(** What [printDataObject] prints for one entry: nothing but the name in the
    short form, a line for each replica in the long form, two in the very
    long one. *)
Definition dataObjectLines {W} (env : Collaborators W)
           (veryLongFormat longFormat : bool) (entry : IRODSDataObject.t)
  : list string :=
  if veryLongFormat then
    flat_map (fun replica =>
                [Ls.replicaLine env entry replica;
                 "    " ++ IRODSReplica.CheckSum replica
                 ++ tab ++ IRODSReplica.Path replica ++ newline])
             (IRODSDataObject.Replicas entry)
  else if longFormat then
    map (Ls.replicaLine env entry) (IRODSDataObject.Replicas entry)
  else ["  " ++ IRODSDataObject.Name entry ++ newline].

Definition collectionLine (entry : IRODSCollection.t) : string :=
  "  C- " ++ IRODSCollection.Path entry ++ newline.

(** The two [less] functions handed to [sort.SliceStable]. *)
Definition objectLess (a b : IRODSDataObject.t) : bool :=
  string_lt (IRODSDataObject.Name a) (IRODSDataObject.Name b).

Definition collectionLess (a b : IRODSCollection.t) : bool :=
  string_lt (IRODSCollection.Name a) (IRODSCollection.Name b).

(** A list is the stable ascending rearrangement of another by a key: the
    same entries, no key before a smaller one, and the entries of each key in
    the order they had. *)
Definition stablySortedBy {A} (key : A -> string) (sorted original : list A) : Prop :=
  Permutation sorted original
  /\ StronglySorted (fun a b => string_lt (key b) (key a) = false) sorted
  /\ forall k, filter (fun e => key e =? k) sorted = filter (fun e => key e =? k) original.

(** The two commands start alike: common flags, missing fields, account,
    file system client.  [preludePasses] says that this start goes through
    in the world [w] and hands out the client [fs]; [afterPrelude] is the
    world it leaves, [preludeCalls] the calls it made. *)
Definition afterMissingFields {W} (env : Collaborators W) (command : Command.t)
           (w : W) : W :=
  snd (InputMissingFields env (snd (ProcessCommonFlags env command w))).

Definition accountOf {W} (env : Collaborators W) (command : Command.t) (w : W)
  : IRODSAccount :=
  fst (GetAccount env (afterMissingFields env command w)).

Definition afterPrelude {W} (env : Collaborators W) (command : Command.t) (w : W) : W :=
  snd (GetIRODSFSClient env (accountOf env command w)
         (snd (GetAccount env (afterMissingFields env command w)))).

Definition preludePasses {W} (env : Collaborators W) (command : Command.t) (w : W)
           (fs : FileSystem) : Prop :=
  fst (ProcessCommonFlags env command w) = (true, None)
  /\ snd (fst (InputMissingFields env (snd (ProcessCommonFlags env command w)))) = None
  /\ fst (GetIRODSFSClient env (accountOf env command w)
            (snd (GetAccount env (afterMissingFields env command w)))) = Ok fs.

Definition preludeCalls {W} (env : Collaborators W) (command : Command.t) (w : W)
  : list Call :=
  [ProcessCommonFlags_ command; InputMissingFields_; GetAccount_;
   GetIRODSFSClient_ (accountOf env command w)].

(** What [processRmCommand] does with its arguments once its flags are read. *)
Definition removeAll {W} (env : Collaborators W) (fs : FileSystem)
           (force recurse : bool) (args : list string) : M W (option error) :=
  match args with
  | [] => ret (Some (Errorf "not enough input arguments"))
  | _ =>
      range args (fun sourcePath => Rm.removeOne env fs sourcePath force recurse)
            (fun sourcePath err => Wrap ("failed to perform rm " ++ sourcePath) err)
  end.

(** What [processLsCommand] does with its source paths once its flags are read. *)
Definition listAll {W} (env : Collaborators W) (fs : FileSystem)
           (longFormat veryLongFormat : bool) (sourcePaths : list string)
  : M W (option error) :=
  range sourcePaths
        (fun sourcePath => Ls.listOne env fs sourcePath longFormat veryLongFormat)
        (fun sourcePath err => Wrap ("failed to perform ls " ++ sourcePath) err).

(** The run [o] is the run [body] between the calls [before] and [after]:
    it returns and prints what [body] does. *)
Definition continuesAs {W A} (o : Outcome W A) (before : list Call)
           (body : Outcome W A) (after : list Call) : Prop :=
  value o = value body
  /\ calls o = (before ++ calls body ++ after)%list
  /\ stdout o = stdout body.

(** [a] may stand before [b] in a list sorted by [less]: [b] is not less
    than [a]. *)
Definition notAfter {A} (less : A -> A -> bool) (a b : A) : Prop := less b a = false.

(** A path element: it holds no slash, and it is none of the elements
    [path.Clean] removes. *)
Fixpoint slashless (s : string) : bool :=
  match s with
  | EmptyString => true
  | String c s' => negb (Path.is_slash c) && slashless s'
  end.

Definition plain (e : string) : Prop :=
  slashless e = true /\ e <> "" /\ e <> "." /\ e <> "..".

(** The remote changes of an upload: collections made and files sent. *)
Definition isRemoteChange (c : Call) : bool :=
  match c with
  | MakeDir_ _ _ _ | UploadFileParallel_ _ _ _ _ _ _ => true
  | _ => false
  end.

(** Every upload among the calls [cs] goes into a collection that is in
    [made] or that an earlier call of [cs] made, with a recursive [MakeDir]
    on the same client. *)
Fixpoint createdFirst (made : list (FileSystem * string)) (cs : list Call) : Prop :=
  match cs with
  | [] => True
  | MakeDir_ fs dir true :: rest => createdFirst ((fs, dir) :: made) rest
  | UploadFileParallel_ fs _ dst _ _ _ :: rest =>
      In (fs, dst) made /\ createdFirst made rest
  | _ :: rest => createdFirst made rest
  end.

Definition dirInfo : FileInfo.t := {| FileInfo.IsDir := true |}.
Definition fileInfo : FileInfo.t := {| FileInfo.IsDir := false |}.

Definition entriesNamed (names : list string) : list DirEntry.t :=
  map (fun n => {| DirEntry.Name := n |}) names.

(** The local path [root] is a directory that holds the file [a.txt] and
    the directory [sub], which holds the file [b.txt], whatever the world. *)
Definition holdsExampleTree {W} (env : Collaborators W) (root : string) : Prop :=
  let a := Path.Join root "a.txt" in
  let sub := Path.Join root "sub" in
  let b := Path.Join sub "b.txt" in
  Path.Base root = "root" /\ Path.Base sub = "sub"
  /\ MakeLocalPath env a = a /\ MakeLocalPath env sub = sub /\ MakeLocalPath env b = b
  /\ forall w : W,
      fst (Stat env root w) = Ok dirInfo
      /\ fst (ReadDir env root w) = Ok (entriesNamed ["a.txt"; "sub"])
      /\ fst (Stat env a w) = Ok fileInfo
      /\ fst (Stat env sub w) = Ok dirInfo
      /\ fst (ReadDir env sub w) = Ok (entriesNamed ["b.txt"])
      /\ fst (Stat env b w) = Ok fileInfo.

(** The remote accepts every collection and every file of the client [fs]. *)
Definition acceptsAll {W} (env : Collaborators W) (fs : FileSystem) : Prop :=
  (forall p (w : W), fst (MakeDir env fs p true w) = None)
  /\ (forall src dst (w : W), fst (UploadFileParallel env fs src dst "" 0 false w) = None).

(** Two runs that return the same, leave the same world and made the same
    calls. *)
Definition sameRun {W A : Type} (o' o : Outcome W A) : Prop :=
  value o' = value o /\ world o' = world o /\ calls o' = calls o.

(** The kinds of calls of the three commands. *)
Definition isRelease (c : Call) : bool :=
  match c with
  | Release_ _ => true
  | _ => false
  end.

Definition isRemoverCall (c : Call) : bool := isStatIRODSPath c || isRemoval c.

(** The lookups of the lister: they read the remote and change nothing. *)
Definition isLookup (c : Call) : bool :=
  match c with
  | GetCollection_ _ _ | ListSubCollections_ _ _ | ListDataObjects_ _ _
  | GetDataObject_ _ _ _ => true
  | _ => false
  end.

(** The calls of the uploader: it looks at the local tree and adds to the
    remote one. *)
Definition isUploaderCall (c : Call) : bool :=
  match c with
  | Stat_ _ | ReadDir_ _ | MakeDir_ _ _ _ | UploadFileParallel_ _ _ _ _ _ _ => true
  | _ => false
  end.

(** What [processRmCommand] does with arguments that are there: the loop. *)
Definition removeEach {W} (env : Collaborators W) (fs : FileSystem)
           (force recurse : bool) (args : list string) : M W (option error) :=
  range args (fun sourcePath => Rm.removeOne env fs sourcePath force recurse)
        (fun sourcePath err => Wrap ("failed to perform rm " ++ sourcePath) err).

(** The start of [goput]'s command, which opens its own client. *)
Definition goputAccountOf {W} (env : Collaborators W) (command : Command.t) (w : W)
  : IRODSAccount :=
  fst (GetAccount env (afterMissingFields env command w)).

Definition goputPreludePasses {W} (env : Collaborators W) (command : Command.t)
           (w : W) (fs : FileSystem) : Prop :=
  fst (fst (ProcessCommonFlags env command w)) = true
  /\ snd (fst (InputMissingFields env (snd (ProcessCommonFlags env command w)))) = None
  /\ fst (NewFileSystemWithDefault env (goputAccountOf env command w) "gocommands-put"
            (snd (GetAccount env (afterMissingFields env command w)))) = Ok fs.

Definition goputAfterPrelude {W} (env : Collaborators W) (command : Command.t) (w : W)
  : W :=
  snd (NewFileSystemWithDefault env (goputAccountOf env command w) "gocommands-put"
         (snd (GetAccount env (afterMissingFields env command w)))).

Definition goputPreludeCalls {W} (env : Collaborators W) (command : Command.t) (w : W)
  : list Call :=
  [ProcessCommonFlags_ command; InputMissingFields_; GetAccount_;
   NewFileSystemWithDefault_ (goputAccountOf env command w) "gocommands-put"].

(** What [goput]'s command does once its client is open: nothing without
    arguments, one upload into the working collection for one argument,
    and the loop into the last argument otherwise. *)
Definition uploadAll {W} (env : Collaborators W) (fuel : nat) (fs : FileSystem)
           (args : list string) : M W (Goput.run (option error)) :=
  match args with
  | [] => ret (Goput.Returned None)
  | [sourcePath] => GoputCommand.rangeSources env fuel fs [sourcePath] "./"
  | _ => GoputCommand.rangeSources env fuel fs (removelast args) (last args "")
  end.

(** What [goput] logs about its common flags. *)
Definition flagsLog {W} (env : Collaborators W) (command : Command.t) (w : W)
  : list string :=
  match snd (fst (ProcessCommonFlags env command w)) with
  | Some err => [Error err]
  | None => []
  end.

(** The messages of the errors of [init]. *)
Definition initMessages : list string :=
  ["failed to process common flags"; "failed to input missing fields";
   "failed to get iRODS account info from iCommands Environment";
   "failed to connect to iRODS server"; "failed to save iCommands Environment";
   "failed to print account info"].

(** The calls of [goput]'s command: its start, the uploader's calls and the
    release of its client. *)
Definition isGoputCall (c : Call) : bool :=
  match c with
  | ProcessCommonFlags_ _ | InputMissingFields_ | GetAccount_
  | NewFileSystemWithDefault_ _ _ | Release_ _ => true
  | _ => isUploaderCall c
  end.

(** A run that ends with the value [v] after the calls [cs], nothing printed. *)
Definition endsWith {W A} (o : Outcome W A) (v : A) (cs : list Call) : Prop :=
  value o = v /\ calls o = cs /\ stdout o = [].

(** * Properties *)

Unset Implicit Arguments.

(** Paths stay folded while a run is unfolded. *)
Arguments Commons.MakeIRODSPath : simpl never.
Arguments Path.Clean : simpl never.
Arguments Path.Join : simpl never.
Arguments Path.Base : simpl never.
Arguments Path.Dir : simpl never.
Arguments resolved : simpl never.

(** A run that is stuck on the outcome of an opaque part goes on once that
    outcome is named. *)
Ltac name_outcomes :=
  repeat match goal with
         | |- context [match ?X with mkOutcome _ _ _ _ _ => _ end] =>
             lazymatch X with
             | context [match _ with mkOutcome _ _ _ _ _ => _ end] => fail
             | _ => destruct X; cbn
             end
         end.

(** ** The library models on examples *)

Example Clean_examples :
  map Path.Clean ["" ; "/"; "//"; "a/"; "/.."; ".."; "a/.."; "/a//b/./c/..";
                  "../../x"; "a/b/../../.."]
  = ["."; "/"; "/"; "a"; "/"; ".."; "."; "/a/b"; "../../x"; ".."].
Proof. reflexivity. Qed.

Example Base_Dir_Join_examples :
  map Path.Base [""; "///"; "a/b/"; "/a/b.txt"; "x"] = ["."; "/"; "b"; "b.txt"; "x"]
  /\ map Path.Dir [""; "/a/b.txt"; "x"; "/a"; "/a/b/"; "a//b"]
     = ["."; "/a"; "."; "/"; "/a/b"; "a"]
  /\ map (fun p => Path.Join (fst p) (snd p))
         [("", ""); ("", "a"); ("a", ""); ("/T", "root"); ("a/", "/b")]
     = [""; "a"; "a"; "/T/root"; "a/b"].
Proof. repeat split; reflexivity. Qed.

Example ParseBool_examples :
  map ParseBool ["1"; "true"; "T"; "0"; "False"; "f"]
  = [Ok true; Ok true; Ok true; Ok false; Ok false; Ok false]
  /\ (exists e, ParseBool "yes" = Err e)
  /\ (exists e, ParseBool "" = Err e).
Proof. repeat split; try reflexivity; eexists; reflexivity. Qed.

Example SliceStable_example :
  SliceStable (fun a b => string_lt (fst a) (fst b))
              [("b", 1); ("a", 2); ("b", 3); ("a", 4)]
  = [("a", 2); ("a", 4); ("b", 1); ("b", 3)].
Proof. reflexivity. Qed.

(** ** [sort.SliceStable]: a sorted, stable rearrangement *)

Section SliceStableFacts.
Variable A : Type.
Variable less : A -> A -> bool.

Hypothesis less_asym : forall a b, less a b = true -> less b a = false.
Hypothesis notAfter_trans :
  forall a b c, notAfter less a b -> notAfter less b c -> notAfter less a c.

Lemma insert_Permutation (x : A) (l : list A) :
  Permutation (insert less x l) (x :: l).
Proof.
  induction l as [|y rest IH]; simpl.
  - apply Permutation_refl.
  - destruct (less y x).
    + eapply Permutation_trans.
      * apply perm_skip, IH.
      * apply perm_swap.
    + apply Permutation_refl.
Qed.

Lemma SliceStable_Permutation (l : list A) :
  Permutation (SliceStable less l) l.
Proof.
  induction l as [|x rest IH]; simpl.
  - constructor.
  - eapply Permutation_trans.
    + apply insert_Permutation.
    + apply perm_skip, IH.
Qed.

Lemma insert_Forall (P : A -> Prop) (x : A) (l : list A) :
  P x -> Forall P l -> Forall P (insert less x l).
Proof.
  intros Hx Hl. induction Hl as [|y rest Hy Hrest IH]; simpl.
  - constructor; [assumption | constructor].
  - destruct (less y x); constructor; auto.
Qed.

Lemma insert_StronglySorted (x : A) (l : list A) :
  StronglySorted (notAfter less) l -> StronglySorted (notAfter less) (insert less x l).
Proof.
  induction 1 as [|y rest Hsorted IH Hall]; simpl.
  - constructor; constructor.
  - destruct (less y x) eqn:Hyx.
    + constructor; [exact IH|].
      apply insert_Forall; [|assumption].
      unfold notAfter. apply less_asym. exact Hyx.
    + constructor.
      * constructor; assumption.
      * constructor; [exact Hyx|].
        eapply Forall_impl; [|exact Hall].
        intros z Hz. eapply notAfter_trans; [exact Hyx | exact Hz].
Qed.

Lemma SliceStable_StronglySorted (l : list A) :
  StronglySorted (notAfter less) (SliceStable less l).
Proof.
  induction l as [|x rest IH]; simpl.
  - constructor.
  - apply insert_StronglySorted, IH.
Qed.

(** Entries that are not less than one another keep their order. *)
Lemma insert_filter (p : A -> bool) (x : A) (l : list A) :
  (forall a b, p a = true -> p b = true -> less a b = false) ->
  filter p (insert less x l) = filter p (x :: l).
Proof.
  intros Hp. induction l as [|y rest IH]; [reflexivity|].
  simpl. destruct (less y x) eqn:Hyx; [|reflexivity].
  simpl. rewrite IH. simpl.
  destruct (p x) eqn:Hpx, (p y) eqn:Hpy; try reflexivity.
  rewrite (Hp y x Hpy Hpx) in Hyx. discriminate.
Qed.

Lemma SliceStable_filter (p : A -> bool) (l : list A) :
  (forall a b, p a = true -> p b = true -> less a b = false) ->
  filter p (SliceStable less l) = filter p l.
Proof.
  intros Hp. induction l as [|x rest IH]; [reflexivity|].
  simpl fold_right. unfold SliceStable. simpl fold_right.
  rewrite insert_filter by exact Hp.
  simpl. unfold SliceStable in IH. rewrite IH. reflexivity.
Qed.

End SliceStableFacts.

(** Go's [<] on strings is a strict total order. *)
Lemma string_lt_irrefl (s : string) : string_lt s s = false.
Proof.
  unfold string_lt, String.ltb.
  assert (H : String.compare s s = Eq) by (apply String_as_OT.cmp_eq; reflexivity).
  rewrite H. reflexivity.
Qed.

Lemma string_lt_asym (a b : string) : string_lt a b = true -> string_lt b a = false.
Proof.
  unfold string_lt, String.ltb. rewrite (String.compare_antisym b a).
  destruct (String.compare a b); simpl; congruence.
Qed.

Lemma string_lt_iff (a b : string) : string_lt a b = true <-> String.compare a b = Lt.
Proof.
  unfold string_lt, String.ltb. destruct (String.compare a b); split; congruence.
Qed.

Lemma string_notAfter_trans (a b c : string) :
  string_lt b a = false -> string_lt c b = false -> string_lt c a = false.
Proof.
  intros Hba Hcb.
  destruct (string_lt c a) eqn:Hca; [exfalso|reflexivity].
  apply string_lt_iff in Hca.
  destruct (String.compare b a) eqn:Hcmp.
  - apply String_as_OT.cmp_eq in Hcmp. subst b.
    apply string_lt_iff in Hca. congruence.
  - apply string_lt_iff in Hcmp. congruence.
  - assert (Hab : String.compare a b = Lt).
    { rewrite String.compare_antisym, Hcmp. reflexivity. }
    assert (Hcb' : String.compare c b = Lt).
    { apply String_as_OT.cmp_lt.
      eapply String_as_OT.lt_trans; apply String_as_OT.cmp_lt; eassumption. }
    apply string_lt_iff in Hcb'. congruence.
Qed.

(** Every way a run can go: each answer of a collaborator is taken apart,
    each test decided, each opaque part named. *)
Ltac walk_run :=
  repeat first
    [ progress cbn
    | match goal with
      | |- context [match ?X with Ok _ => _ | Err _ => _ end] => destruct X
      | |- context [if negb ?b then _ else _] => destruct b
      | |- context [match ?X with mkOutcome _ _ _ _ _ => _ end] =>
          lazymatch X with
          | context [match _ with mkOutcome _ _ _ _ _ => _ end] => fail
          | _ => destruct X
          end
      end ].

(** ** [rm]: the remover *)

Ltac run_removeOne :=
  unfold Rm.removeOne, resolved, bind, get, call, ret, Log; cbn.

(** C2: on a target that classification reports as a data object, the
    remover issues the classification query and then exactly one remote
    removal, [RemoveFile] on the resolved target path with the caller's
    [force]; no [RemoveDir] is issued.  It returns what that removal
    returned, wrapped when it is an error. *)
Theorem removeOne_data_object :
  forall (W : Type) (env : Collaborators W) (fs : FileSystem)
         (targetPath : string) (force recurse : bool) (w : W) (entry : Entry.t),
    fst (StatIRODSPath env fs (resolved env w targetPath) w) = Ok entry ->
    Entry.Type_ entry = FileEntry ->
    let p := resolved env w targetPath in
    let o := Rm.removeOne env fs targetPath force recurse w in
    calls o = [StatIRODSPath_ fs p; RemoveFile_ fs p force]
    /\ filter isRemoval (calls o) = [RemoveFile_ fs p force]
    /\ value o =
       match fst (RemoveFile env fs p force (snd (StatIRODSPath env fs p w))) with
       | Some err => Some (Wrap ("failed to remove " ++ p) err)
       | None => None
       end.
Proof.
  intros W env fs targetPath force recurse w entry Hstat Hfile p o.
  subst o p. revert Hstat. run_removeOne. intros Hstat.
  rewrite Hstat. cbn. rewrite Hfile. cbn.
  destruct (fst (RemoveFile env fs _ force _)); cbn; repeat split.
Qed.

Lemma removeOne_data_object_witness :
  let o := Rm.removeOne Fake.env Fake.fs "a" true false Fake.world in
  calls o = [StatIRODSPath_ Fake.fs "/tempZone/home/alice/a";
             RemoveFile_ Fake.fs "/tempZone/home/alice/a" true]
  /\ filter isRemoval (calls o) = [RemoveFile_ Fake.fs "/tempZone/home/alice/a" true]
  /\ value o = None.
Proof.
  exact (removeOne_data_object Fake.World Fake.env Fake.fs "a" true false Fake.world
           ({| Entry.Type_ := FileEntry; Entry.Path := "/tempZone/home/alice/a";
                        Entry.Name := "a"; Entry.Size := 12 |})
           eq_refl eq_refl).
Defined.

(** C1, as the code has it: on a target that classification reports as a
    collection, with [recurse] false, the remover returns the error
    "cannot remove a collection, recurse is not set" and has made no remote
    delete call, neither [RemoveFile] nor [RemoveDir]: its only call is the
    classification query.  Nothing is asked about the collection's content,
    so this holds for an empty collection as for any other. *)
Theorem removeOne_collection_without_recurse :
  forall (W : Type) (env : Collaborators W) (fs : FileSystem)
         (targetPath : string) (force : bool) (w : W) (entry : Entry.t),
    fst (StatIRODSPath env fs (resolved env w targetPath) w) = Ok entry ->
    Entry.Type_ entry = DirectoryEntry ->
    let o := Rm.removeOne env fs targetPath force false w in
    value o = Some (Errorf "cannot remove a collection, recurse is not set")
    /\ calls o = [StatIRODSPath_ fs (resolved env w targetPath)]
    /\ filter isRemoval (calls o) = [].
Proof.
  intros W env fs targetPath force w entry Hstat Hdir o.
  subst o. revert Hstat. run_removeOne. intros Hstat.
  rewrite Hstat. cbn. rewrite Hdir. cbn.
  repeat split.
Qed.

Lemma removeOne_collection_without_recurse_witness :
  let o := Rm.removeOne Fake.env Fake.fs "z" true false Fake.world in
  value o = Some (Errorf "cannot remove a collection, recurse is not set")
  /\ calls o = [StatIRODSPath_ Fake.fs "/tempZone/home/alice/z"]
  /\ filter isRemoval (calls o) = [].
Proof.
  exact (removeOne_collection_without_recurse Fake.World Fake.env Fake.fs "z" true
           Fake.world
           ({| Entry.Type_ := DirectoryEntry;
                        Entry.Path := "/tempZone/home/alice/z";
                        Entry.Name := "z"; Entry.Size := 0 |})
           eq_refl eq_refl).
Defined.

(** C1 as the spec words it fails on the message: on the collection
    [/tempZone/home/alice/z], with [recurse] false, the error the remover
    returns does not read "refusing to remove non-empty collection without
    recurse". *)
Lemma removeOne_gate_message_counterexample :
  (exists entry,
      fst (StatIRODSPath Fake.env Fake.fs
             (resolved Fake.env Fake.world "z") Fake.world) = Ok entry
      /\ Entry.Type_ entry = DirectoryEntry)
  /\ ~ (exists e,
         value (Rm.removeOne Fake.env Fake.fs "z" true false Fake.world)
         = Some e
         /\ Error e = "refusing to remove non-empty collection without recurse").
Proof.
  split.
  - eexists. split; reflexivity.
  - intros [e [Hvalue Hmsg]].
    vm_compute in Hvalue. inversion Hvalue; subst e.
    discriminate Hmsg.
Qed.

(** C7: every run of the remover makes exactly one classification query; when
    that query fails, with not-found or with anything else, the remover
    returns that error (wrapped with the path it was asked about), the query
    is its only call, and no remote removal of either kind is issued. *)
Theorem removeOne_classifies_once :
  forall (W : Type) (env : Collaborators W) (fs : FileSystem)
         (targetPath : string) (force recurse : bool) (w : W),
    let p := resolved env w targetPath in
    let o := Rm.removeOne env fs targetPath force recurse w in
    filter isStatIRODSPath (calls o) = [StatIRODSPath_ fs p]
    /\ forall err : error,
        fst (StatIRODSPath env fs p w) = Err err ->
        value o = Some (Wrap ("failed to stat " ++ p) err)
        /\ Unwrap (Wrap ("failed to stat " ++ p) err) = Some err
        /\ calls o = [StatIRODSPath_ fs p]
        /\ filter isRemoval (calls o) = [].
Proof.
  intros W env fs targetPath force recurse w p o. subst o p.
  run_removeOne. split.
  - destruct (fst (StatIRODSPath env fs _ w)) as [entry|err]; cbn; [|reflexivity].
    destruct (Entry.Type_ entry); cbn.
    + destruct (fst (RemoveFile env fs _ force _)); reflexivity.
    + destruct recurse; cbn; [|reflexivity].
      destruct (fst (RemoveDir env fs _ true force _)); reflexivity.
  - intros err Hstat. rewrite Hstat. cbn. repeat split.
Qed.

Lemma removeOne_classifies_once_witness :
  let p := "/tempZone/home/alice/missing" in
  let o := Rm.removeOne Fake.env Fake.fs "missing" false true Fake.world in
  fst (StatIRODSPath Fake.env Fake.fs p Fake.world) = Err (Fake.notFound p)
  /\ value o = Some (Wrap ("failed to stat " ++ p) (Fake.notFound p))
  /\ calls o = [StatIRODSPath_ Fake.fs p]
  /\ filter isRemoval (calls o) = [].
Proof.
  destruct (removeOne_classifies_once Fake.World Fake.env Fake.fs "missing" false true
              Fake.world) as [_ Hfail].
  destruct (Hfail (Fake.notFound "/tempZone/home/alice/missing") eq_refl)
    as [Hvalue [_ [Hcalls Hnone]]].
  repeat split; assumption.
Defined.

(** ** [ls]: the lister *)

Lemma SliceStable_by_key {A : Type} (key : A -> string) (l : list A) :
  stablySortedBy key (SliceStable (fun a b => string_lt (key a) (key b)) l) l.
Proof.
  repeat split.
  - apply SliceStable_Permutation.
  - apply (SliceStable_StronglySorted A (fun a b => string_lt (key a) (key b))).
    + intros a b. apply string_lt_asym.
    + intros a b c. unfold notAfter. apply string_notAfter_trans.
  - intros k. apply SliceStable_filter.
    intros a b Ha Hb.
    apply String.eqb_eq in Ha. apply String.eqb_eq in Hb.
    rewrite Ha, Hb. apply string_lt_irrefl.
Qed.

Lemma flat_map_singleton {A B : Type} (f : A -> B) (l : list A) :
  flat_map (fun x => [f x]) l = map f l.
Proof. induction l as [|x rest IH]; simpl; [|rewrite IH]; reflexivity. Qed.

(** A loop whose body only prints, prints the bodies' lines in order. *)
Lemma forEach_prints {W A : Type} (lines : A -> list string)
      (body : A -> M W unit) (xs : list A) (w : W) :
  (forall x w', body x w' = {| value := tt; world := w'; calls := [];
                               stdout := lines x; logged := [] |}) ->
  forEach xs body w = {| value := tt; world := w; calls := [];
                         stdout := flat_map lines xs; logged := [] |}.
Proof.
  intros Hbody. revert w.
  induction xs as [|x rest IH]; intros w; [reflexivity|].
  simpl. unfold bind. rewrite Hbody. cbn. rewrite IH. reflexivity.
Qed.

Lemma printDataObject_prints {W : Type} (env : Collaborators W)
      (entry : IRODSDataObject.t) (veryLongFormat longFormat : bool) (w : W) :
  Ls.printDataObject env entry veryLongFormat longFormat w
  = {| value := tt; world := w; calls := [];
       stdout := dataObjectLines env veryLongFormat longFormat entry;
       logged := [] |}.
Proof.
  unfold Ls.printDataObject, dataObjectLines.
  destruct veryLongFormat; [|destruct longFormat].
  - apply forEach_prints. intros; reflexivity.
  - rewrite <- flat_map_singleton.
    apply forEach_prints. intros; reflexivity.
  - reflexivity.
Qed.

Lemma printDataObjects_prints {W : Type} (env : Collaborators W)
      (entries : list IRODSDataObject.t) (veryLongFormat longFormat : bool) (w : W) :
  Ls.printDataObjects env entries veryLongFormat longFormat w
  = {| value := tt; world := w; calls := [];
       stdout := flat_map (dataObjectLines env veryLongFormat longFormat)
                          (SliceStable objectLess entries);
       logged := [] |}.
Proof.
  unfold Ls.printDataObjects. apply forEach_prints.
  intros entry w'. apply printDataObject_prints.
Qed.

Lemma printCollections_prints {W : Type} (env : Collaborators W)
      (entries : list IRODSCollection.t) (w : W) :
  Ls.printCollections (W := W) entries w
  = {| value := tt; world := w; calls := [];
       stdout := map collectionLine (SliceStable collectionLess entries);
       logged := [] |}.
Proof.
  unfold Ls.printCollections.
  rewrite <- flat_map_singleton.
  apply forEach_prints. intros; reflexivity.
Qed.

Ltac run_listOne :=
  unfold Ls.listOne, resolved, defer, bind, get, call, ret; cbn.

(** C4: when the collection lookup of the listed path succeeds, the lister
    fetches the sub-collections, then the direct data objects, and prints the
    data objects first and the sub-collections second, each set in the stable
    ascending order of its names.  In the short form a data object is its
    bare name and a collection is [C- ] and its full path. *)
Theorem listOne_collection :
  forall (W : Type) (env : Collaborators W) (fs : FileSystem)
         (sourcePath : string) (longFormat veryLongFormat : bool) (w : W)
         (conn : IRODSConnection) (collection : IRODSCollection.t)
         (colls : list IRODSCollection.t) (objs : list IRODSDataObject.t),
    let p := resolved env w sourcePath in
    let w1 := snd (GetMetadataConnection env fs w) in
    let w2 := snd (GetCollection env conn p w1) in
    let w3 := snd (ListSubCollections env conn p w2) in
    fst (GetMetadataConnection env fs w) = Ok conn ->
    fst (GetCollection env conn p w1) = Ok collection ->
    fst (ListSubCollections env conn p w2) = Ok colls ->
    fst (ListDataObjects env conn collection w3) = Ok objs ->
    let o := Ls.listOne env fs sourcePath longFormat veryLongFormat w in
    let sortedObjs := SliceStable objectLess objs in
    let sortedColls := SliceStable collectionLess colls in
    value o = None
    /\ calls o = [GetMetadataConnection_ fs; GetCollection_ conn p;
                  ListSubCollections_ conn p; ListDataObjects_ conn collection;
                  ReturnMetadataConnection_ fs conn]
    /\ stdout o = (flat_map (dataObjectLines env veryLongFormat longFormat) sortedObjs
                   ++ map collectionLine sortedColls)%list
    /\ stablySortedBy IRODSDataObject.Name sortedObjs objs
    /\ stablySortedBy IRODSCollection.Name sortedColls colls
    /\ (veryLongFormat = false -> longFormat = false ->
        stdout o = (map (fun e => ("  " ++ IRODSDataObject.Name e ++ newline)%string)
                        sortedObjs
                    ++ map collectionLine sortedColls)%list).
Proof.
  intros W env fs sourcePath longFormat veryLongFormat w conn collection colls objs
         p w1 w2 w3 Hconn Hcoll Hcolls Hobjs o sortedObjs sortedColls.
  assert (Hout : value o = None
                 /\ calls o = [GetMetadataConnection_ fs; GetCollection_ conn p;
                               ListSubCollections_ conn p;
                               ListDataObjects_ conn collection;
                               ReturnMetadataConnection_ fs conn]
                 /\ stdout o
                    = (flat_map (dataObjectLines env veryLongFormat longFormat)
                                sortedObjs
                       ++ map collectionLine sortedColls)%list).
  { subst o sortedObjs sortedColls w3 w2 w1 p.
    revert Hconn Hcoll Hcolls Hobjs. run_listOne. intros Hconn.
    rewrite Hconn. cbn. intros Hcoll. rewrite Hcoll. cbn.
    intros Hcolls. rewrite Hcolls. cbn. intros Hobjs. rewrite Hobjs. cbn.
    rewrite printDataObjects_prints. cbn.
    rewrite (printCollections_prints env). cbn.
    rewrite !app_nil_r. repeat split. }
  destruct Hout as [Hvalue [Hcalls Hstdout]].
  repeat split; try assumption.
  - apply (SliceStable_by_key IRODSDataObject.Name objs).
  - apply (SliceStable_by_key IRODSDataObject.Name objs).
  - apply (SliceStable_by_key IRODSDataObject.Name objs).
  - apply (SliceStable_by_key IRODSCollection.Name colls).
  - apply (SliceStable_by_key IRODSCollection.Name colls).
  - apply (SliceStable_by_key IRODSCollection.Name colls).
  - intros Hvery Hlong. rewrite Hstdout. subst veryLongFormat longFormat.
    unfold dataObjectLines.
    rewrite flat_map_singleton. reflexivity.
Qed.

(** The collection of section 8: objects enumerated [b, a] and
    sub-collections enumerated [z, y] are printed [a, b], then [y, z]. *)
Lemma listOne_collection_witness :
  let o := Ls.listOne Fake.env Fake.fs "." false false Fake.world in
  fst (ListSubCollections Fake.env (ConnectionHandle 1)
         "/tempZone/home/alice" Fake.world)
  = Ok (map Fake.coll ["/tempZone/home/alice/z"; "/tempZone/home/alice/y"])
  /\ fst (ListDataObjects Fake.env (ConnectionHandle 1)
            (Fake.coll "/tempZone/home/alice") Fake.world)
     = Ok (map Fake.obj ["/tempZone/home/alice/b"; "/tempZone/home/alice/a"])
  /\ value o = None
  /\ stdout o = ["  a" ++ newline; "  b" ++ newline;
                 "  C- /tempZone/home/alice/y" ++ newline;
                 "  C- /tempZone/home/alice/z" ++ newline].
Proof.
  pose proof (listOne_collection Fake.World Fake.env Fake.fs "." false false Fake.world
                (ConnectionHandle 1)
                (Fake.coll "/tempZone/home/alice")
                (map Fake.coll ["/tempZone/home/alice/z";
                                         "/tempZone/home/alice/y"])
                (map Fake.obj ["/tempZone/home/alice/b";
                                       "/tempZone/home/alice/a"])
                eq_refl eq_refl eq_refl eq_refl) as H.
  cbv zeta in H. destruct H as [Hvalue [_ [_ [_ [_ Hshort]]]]].
  split; [reflexivity|]. split; [reflexivity|]. split.
  - exact Hvalue.
  - rewrite (Hshort eq_refl eq_refl). reflexivity.
Defined.

(** C5: the status mark is a total three-way mapping: ["1"] gives [&], ["0"]
    gives [X], and every other string gives [?]. *)
Theorem getStatusMark_total :
  forall status : string,
    (status = "1" -> Ls.getStatusMark status = "&")
    /\ (status = "0" -> Ls.getStatusMark status = "X")
    /\ (status <> "1" -> status <> "0" -> Ls.getStatusMark status = "?")
    /\ In (Ls.getStatusMark status) ["&"; "X"; "?"].
Proof.
  intros status. unfold Ls.getStatusMark.
  destruct (String.eqb_spec status "0") as [H0|H0];
    [|destruct (String.eqb_spec status "1") as [H1|H1]].
  - subst status. repeat split; try congruence. simpl; auto.
  - subst status. repeat split; try congruence. simpl; auto.
  - repeat split; try congruence. simpl; auto.
Qed.

Lemma getStatusMark_total_witness :
  Ls.getStatusMark "1" = "&" /\ Ls.getStatusMark "0" = "X"
  /\ Ls.getStatusMark "9" = "?" /\ Ls.getStatusMark "" = "?".
Proof.
  destruct (getStatusMark_total "1") as [H1 _].
  destruct (getStatusMark_total "0") as [_ [H0 _]].
  destruct (getStatusMark_total "9") as [_ [_ [H9 _]]].
  destruct (getStatusMark_total "") as [_ [_ [He _]]].
  split; [|split; [|split]].
  - apply H1. reflexivity.
  - apply H0. reflexivity.
  - apply H9; discriminate.
  - apply He; discriminate.
Defined.

(** C6: when the collection lookup of the listed path fails with not-found,
    the lister looks up the parent collection and fetches the single entry
    of the path's base name there, and prints that entry.  When the first
    lookup fails with another error, or the parent lookup fails with any
    error, the lister returns that error, wrapped; it has made each lookup
    once and has printed nothing. *)
Theorem listOne_falls_back_to_data_object :
  forall (W : Type) (env : Collaborators W) (fs : FileSystem)
         (sourcePath : string) (longFormat veryLongFormat : bool) (w : W)
         (conn : IRODSConnection) (err : error),
    let p := resolved env w sourcePath in
    let w1 := snd (GetMetadataConnection env fs w) in
    let w2 := snd (GetCollection env conn p w1) in
    let w3 := snd (GetCollection env conn (Path.Dir p) w2) in
    let o := Ls.listOne env fs sourcePath longFormat veryLongFormat w in
    fst (GetMetadataConnection env fs w) = Ok conn ->
    fst (GetCollection env conn p w1) = Err err ->
    (IsFileNotFoundError env err = false ->
     value o = Some (Wrap ("failed to get collection " ++ p) err)
     /\ calls o = [GetMetadataConnection_ fs; GetCollection_ conn p;
                   ReturnMetadataConnection_ fs conn]
     /\ stdout o = [])
    /\ (IsFileNotFoundError env err = true ->
        (forall parentErr,
            fst (GetCollection env conn (Path.Dir p) w2) = Err parentErr ->
            value o = Some (Wrap ("failed to get collection " ++ Path.Dir p) parentErr)
            /\ calls o = [GetMetadataConnection_ fs; GetCollection_ conn p;
                          GetCollection_ conn (Path.Dir p);
                          ReturnMetadataConnection_ fs conn]
            /\ stdout o = [])
        /\ (forall parentCollection,
               fst (GetCollection env conn (Path.Dir p) w2) = Ok parentCollection ->
               calls o = [GetMetadataConnection_ fs; GetCollection_ conn p;
                          GetCollection_ conn (Path.Dir p);
                          GetDataObject_ conn parentCollection (Path.Base p);
                          ReturnMetadataConnection_ fs conn]
               /\ (forall entry,
                      fst (GetDataObject env conn parentCollection (Path.Base p) w3)
                      = Ok entry ->
                      value o = None
                      /\ stdout o = dataObjectLines env veryLongFormat longFormat entry)
               /\ (forall entryErr,
                      fst (GetDataObject env conn parentCollection (Path.Base p) w3)
                      = Err entryErr ->
                      value o = Some (Wrap ("failed to get data-object " ++ p) entryErr)
                      /\ stdout o = []))).
Proof.
  intros W env fs sourcePath longFormat veryLongFormat w conn err p w1 w2 w3 o
         Hconn Hcoll.
  subst o w3 w2 w1 p. revert Hconn Hcoll. run_listOne.
  intros Hconn. rewrite Hconn. cbn. intros Hcoll. rewrite Hcoll. cbn.
  split.
  - intros Hother. rewrite Hother. cbn. repeat split.
  - intros Hnotfound. rewrite Hnotfound. cbn. split.
    + intros parentErr Hparent. rewrite Hparent. cbn. repeat split.
    + intros parentCollection Hparent. rewrite Hparent. cbn. split; [|split].
      * destruct (fst (GetDataObject env conn parentCollection _ _)); cbn;
          [rewrite printDataObject_prints|]; reflexivity.
      * intros entry Hentry. rewrite Hentry. cbn.
        rewrite printDataObject_prints. cbn. rewrite !app_nil_r. split; reflexivity.
      * intros entryErr Hentry. rewrite Hentry. cbn. split; reflexivity.
Qed.

Lemma listOne_falls_back_to_data_object_witness :
  let o := Ls.listOne Fake.env Fake.fs "a" false false Fake.world in
  let o' := Ls.listOne Fake.env Fake.fs "nowhere/x" false false Fake.world in
  (value o = None
   /\ calls o = [GetMetadataConnection_ Fake.fs;
                 GetCollection_ (ConnectionHandle 1) "/tempZone/home/alice/a";
                 GetCollection_ (ConnectionHandle 1) "/tempZone/home/alice";
                 GetDataObject_ (ConnectionHandle 1)
                                (Fake.coll "/tempZone/home/alice") "a";
                 ReturnMetadataConnection_ Fake.fs (ConnectionHandle 1)]
   /\ stdout o = ["  a" ++ newline])
  /\ (value o' = Some (Wrap "failed to get collection /tempZone/home/alice/nowhere"
                            (Fake.notFound "/tempZone/home/alice/nowhere"))
      /\ stdout o' = []).
Proof.
  split.
  - destruct (listOne_falls_back_to_data_object Fake.World Fake.env Fake.fs "a"
                false false Fake.world
                (ConnectionHandle 1)
                (Fake.notFound "/tempZone/home/alice/a")
                eq_refl eq_refl) as [_ Hfallback].
    destruct (Hfallback eq_refl) as [_ Hparent].
    destruct (Hparent (Fake.coll "/tempZone/home/alice") eq_refl)
      as [Hcalls [Hentry _]].
    destruct (Hentry (Fake.obj "/tempZone/home/alice/a") eq_refl) as [Hvalue Hstdout].
    repeat split; assumption.
  - destruct (listOne_falls_back_to_data_object Fake.World Fake.env Fake.fs "nowhere/x"
                false false Fake.world
                (ConnectionHandle 1)
                (Fake.notFound "/tempZone/home/alice/nowhere/x")
                eq_refl eq_refl) as [_ Hfallback].
    destruct (Hfallback eq_refl) as [Hparent _].
    destruct (Hparent (Fake.notFound "/tempZone/home/alice/nowhere") eq_refl)
      as [Hvalue [_ Hstdout]].
    split; assumption.
Defined.

(** ** The command loops *)

(** One turn of the loop. *)
Lemma range_cons {W A : Type} (x : A) (rest : list A) (body : A -> M W (option error))
      (wrap : A -> error -> error) (w : W) :
  let o1 := body x w in
  let o := range (x :: rest) body wrap w in
  match value o1 with
  | Some err =>
      value o = Some (wrap x err) /\ world o = world o1
      /\ calls o = calls o1 /\ stdout o = stdout o1 /\ logged o = logged o1
  | None =>
      let o2 := range rest body wrap (world o1) in
      value o = value o2 /\ world o = world o2
      /\ calls o = (calls o1 ++ calls o2)%list
      /\ stdout o = (stdout o1 ++ stdout o2)%list
      /\ logged o = (logged o1 ++ logged o2)%list
  end.
Proof.
  cbn. unfold bind.
  destruct (body x w) as [[err|] w1 calls1 stdout1 logged1]; cbn.
  - rewrite !app_nil_r. repeat split.
  - destruct (range rest body wrap w1); cbn. repeat split.
Qed.

(** A loop over [pre ++ post] whose bodies on [pre] all return [nil] goes on
    with [post] in the world [pre] left. *)
Lemma range_app {W A : Type} (pre post : list A) (body : A -> M W (option error))
      (wrap : A -> error -> error) (w : W) :
  value (range pre body wrap w) = None ->
  let o1 := range pre body wrap w in
  let o2 := range post body wrap (world o1) in
  let o := range (pre ++ post)%list body wrap w in
  value o = value o2 /\ world o = world o2
  /\ calls o = (calls o1 ++ calls o2)%list
  /\ stdout o = (stdout o1 ++ stdout o2)%list
  /\ logged o = (logged o1 ++ logged o2)%list.
Proof.
  revert w. induction pre as [|x pre IH]; intros w Hok.
  - repeat split.
  - pose proof (range_cons x pre body wrap w) as Hpre.
    pose proof (range_cons x (pre ++ post)%list body wrap w) as Hall.
    cbv zeta in Hpre, Hall. cbv zeta.
    change ((x :: pre) ++ post)%list with (x :: (pre ++ post))%list.
    destruct (value (body x w)) as [err|].
    + destruct Hpre as [Hv _]. rewrite Hv in Hok. discriminate.
    + destruct Hpre as [Hv [Hw [Hc [Hs Hl]]]].
      destruct Hall as [Hv' [Hw' [Hc' [Hs' Hl']]]].
      rewrite Hv in Hok.
      destruct (IH (world (body x w)) Hok) as [Hv2 [Hw2 [Hc2 [Hs2 Hl2]]]].
      rewrite Hv', Hw', Hc', Hs', Hl', Hw, Hc, Hs, Hl, Hv2, Hw2, Hc2, Hs2, Hl2.
      rewrite <- !app_assoc. repeat split.
Qed.

(** The loop stops at the first body that returns an error. *)
Lemma range_stops {W A : Type} (x : A) (post : list A) (body : A -> M W (option error))
      (wrap : A -> error -> error) (w : W) (err : error) :
  value (body x w) = Some err ->
  let o := range (x :: post) body wrap w in
  value o = Some (wrap x err) /\ world o = world (body x w)
  /\ calls o = calls (body x w)
  /\ stdout o = stdout (body x w)
  /\ logged o = logged (body x w).
Proof.
  intros Hx. pose proof (range_cons x post body wrap w) as Hcons.
  cbv zeta in Hcons. rewrite Hx in Hcons. exact Hcons.
Qed.

Lemma range_aborts {W A : Type} (pre : list A) (x : A) (post : list A)
      (body : A -> M W (option error)) (wrap : A -> error -> error) (w : W)
      (err : error) :
  value (range pre body wrap w) = None ->
  value (body x (world (range pre body wrap w))) = Some err ->
  let o1 := range pre body wrap w in
  let o2 := body x (world o1) in
  let o := range (pre ++ x :: post)%list body wrap w in
  value o = Some (wrap x err)
  /\ calls o = (calls o1 ++ calls o2)%list
  /\ stdout o = (stdout o1 ++ stdout o2)%list.
Proof.
  intros Hpre Hx.
  destruct (range_app pre (x :: post) body wrap w Hpre) as [Hv [_ [Hc [Hs _]]]].
  destruct (range_stops x post body wrap (world (range pre body wrap w)) err Hx)
    as [Hv' [_ [Hc' [Hs' _]]]].
  cbv zeta in *. rewrite Hv, Hc, Hs, Hv', Hc', Hs'. repeat split.
Qed.

Lemma processRmCommand_after_prelude {W : Type} (env : Collaborators W)
      (command : Command.t) (args : list string) (w : W) (fs : FileSystem) :
  preludePasses env command w fs ->
  continuesAs (Rm.processRmCommand env command args w)
              (preludeCalls env command w)
              (removeAll env fs (boolFlag command "force") (boolFlag command "recurse")
                         args (afterPrelude env command w))
              [Release_ fs].
Proof.
  unfold preludePasses, continuesAs, afterPrelude, accountOf, afterMissingFields,
    preludeCalls, Rm.processRmCommand, removeAll, defer, bind, call, ret.
  cbn. intros [Hflags [Hmissing Hclient]].
  rewrite Hflags. cbn. rewrite Hmissing. cbn. rewrite Hclient. cbn.
  name_outcomes. rewrite ?app_nil_r. repeat split.
Qed.

Lemma processLsCommand_after_prelude {W : Type} (env : Collaborators W)
      (command : Command.t) (args : list string) (w : W) (fs : FileSystem) :
  preludePasses env command w fs ->
  continuesAs (Ls.processLsCommand env command args w)
              (preludeCalls env command w)
              (listAll env fs (boolFlag command "long") (boolFlag command "verylong")
                       (match args with [] => ["."] | _ => args end)
                       (afterPrelude env command w))
              [Release_ fs].
Proof.
  unfold preludePasses, continuesAs, afterPrelude, accountOf, afterMissingFields,
    preludeCalls, Ls.processLsCommand, listAll, defer, bind, call, ret.
  cbn. intros [Hflags [Hmissing Hclient]].
  rewrite Hflags. cbn. rewrite Hmissing. cbn. rewrite Hclient. cbn.
  name_outcomes. rewrite ?app_nil_r. repeat split.
Qed.

(** ** Flags *)

(** C9: when [strconv.ParseBool] fails on the text of a boolean flag, the
    flag is false and flag processing returns no error: the command goes on
    to its arguments with that flag false, and whatever it returns is what
    its work on the arguments returns.  This holds for [recurse] and [force]
    of [rm] and for [long] and [verylong] of [ls]. *)
Theorem malformed_flag_defaults_to_false :
  forall (W : Type) (env : Collaborators W) (command : Command.t)
         (name text : string) (parseErr : error),
    Command.Lookup command name = Some text ->
    ParseBool text = Err parseErr ->
    boolFlag command name = false
    /\ forall (args : list string) (w : W) (fs : FileSystem),
        preludePasses env command w fs ->
        let w0 := afterPrelude env command w in
        let before := preludeCalls env command w in
        (name = "recurse" ->
         continuesAs (Rm.processRmCommand env command args w) before
                     (removeAll env fs (boolFlag command "force") false args w0)
                     [Release_ fs])
        /\ (name = "force" ->
            continuesAs (Rm.processRmCommand env command args w) before
                        (removeAll env fs false (boolFlag command "recurse") args w0)
                        [Release_ fs])
        /\ (name = "long" ->
            continuesAs (Ls.processLsCommand env command args w) before
                        (listAll env fs false (boolFlag command "verylong")
                                 (match args with [] => ["."] | _ => args end) w0)
                        [Release_ fs])
        /\ (name = "verylong" ->
            continuesAs (Ls.processLsCommand env command args w) before
                        (listAll env fs (boolFlag command "long") false
                                 (match args with [] => ["."] | _ => args end) w0)
                        [Release_ fs]).
Proof.
  intros W env command name text parseErr Hlookup Hparse.
  assert (Hfalse : boolFlag command name = false).
  { unfold boolFlag. rewrite Hlookup, Hparse. reflexivity. }
  split; [exact Hfalse|].
  intros args w fs Hprelude w0 before. subst w0 before.
  pose proof (processRmCommand_after_prelude env command args w fs Hprelude) as Hrm.
  pose proof (processLsCommand_after_prelude env command args w fs Hprelude) as Hls.
  split; [|split; [|split]]; intros Hname; subst name; rewrite Hfalse in *;
    assumption.
Qed.

Lemma malformed_flag_defaults_to_false_witness :
  let command := {| Command.Flags := [("recurse", "yes"); ("force", "true")] |} in
  let o := Rm.processRmCommand Fake.env command ["z"] Fake.world in
  (exists parseErr, ParseBool "yes" = Err parseErr)
  /\ boolFlag command "recurse" = false
  /\ value o = Some (Wrap "failed to perform rm z"
                          (Errorf "cannot remove a collection, recurse is not set"))
  /\ calls o = [ProcessCommonFlags_ command; InputMissingFields_; GetAccount_;
                GetIRODSFSClient_ (Account "alice");
                StatIRODSPath_ Fake.fs "/tempZone/home/alice/z";
                Release_ Fake.fs].
Proof.
  destruct (@malformed_flag_defaults_to_false Fake.World Fake.env
              {| Command.Flags := [("recurse", "yes"); ("force", "true")] |}
              "recurse" "yes"
              (External 0 ("strconv.ParseBool: parsing " ++ quote ++ "yes"
                           ++ quote ++ ": invalid syntax"))
              eq_refl eq_refl) as [Hfalse Hgoes].
  destruct (Hgoes ["z"] Fake.world Fake.fs (conj eq_refl (conj eq_refl eq_refl)))
    as [Hrecurse _].
  destruct (Hrecurse eq_refl) as [Hvalue [Hcalls _]].
  split; [eexists; reflexivity|].
  split; [exact Hfalse|].
  split; [rewrite Hvalue|rewrite Hcalls]; reflexivity.
Defined.

(** ** [ls]: the source paths *)

Lemma resolved_dot {W : Type} (env : Collaborators W) (w : W) :
  resolved env w "." = Path.Clean (GetCWD env w).
Proof. reflexivity. Qed.

(** C10: with no argument [ls] lists exactly one path, [.], and that path is
    the current working collection (a normalized path: cleaning leaves it
    as it is).  With arguments it lists them in their order, and the first
    listing that fails ends the run: its error is returned, wrapped with the
    path, and the paths after it are not listed. *)
Theorem processLsCommand_source_paths :
  forall (W : Type) (env : Collaborators W) (command : Command.t)
         (args : list string) (w : W) (fs : FileSystem),
    preludePasses env command w fs ->
    let w0 := afterPrelude env command w in
    let before := preludeCalls env command w in
    let longFormat := boolFlag command "long" in
    let veryLongFormat := boolFlag command "verylong" in
    let list1 := fun sourcePath =>
                   Ls.listOne env fs sourcePath longFormat veryLongFormat in
    let listed := fun sourcePaths =>
                    listAll env fs longFormat veryLongFormat sourcePaths in
    let o := Ls.processLsCommand env command args w in
    (* no argument: the one path [.] *)
    (args = [] ->
     value o = match value (list1 "." w0) with
               | Some err => Some (Wrap "failed to perform ls ." err)
               | None => None
               end
     /\ calls o = (before ++ calls (list1 "." w0) ++ [Release_ fs])%list
     /\ stdout o = stdout (list1 "." w0)
     /\ (Path.Clean (GetCWD env w0) = GetCWD env w0 ->
         resolved env w0 "." = GetCWD env w0
         /\ forall conn,
             fst (GetMetadataConnection env fs w0) = Ok conn ->
             firstn 2 (calls (list1 "." w0))
             = [GetMetadataConnection_ fs; GetCollection_ conn (GetCWD env w0)]))
    (* arguments: each in turn *)
    /\ (args <> [] -> continuesAs o before (listed args w0) [Release_ fs])
    /\ (forall sourcePath rest w',
           let o1 := list1 sourcePath w' in
           calls (listed (sourcePath :: rest) w')
           = (calls o1
              ++ match value o1 with
                 | Some _ => []
                 | None => calls (listed rest (world o1))
                 end)%list)
    (* the first failure ends the run *)
    /\ (forall pre sourcePath post err,
           args = (pre ++ sourcePath :: post)%list ->
           value (listed pre w0) = None ->
           value (list1 sourcePath (world (listed pre w0))) = Some err ->
           value o = Some (Wrap ("failed to perform ls " ++ sourcePath) err)
           /\ calls o = (before ++ calls (listed pre w0)
                         ++ calls (list1 sourcePath (world (listed pre w0)))
                         ++ [Release_ fs])%list
           /\ stdout o = (stdout (listed pre w0)
                          ++ stdout (list1 sourcePath (world (listed pre w0))))%list).
Proof.
  intros W env command args w fs Hprelude w0 before longFormat veryLongFormat
         list1 listed o.
  pose proof (processLsCommand_after_prelude env command args w fs Hprelude)
    as [Hvalue [Hcalls Hstdout]].
  fold w0 before longFormat veryLongFormat in Hvalue, Hcalls, Hstdout.
  fold (listed (match args with [] => ["."] | _ => args end) w0)
    in Hvalue, Hcalls, Hstdout.
  fold o in Hvalue, Hcalls, Hstdout.
  assert (Hturn : forall sourcePath rest w',
             let o1 := list1 sourcePath w' in
             let o' := listed (sourcePath :: rest) w' in
             match value o1 with
             | Some err =>
                 value o' = Some (Wrap ("failed to perform ls " ++ sourcePath) err)
                 /\ world o' = world o1
                 /\ calls o' = calls o1 /\ stdout o' = stdout o1
                 /\ logged o' = logged o1
             | None =>
                 let o2 := listed rest (world o1) in
                 value o' = value o2 /\ world o' = world o2
                 /\ calls o' = (calls o1 ++ calls o2)%list
                 /\ stdout o' = (stdout o1 ++ stdout o2)%list
                 /\ logged o' = (logged o1 ++ logged o2)%list
             end).
  { intros sourcePath rest w'.
    exact (range_cons sourcePath rest list1
             (fun sourcePath err => Wrap ("failed to perform ls " ++ sourcePath) err)
             w'). }
  split; [|split; [|split]].
  - intros Hnil. rewrite Hnil in Hvalue, Hcalls, Hstdout.
    pose proof (Hturn "." [] w0) as Hdot. cbv zeta in Hdot.
    rewrite Hvalue, Hcalls, Hstdout.
    split; [|split; [|split]].
    + destruct (value (list1 "." w0)); destruct Hdot as [Hv _]; exact Hv.
    + destruct (value (list1 "." w0)); destruct Hdot as [_ [_ [Hc _]]];
        rewrite Hc; [|rewrite app_nil_r]; reflexivity.
    + destruct (value (list1 "." w0)); destruct Hdot as [_ [_ [_ [Hs _]]]];
        rewrite Hs; [|rewrite app_nil_r]; reflexivity.
    + intros Hclean. split.
      * rewrite resolved_dot. exact Hclean.
      * intros conn Hconn.
        assert (Hsame : resolved env w0 "." = GetCWD env w0)
          by (rewrite resolved_dot; exact Hclean).
        subst list1. cbv beta. clear - Hconn Hsame.
        revert Hconn Hsame. run_listOne. intros Hconn Hsame.
        rewrite Hconn. cbn. rewrite Hsame.
        walk_run; reflexivity.
  - intros Hargs. unfold continuesAs.
    destruct args as [|a args']; [congruence|].
    repeat split; assumption.
  - intros sourcePath rest w'. cbv zeta.
    pose proof (Hturn sourcePath rest w') as Hcons. cbv zeta in Hcons.
    destruct (value (list1 sourcePath w')).
    + destruct Hcons as [_ [_ [Hc _]]]. rewrite Hc, app_nil_r. reflexivity.
    + destruct Hcons as [_ [_ [Hc _]]]. exact Hc.
  - intros pre sourcePath post err Hargs Hpre Hfail.
    assert (Hne : match args with [] => ["."] | _ => args end = args).
    { rewrite Hargs. destruct pre; reflexivity. }
    rewrite Hne, Hargs in Hvalue, Hcalls, Hstdout.
    destruct (range_aborts pre sourcePath post list1
                (fun sourcePath err => Wrap ("failed to perform ls " ++ sourcePath) err)
                w0 err Hpre Hfail) as [Hv [Hc Hs]].
    rewrite Hvalue, Hcalls, Hstdout.
    unfold listed, listAll. fold list1.
    rewrite Hv, Hc, Hs, <- !app_assoc. repeat split.
Qed.

Lemma processLsCommand_source_paths_witness :
  let command := {| Command.Flags := [("long", "false"); ("verylong", "false")] |} in
  let o := Ls.processLsCommand Fake.env command [] Fake.world in
  let o' := Ls.processLsCommand Fake.env command ["a"; "nowhere/x"; "."]
                                Fake.world in
  (firstn 2 (calls (Ls.listOne Fake.env Fake.fs "." false false Fake.world))
   = [GetMetadataConnection_ Fake.fs;
      GetCollection_ (ConnectionHandle 1) "/tempZone/home/alice"]
   /\ stdout o = ["  a" ++ newline; "  b" ++ newline;
                  "  C- /tempZone/home/alice/y" ++ newline;
                  "  C- /tempZone/home/alice/z" ++ newline])
  /\ (value o' = Some (Wrap "failed to perform ls nowhere/x"
                         (Wrap "failed to get collection /tempZone/home/alice/nowhere"
                               (Fake.notFound "/tempZone/home/alice/nowhere")))
      /\ stdout o' = ["  a" ++ newline]).
Proof.
  split.
  - destruct (@processLsCommand_source_paths Fake.World Fake.env
                {| Command.Flags := [("long", "false"); ("verylong", "false")] |}
                [] Fake.world Fake.fs
                (conj eq_refl (conj eq_refl eq_refl))) as [Hnone _].
    destruct (Hnone eq_refl) as [_ [_ [Hstdout Hcwd]]].
    destruct (Hcwd eq_refl) as [_ Hfirst].
    split.
    + exact (Hfirst (ConnectionHandle 1) eq_refl).
    + rewrite Hstdout. reflexivity.
  - destruct (@processLsCommand_source_paths Fake.World Fake.env
                {| Command.Flags := [("long", "false"); ("verylong", "false")] |}
                ["a"; "nowhere/x"; "."] Fake.world Fake.fs
                (conj eq_refl (conj eq_refl eq_refl))) as [_ [_ [_ Habort]]].
    destruct (Habort ["a"] "nowhere/x" ["."]
                (Wrap "failed to get collection /tempZone/home/alice/nowhere"
                      (Fake.notFound "/tempZone/home/alice/nowhere"))
                eq_refl eq_refl eq_refl) as [Hvalue [_ Hstdout]].
    split.
    + exact Hvalue.
    + rewrite Hstdout. reflexivity.
Defined.

(** ** [path.Clean] on rooted paths *)

Lemma elements_nonempty (s : string) : Path.elements s <> [].
Proof.
  destruct s as [|c s]; simpl; [discriminate|].
  destruct (Path.is_slash c); [discriminate|].
  destruct (Path.elements s); discriminate.
Qed.

Lemma elements_slashless (s : string) : Forall (fun e => slashless e = true) (Path.elements s).
Proof.
  induction s as [|c s IH]; simpl.
  - repeat constructor.
  - destruct (Path.is_slash c) eqn:Hc.
    + constructor; [reflexivity | exact IH].
    + destruct (Path.elements s) as [|e es]; [repeat constructor; simpl; now rewrite Hc|].
      inversion IH; subst. constructor; [|assumption].
      simpl. rewrite Hc. assumption.
Qed.

Lemma elements_of_slashless (e : string) : slashless e = true -> Path.elements e = [e].
Proof.
  induction e as [|c e IH]; simpl; [reflexivity|].
  intros H. apply andb_true_iff in H. destruct H as [Hc He].
  apply negb_true_iff in Hc. rewrite Hc, (IH He). reflexivity.
Qed.

Lemma elements_app_slash (e t : string) :
  slashless e = true -> Path.elements (e ++ "/" ++ t) = e :: Path.elements t.
Proof.
  induction e as [|c e IH]; [reflexivity|].
  intros H. simpl in H. apply andb_true_iff in H. destruct H as [Hc He].
  apply negb_true_iff in Hc.
  change (Path.elements (String c e ++ "/" ++ t))
    with (if Path.is_slash c then "" :: Path.elements (e ++ "/" ++ t)
          else match Path.elements (e ++ "/" ++ t) with
               | [] => [String c ""]
               | e0 :: es => String c e0 :: es
               end).
  rewrite Hc, (IH He). reflexivity.
Qed.

Lemma elements_concat (kept : list string) :
  kept <> [] -> Forall (fun e => slashless e = true) kept ->
  Path.elements (String.concat "/" kept) = kept.
Proof.
  induction kept as [|e rest IH]; [congruence|].
  intros _ Hall. inversion Hall as [|? ? He Hrest]; subst.
  destruct rest as [|e' rest'].
  - simpl. apply elements_of_slashless, He.
  - change (String.concat "/" (e :: e' :: rest'))
      with (e ++ "/" ++ String.concat "/" (e' :: rest')).
    rewrite elements_app_slash by exact He.
    rewrite IH; [reflexivity | discriminate | exact Hrest].
Qed.

Lemma clean_step_rooted_plain (written : list string) (e : string) :
  slashless e = true -> Forall plain written ->
  Forall plain (Path.clean_step true written e).
Proof.
  intros He Hw. unfold Path.clean_step.
  destruct (String.eqb_spec e "") as [|Hne]; [assumption|].
  destruct (String.eqb_spec e ".") as [|Hnd]; [assumption|]. simpl.
  destruct (String.eqb_spec e "..") as [|Hndd].
  - destruct written as [|top below]; [constructor|].
    inversion Hw as [|? ? Htop Hbelow]; subst.
    destruct (String.eqb_spec top "..") as [Heq|]; [|assumption].
    destruct Htop as [_ [_ [_ Htop]]]. congruence.
  - constructor; [|assumption]. repeat split; assumption.
Qed.

Lemma fold_clean_step_rooted_plain (elems written : list string) :
  Forall (fun e => slashless e = true) elems -> Forall plain written ->
  Forall plain (fold_left (Path.clean_step true) elems written).
Proof.
  revert written. induction elems as [|e elems IH]; intros written He Hw; simpl.
  - assumption.
  - inversion He; subst. apply IH; [assumption|].
    apply clean_step_rooted_plain; assumption.
Qed.

Lemma fold_clean_step_plain (r : bool) (kept written : list string) :
  Forall plain kept ->
  fold_left (Path.clean_step r) kept written = (rev kept ++ written)%list.
Proof.
  revert written. induction kept as [|e kept IH]; intros written Hk; simpl.
  - reflexivity.
  - inversion Hk as [|? ? He Hrest]; subst.
    destruct He as [_ [Hne [Hnd Hndd]]].
    rewrite IH by assumption. rewrite <- app_assoc. simpl.
    f_equal. unfold Path.clean_step.
    destruct (String.eqb_spec e ""); [congruence|].
    destruct (String.eqb_spec e "."); [congruence|].
    destruct (String.eqb_spec e ".."); [congruence|]. reflexivity.
Qed.

Lemma Clean_rooted (s : string) : Path.rooted s = true -> Path.rooted (Path.Clean s) = true.
Proof. intros H. unfold Path.Clean. rewrite H. reflexivity. Qed.

Lemma Clean_of_rooted (s : string) :
  Path.rooted s = true ->
  exists kept, Forall plain kept /\ Path.Clean s = "/" ++ String.concat "/" kept.
Proof.
  intros H. unfold Path.Clean. rewrite H.
  exists (rev (fold_left (Path.clean_step true) (Path.elements s) [])).
  split; [|reflexivity].
  apply Forall_rev, fold_clean_step_rooted_plain; [apply elements_slashless|constructor].
Qed.

Lemma Clean_plain (kept : list string) :
  Forall plain kept ->
  Path.Clean ("/" ++ String.concat "/" kept) = "/" ++ String.concat "/" kept.
Proof.
  intros Hk. unfold Path.Clean.
  change (Path.rooted ("/" ++ String.concat "/" kept)) with true. cbv iota.
  change (Path.elements ("/" ++ String.concat "/" kept))
    with ("" :: Path.elements (String.concat "/" kept)).
  destruct kept as [|e rest]; [reflexivity|].
  remember (e :: rest) as kept eqn:Hkept.
  rewrite elements_concat.
  - simpl fold_left. change (Path.clean_step true [] "") with (@nil string).
    rewrite fold_clean_step_plain by exact Hk.
    rewrite app_nil_r, rev_involutive. reflexivity.
  - subst kept. discriminate.
  - eapply Forall_impl; [|exact Hk]. intros a Ha. apply Ha.
Qed.

Lemma Clean_idempotent_rooted (s : string) :
  Path.rooted s = true -> Path.Clean (Path.Clean s) = Path.Clean s.
Proof.
  intros H. destruct (Clean_of_rooted s H) as [kept [Hk Heq]].
  rewrite Heq. apply Clean_plain, Hk.
Qed.

(** A rooted, clean path resolves to itself, whatever the session. *)
Lemma MakeIRODSPath_rooted_clean (cwd home zone p : string) :
  Path.rooted p = true -> Path.Clean p = p ->
  Commons.MakeIRODSPath cwd home zone p = p.
Proof.
  intros Hrooted Hclean. unfold Commons.MakeIRODSPath.
  destruct p as [|c p']; [discriminate|].
  simpl in Hrooted. unfold Path.is_slash in Hrooted.
  apply Ascii.eqb_eq in Hrooted. subst c.
  change (String "/" p' =? "") with false.
  change (String "/" p' =? ".") with false.
  change (String.prefix "~" (String "/" p')) with false.
  change (Path.rooted (String "/" p')) with true.
  exact Hclean.
Qed.

Lemma Join_rooted (a b : string) :
  Path.rooted a = true ->
  Path.rooted (Path.Join a b) = true /\ Path.Clean (Path.Join a b) = Path.Join a b.
Proof.
  intros Hrooted. unfold Path.Join.
  destruct a as [|c a']; [discriminate|].
  change (String c a' =? "") with false. cbv iota. simpl andb. cbv iota.
  assert (H : Path.rooted (String c a' ++ "/" ++ b) = true) by exact Hrooted.
  split; [apply Clean_rooted | apply Clean_idempotent_rooted]; exact H.
Qed.

Lemma resolved_Join {W : Type} (env : Collaborators W) (w : W) (a b : string) :
  Path.rooted a = true -> resolved env w (Path.Join a b) = Path.Join a b.
Proof.
  intros Hrooted. destruct (Join_rooted a b Hrooted) as [Hr Hc].
  apply MakeIRODSPath_rooted_clean; assumption.
Qed.

(** In a session whose working and home collections are rooted, every path
    resolves to a rooted one. *)
Lemma rooted_app (a b : string) : Path.rooted a = true -> Path.rooted (a ++ b) = true.
Proof. destruct a; [discriminate|]. intros H. exact H. Qed.

Lemma resolved_rooted {W : Type} (env : Collaborators W) (w : W) (p : string) :
  Path.rooted (GetCWD env w) = true -> Path.rooted (GetHomeDir env w) = true ->
  Path.rooted (resolved env w p) = true.
Proof.
  intros Hcwd Hhome. unfold resolved, Commons.MakeIRODSPath.
  apply Clean_rooted.
  destruct ((p =? "") || (p =? ".")); [exact Hcwd|].
  destruct (String.prefix "~" p); [apply rooted_app, Hhome|].
  destruct (Path.rooted p) eqn:Hp; [exact Hp|].
  apply rooted_app, Hcwd.
Qed.

(** ** [goput]: the uploader *)

Section PutOne.
Variable W : Type.
Variable env : Collaborators W.
Variable fs : FileSystem.

(** A run of [putOne] on a local file: one query, one upload. *)
Lemma putOne_file (fuel : nat) (sourcePath targetPath : string) (w : W) :
  let sp := MakeLocalPath env sourcePath in
  let tp := resolved env w targetPath in
  let o := Goput.putOne env (S fuel) fs sourcePath targetPath w in
  let up := UploadFileParallel env fs sp tp "" 0 false (snd (Stat env sp w)) in
  fst (Stat env sp w) = Ok fileInfo ->
  value o = Goput.Returned (fst up) /\ world o = snd up
  /\ calls o = [Stat_ sp; UploadFileParallel_ fs sp tp "" 0 false].
Proof.
  intros sp tp o up Hstat. subst o up tp sp. revert Hstat.
  cbn [Goput.putOne].
  unfold Goput.MakeIRODSPath2, Goput.putDataObject, resolved, bind, get, call, ret, Log.
  cbn. intros Hstat. rewrite Hstat. cbn.
  destruct (fst (UploadFileParallel env fs _ _ "" 0 false _)); repeat split.
Qed.

(** A run of [putOne] on a local directory: the query, the reading of the
    directory, the creation of the sub-collection, and then the entries. *)
Lemma putOne_dir (fuel : nat) (sourcePath targetPath : string) (w : W)
      (entries : list DirEntry.t) :
  let sp := MakeLocalPath env sourcePath in
  let tp := resolved env w targetPath in
  let targetDir := Path.Join tp (Path.Base sp) in
  let o := Goput.putOne env (S fuel) fs sourcePath targetPath w in
  let mk := MakeDir env fs targetDir true (snd (ReadDir env sp (snd (Stat env sp w)))) in
  let inside :=
    Goput.rangeEntries
      entries
      (fun entryInDir =>
         Goput.putOne env fuel fs (Path.Join sp (DirEntry.Name entryInDir)) targetDir)
      (snd mk) in
  fst (Stat env sp w) = Ok dirInfo ->
  fst (ReadDir env sp (snd (Stat env sp w))) = Ok entries ->
  match fst mk with
  | Some err =>
      value o = Goput.Returned (Some err) /\ world o = snd mk
      /\ calls o = [Stat_ sp; ReadDir_ sp; MakeDir_ fs targetDir true]
  | None =>
      value o = value inside /\ world o = world inside
      /\ calls o = ([Stat_ sp; ReadDir_ sp; MakeDir_ fs targetDir true]
                    ++ calls inside)%list
  end.
Proof.
  intros sp tp targetDir o mk inside Hstat Hread.
  subst o inside mk targetDir tp sp. revert Hstat Hread.
  cbn [Goput.putOne].
  unfold Goput.MakeIRODSPath2, resolved, bind, get, call, ret.
  cbn. intros Hstat. rewrite Hstat. cbn. intros Hread. rewrite Hread. cbn.
  destruct (fst (MakeDir env fs _ true _)); cbn; name_outcomes; repeat split.
Qed.

(** The two early returns of [putOne]. *)
Lemma putOne_stat_fails (fuel : nat) (sourcePath targetPath : string) (w : W)
      (err : error) :
  let sp := MakeLocalPath env sourcePath in
  let o := Goput.putOne env (S fuel) fs sourcePath targetPath w in
  fst (Stat env sp w) = Err err ->
  value o = Goput.Returned (Some err) /\ calls o = [Stat_ sp]
  /\ world o = snd (Stat env sp w).
Proof.
  intros sp o Hstat. subst o sp. revert Hstat.
  cbn [Goput.putOne].
  unfold Goput.MakeIRODSPath2, resolved, bind, get, call, ret.
  cbn. intros Hstat. rewrite Hstat. cbn. repeat split.
Qed.

Lemma putOne_readdir_fails (fuel : nat) (sourcePath targetPath : string) (w : W)
      (err : error) :
  let sp := MakeLocalPath env sourcePath in
  let o := Goput.putOne env (S fuel) fs sourcePath targetPath w in
  fst (Stat env sp w) = Ok dirInfo ->
  fst (ReadDir env sp (snd (Stat env sp w))) = Err err ->
  value o = Goput.Returned (Some err) /\ calls o = [Stat_ sp; ReadDir_ sp]
  /\ world o = snd (ReadDir env sp (snd (Stat env sp w))).
Proof.
  intros sp o Hstat Hread. subst o sp. revert Hstat Hread.
  cbn [Goput.putOne].
  unfold Goput.MakeIRODSPath2, resolved, bind, get, call, ret.
  cbn. intros Hstat. rewrite Hstat. cbn. intros Hread. rewrite Hread. cbn.
  repeat split.
Qed.

(** The loop over the entries of a directory. *)
Lemma rangeEntries_cons (entryInDir : DirEntry.t) (rest : list DirEntry.t)
      (body : DirEntry.t -> M W (Goput.run (option error))) (w : W) :
  let o1 := body entryInDir w in
  let o := Goput.rangeEntries (entryInDir :: rest) body w in
  match value o1 with
  | Goput.Returned None =>
      let o2 := Goput.rangeEntries rest body (world o1) in
      value o = value o2 /\ world o = world o2
      /\ calls o = (calls o1 ++ calls o2)%list
  | stopped => value o = stopped /\ world o = world o1 /\ calls o = calls o1
  end.
Proof.
  cbn. unfold bind.
  destruct (body entryInDir w) as [[[err|]|] w1 calls1 stdout1 logged1]; cbn;
    rewrite ?app_nil_r; try (repeat split; fail).
  destruct (Goput.rangeEntries rest body w1); cbn. repeat split.
Qed.

Lemma rangeEntries_app (pre post : list DirEntry.t)
      (body : DirEntry.t -> M W (Goput.run (option error))) (w : W) :
  value (Goput.rangeEntries pre body w) = Goput.Returned None ->
  let o1 := Goput.rangeEntries pre body w in
  let o2 := Goput.rangeEntries post body (world o1) in
  let o := Goput.rangeEntries (pre ++ post)%list body w in
  value o = value o2 /\ world o = world o2 /\ calls o = (calls o1 ++ calls o2)%list.
Proof.
  revert w. induction pre as [|e pre IH]; intros w Hok.
  - repeat split.
  - pose proof (rangeEntries_cons e pre body w) as Hpre.
    pose proof (rangeEntries_cons e (pre ++ post)%list body w) as Hall.
    cbv zeta in Hpre, Hall. cbv zeta.
    change ((e :: pre) ++ post)%list with (e :: (pre ++ post))%list.
    destruct (value (body e w)) as [[err|]|].
    + destruct Hpre as [Hv _]. rewrite Hv in Hok. discriminate.
    + destruct Hpre as [Hv [Hw Hc]]. destruct Hall as [Hv' [Hw' Hc']].
      rewrite Hv in Hok.
      destruct (IH (world (body e w)) Hok) as [Hv2 [Hw2 Hc2]].
      rewrite Hv', Hw', Hc', Hw, Hc, Hv2, Hw2, Hc2, <- app_assoc. repeat split.
    + destruct Hpre as [Hv _]. rewrite Hv in Hok. discriminate.
Qed.

End PutOne.

(** *** Creation comes first *)

Lemma createdFirst_weaken (cs : list Call) :
  forall made made' : list (FileSystem * string),
    incl made made' -> createdFirst made cs -> createdFirst made' cs.
Proof.
  induction cs as [|c rest IH]; intros made made' Hincl H; [exact I|].
  destruct c; simpl in *; try (eapply IH; eassumption).
  - destruct recurse; [|eapply IH; eassumption].
    eapply IH; [|exact H].
    intros x [Hx|Hx]; [left; exact Hx | right; apply Hincl, Hx].
  - destruct H as [Hin Hrest]. split; [apply Hincl, Hin | eapply IH; eassumption].
Qed.

Lemma createdFirst_app (l1 l2 : list Call) :
  forall made : list (FileSystem * string),
    createdFirst made l1 ->
    (forall made', incl made made' -> createdFirst made' l2) ->
    createdFirst made (l1 ++ l2)%list.
Proof.
  induction l1 as [|c rest IH]; intros made H1 H2.
  - apply H2, incl_refl.
  - destruct c; simpl in *; try (apply IH; assumption).
    + destruct recurse; [|apply IH; assumption].
      apply IH; [exact H1|].
      intros made' Hincl. apply H2.
      intros x Hx. apply Hincl. right. exact Hx.
    + destruct H1 as [Hin Hrest]. split; [exact Hin | apply IH; assumption].
Qed.

(** What [createdFirst] says of each upload. *)
Lemma createdFirst_before (before : list Call) :
  forall (made : list (FileSystem * string)) (cs after : list Call)
         (fs : FileSystem) (src dst resource : string) (n : Z) (r : bool),
    createdFirst made cs ->
    cs = (before ++ UploadFileParallel_ fs src dst resource n r :: after)%list ->
    In (fs, dst) made \/ In (MakeDir_ fs dst true) before.
Proof.
  induction before as [|c before' IH];
    intros made cs after fs src dst resource n r Hcs Heq; subst cs.
  - simpl in Hcs. left. apply Hcs.
  - assert (Hstep : forall made', createdFirst made' (before' ++
              UploadFileParallel_ fs src dst resource n r :: after)%list ->
              In (fs, dst) made' \/ In (MakeDir_ fs dst true) before').
    { intros made' H'. eapply IH; [exact H' | reflexivity]. }
    destruct c; simpl in Hcs;
      try (destruct (Hstep made Hcs) as [H|H]; [left; exact H | right; right; exact H]).
    + destruct recurse.
      * destruct (Hstep _ Hcs) as [[H|H]|H].
        -- inversion H; subst. right. left. reflexivity.
        -- left. exact H.
        -- right. right. exact H.
      * destruct (Hstep made Hcs) as [H|H]; [left; exact H | right; right; exact H].
    + destruct Hcs as [_ Hcs].
      destruct (Hstep made Hcs) as [H|H]; [left; exact H | right; right; exact H].
Qed.

Section PutOneOrder.
Variable W : Type.
Variable env : Collaborators W.
Variable fs : FileSystem.

Lemma rangeEntries_createdFirst (entries : list DirEntry.t)
      (body : DirEntry.t -> M W (Goput.run (option error))) :
  forall (w : W) (made : list (FileSystem * string)),
    (forall e w' made', incl made made' -> createdFirst made' (calls (body e w'))) ->
    createdFirst made (calls (Goput.rangeEntries entries body w)).
Proof.
  induction entries as [|e rest IH]; intros w made Hbody; [exact I|].
  pose proof (rangeEntries_cons W e rest body w) as Hcons. cbv zeta in Hcons.
  destruct (value (body e w)) as [[err|]|].
  - destruct Hcons as [_ [_ Hc]]. rewrite Hc. apply Hbody, incl_refl.
  - destruct Hcons as [_ [_ Hc]]. rewrite Hc.
    apply createdFirst_app; [apply Hbody, incl_refl|].
    intros made' Hincl. apply IH.
    intros e' w' made'' Hincl'. apply Hbody.
    eapply incl_tran; eassumption.
  - destruct Hcons as [_ [_ Hc]]. rewrite Hc. apply Hbody, incl_refl.
Qed.

(** Every upload of a run goes into the collection the run was given or
    into one the run made before. *)
Lemma putOne_createdFirst (fuel : nat) :
  forall (sourcePath targetPath : string) (w : W) (made : list (FileSystem * string)),
    Path.rooted (resolved env w targetPath) = true ->
    In (fs, resolved env w targetPath) made ->
    createdFirst made (calls (Goput.putOne env fuel fs sourcePath targetPath w)).
Proof.
  induction fuel as [|fuel IH]; intros sourcePath targetPath w made Hrooted Hin;
    [exact I|].
  set (sp := MakeLocalPath env sourcePath).
  destruct (fst (Stat env sp w)) as [[isDir]|err] eqn:Hstat.
  - destruct isDir.
    + destruct (fst (ReadDir env sp (snd (Stat env sp w)))) as [entries|err] eqn:Hread.
      * pose proof (putOne_dir W env fs fuel sourcePath targetPath w entries Hstat Hread)
          as Hdir.
        cbv zeta in Hdir. fold sp in Hdir.
        destruct (fst (MakeDir env fs _ true _)).
        -- destruct Hdir as [_ [_ Hc]]. rewrite Hc. exact I.
        -- destruct Hdir as [_ [_ Hc]]. rewrite Hc. simpl.
           apply rangeEntries_createdFirst.
           intros e w' made' Hincl. apply IH.
           ++ rewrite resolved_Join by exact Hrooted.
              apply Join_rooted, Hrooted.
           ++ rewrite resolved_Join by exact Hrooted.
              apply Hincl. left. reflexivity.
      * destruct (putOne_readdir_fails W env fs fuel sourcePath targetPath w err Hstat Hread)
          as [_ [Hc _]].
        rewrite Hc. exact I.
    + destruct (putOne_file W env fs fuel sourcePath targetPath w Hstat) as [_ [_ Hc]].
      rewrite Hc. simpl. split; [exact Hin | exact I].
  - destruct (putOne_stat_fails W env fs fuel sourcePath targetPath w err Hstat) as [_ [Hc _]].
    rewrite Hc. exact I.
Qed.

End PutOneOrder.

(** *** The tree [root/{a.txt, sub/b.txt}] *)

Section ExampleTree.
Variable W : Type.
Variable env : Collaborators W.
Variable fs : FileSystem.
Hypothesis accepts : acceptsAll env fs.

(** A file that is there goes up with one query and one upload. *)
Lemma putOne_file_accepted (fuel : nat) (file dir parent name : string) (w : W) :
  Path.rooted parent = true ->
  dir = Path.Join parent name ->
  MakeLocalPath env file = file ->
  fst (Stat env file w) = Ok fileInfo ->
  let o := Goput.putOne env (S fuel) fs file dir w in
  value o = Goput.Returned None
  /\ calls o = [Stat_ file; UploadFileParallel_ fs file dir "" 0 false].
Proof.
  intros Hrooted Hdir Hlocal Hstat o. subst o dir.
  pose proof (putOne_file W env fs fuel file (Path.Join parent name) w) as Hfile.
  cbv zeta in Hfile. rewrite Hlocal in Hfile.
  rewrite (resolved_Join env w parent name Hrooted) in Hfile.
  destruct (Hfile Hstat) as [Hv [_ Hc]].
  rewrite Hv, Hc. rewrite (proj2 accepts). split; reflexivity.
Qed.

Variable root : string.
Hypothesis tree : holdsExampleTree env root.

Lemma putOne_example_sub (fuel : nat) (parent : string) (w : W) :
  Path.rooted parent = true ->
  let sub := Path.Join root "sub" in
  let dir := Path.Join parent "root" in
  let o := Goput.putOne env (S (S fuel)) fs sub dir w in
  value o = Goput.Returned None
  /\ calls o = [Stat_ sub; ReadDir_ sub;
                MakeDir_ fs (Path.Join dir "sub") true;
                Stat_ (Path.Join sub "b.txt");
                UploadFileParallel_ fs (Path.Join sub "b.txt") (Path.Join dir "sub")
                                    "" 0 false].
Proof.
  intros Hrooted sub dir o. subst o.
  destruct tree as [_ [Hbase [_ [Hsub [Hb Hlocal]]]]].
  fold sub in Hbase, Hsub, Hb, Hlocal.
  assert (Hdirrooted : Path.rooted dir = true)
    by (apply (Join_rooted parent "root"), Hrooted).
  assert (Hres : resolved env w dir = dir)
    by (apply resolved_Join; exact Hrooted).
  destruct (Hlocal w) as [_ [_ [_ [Hstat _]]]].
  destruct (Hlocal (snd (Stat env sub w))) as [_ [_ [_ [_ [Hread _]]]]].
  pose proof (putOne_dir W env fs (S fuel) sub dir w (entriesNamed ["b.txt"])) as Hdir.
  cbv zeta in Hdir. rewrite Hsub, Hbase, Hres in Hdir.
  specialize (Hdir Hstat Hread).
  rewrite (proj1 accepts) in Hdir. destruct Hdir as [Hv [_ Hc]].
  rewrite Hv, Hc. clear Hv Hc.
  match goal with
  | |- context [Goput.rangeEntries _ _ ?w'] => set (w3 := w')
  end.
  pose proof (rangeEntries_cons W {| DirEntry.Name := "b.txt" |} []
                (fun entryInDir =>
                   Goput.putOne env (S fuel) fs
                                (Path.Join sub (DirEntry.Name entryInDir))
                                (Path.Join dir "sub")) w3) as Hcons.
  cbv zeta beta in Hcons. cbn [DirEntry.Name] in Hcons.
  destruct (Hlocal w3) as [_ [_ [_ [_ [_ Hstatb]]]]].
  destruct (putOne_file_accepted fuel (Path.Join sub "b.txt")
              (Path.Join dir "sub") dir "sub" w3 Hdirrooted eq_refl Hb Hstatb)
    as [Hvb Hcb].
  rewrite Hvb in Hcons. destruct Hcons as [Hv [_ Hc]].
  change (entriesNamed ["b.txt"]) with [{| DirEntry.Name := "b.txt" |}].
  rewrite Hv, Hc, Hcb. split; reflexivity.
Qed.

Lemma putOne_example_root (fuel : nat) (sourcePath targetPath : string) (w : W) :
  MakeLocalPath env sourcePath = root ->
  Path.rooted (resolved env w targetPath) = true ->
  let target := resolved env w targetPath in
  let a := Path.Join root "a.txt" in
  let sub := Path.Join root "sub" in
  let b := Path.Join sub "b.txt" in
  let o := Goput.putOne env (S (S (S fuel))) fs sourcePath targetPath w in
  value o = Goput.Returned None
  /\ calls o = [Stat_ root; ReadDir_ root;
                MakeDir_ fs (Path.Join target "root") true;
                Stat_ a;
                UploadFileParallel_ fs a (Path.Join target "root") "" 0 false;
                Stat_ sub; ReadDir_ sub;
                MakeDir_ fs (Path.Join (Path.Join target "root") "sub") true;
                Stat_ b;
                UploadFileParallel_ fs b (Path.Join (Path.Join target "root") "sub")
                                    "" 0 false].
Proof.
  intros Hroot Hrooted target a sub b o. subst o b.
  pose proof tree as [Hbase [_ [Ha [_ [_ Hlocal]]]]].
  fold a sub in Ha, Hlocal.
  pose proof (putOne_dir W env fs (S (S fuel)) sourcePath targetPath w
                (entriesNamed ["a.txt"; "sub"])) as Hdir.
  cbv zeta in Hdir. rewrite Hroot, Hbase in Hdir. fold target in Hdir.
  destruct (Hlocal w) as [Hstat _].
  destruct (Hlocal (snd (Stat env root w))) as [_ [Hread _]].
  specialize (Hdir Hstat Hread).
  rewrite (proj1 accepts) in Hdir. destruct Hdir as [Hv [_ Hc]].
  rewrite Hv, Hc. clear Hv Hc.
  set (dir := Path.Join target "root").
  match goal with
  | |- context [Goput.rangeEntries _ _ ?w'] => set (w3 := w')
  end.
  set (body := fun entryInDir =>
                 Goput.putOne env (S (S fuel)) fs
                              (Path.Join root (DirEntry.Name entryInDir)) dir).
  change (entriesNamed ["a.txt"; "sub"])
    with [{| DirEntry.Name := "a.txt" |}; {| DirEntry.Name := "sub" |}].
  (* a.txt *)
  pose proof (rangeEntries_cons W {| DirEntry.Name := "a.txt" |}
                [{| DirEntry.Name := "sub" |}] body w3) as Hcons1.
  cbv zeta in Hcons1.
  change (body {| DirEntry.Name := "a.txt" |})
    with (Goput.putOne env (S (S fuel)) fs a dir) in Hcons1.
  destruct (Hlocal w3) as [_ [_ [Hstata _]]].
  destruct (putOne_file_accepted (S fuel) a dir target "root" w3
              Hrooted eq_refl Ha Hstata) as [Hva Hca].
  rewrite Hva in Hcons1. destruct Hcons1 as [Hv1 [_ Hc1]].
  rewrite Hv1, Hc1, Hca. clear Hv1 Hc1.
  set (w4 := world (Goput.putOne env (S (S fuel)) fs a dir w3)).
  (* sub *)
  pose proof (rangeEntries_cons W {| DirEntry.Name := "sub" |} [] body w4) as Hcons2.
  cbv zeta in Hcons2.
  change (body {| DirEntry.Name := "sub" |})
    with (Goput.putOne env (S (S fuel)) fs sub dir) in Hcons2.
  destruct (putOne_example_sub fuel target w4 Hrooted) as [Hvs Hcs].
  fold sub dir in Hvs, Hcs.
  rewrite Hvs in Hcons2. destruct Hcons2 as [Hv2 [_ Hc2]].
  rewrite Hv2, Hc2, Hcs.
  split; reflexivity.
Qed.

End ExampleTree.

(** *** The order and the failure policy of [putOne] *)

Lemma rangeEntries_aborts {W : Type} (pre : list DirEntry.t) (entry : DirEntry.t)
      (post : list DirEntry.t) (body : DirEntry.t -> M W (Goput.run (option error)))
      (w : W) (err : error) :
  value (Goput.rangeEntries pre body w) = Goput.Returned None ->
  value (body entry (world (Goput.rangeEntries pre body w)))
  = Goput.Returned (Some err) ->
  let o1 := Goput.rangeEntries pre body w in
  let o2 := body entry (world o1) in
  let o := Goput.rangeEntries (pre ++ entry :: post)%list body w in
  value o = Goput.Returned (Some err) /\ world o = world o2
  /\ calls o = (calls o1 ++ calls o2)%list.
Proof.
  intros Hpre Hfail.
  destruct (rangeEntries_app W pre (entry :: post) body w Hpre) as [Hv [Hw Hc]].
  pose proof (rangeEntries_cons W entry post body
                (world (Goput.rangeEntries pre body w))) as Hcons.
  cbv zeta in Hcons. rewrite Hfail in Hcons. destruct Hcons as [Hv' [Hw' Hc']].
  cbv zeta. rewrite Hv, Hw, Hc, Hv', Hw', Hc'. repeat split.
Qed.

Lemma putOne_dir_createdFirst {W : Type} (env : Collaborators W) (fs : FileSystem)
      (fuel : nat) (sourcePath targetPath : string) (w : W) :
  Path.rooted (resolved env w targetPath) = true ->
  fst (Stat env (MakeLocalPath env sourcePath) w) = Ok dirInfo ->
  createdFirst [] (calls (Goput.putOne env (S fuel) fs sourcePath targetPath w)).
Proof.
  intros Hrooted Hstat.
  set (sp := MakeLocalPath env sourcePath) in *.
  destruct (fst (ReadDir env sp (snd (Stat env sp w)))) as [entries|err] eqn:Hread.
  - pose proof (putOne_dir W env fs fuel sourcePath targetPath w entries Hstat Hread)
      as Hdir.
    cbv zeta in Hdir. fold sp in Hdir.
    destruct (fst (MakeDir env fs _ true _)).
    + destruct Hdir as [_ [_ Hc]]. rewrite Hc. exact I.
    + destruct Hdir as [_ [_ Hc]]. rewrite Hc. simpl.
      apply rangeEntries_createdFirst.
      intros e w' made' Hincl. apply putOne_createdFirst.
      * rewrite resolved_Join by exact Hrooted. apply Join_rooted, Hrooted.
      * rewrite resolved_Join by exact Hrooted. apply Hincl. left. reflexivity.
  - destruct (putOne_readdir_fails W env fs fuel sourcePath targetPath w err Hstat Hread)
      as [_ [Hc _]].
    rewrite Hc. exact I.
Qed.

(** C3: when [putOne] is given a local directory, the remote sub-collection
    named after the directory's base name is created, with a recursive
    [MakeDir], before anything is done for an entry of the directory, and the
    entries are put into that sub-collection; all through the run, no file
    is uploaded into a collection that an earlier [MakeDir] of the run has
    not created.  In particular, for the local tree [root/{a.txt, sub/b.txt}]
    and the remote target [T], the remote changes are, in order: create
    [T/root], upload [a.txt] into [T/root], create [T/root/sub], upload
    [b.txt] into [T/root/sub]. *)
Theorem putOne_creates_before_uploading :
  (forall (W : Type) (env : Collaborators W) (fs : FileSystem) (fuel : nat)
          (sourcePath targetPath : string) (w : W) (st : FileInfo.t),
      let sp := MakeLocalPath env sourcePath in
      let tp := resolved env w targetPath in
      let targetDir := Path.Join tp (Path.Base sp) in
      let o := Goput.putOne env (S fuel) fs sourcePath targetPath w in
      Path.rooted tp = true ->
      fst (Stat env sp w) = Ok st ->
      FileInfo.IsDir st = true ->
      (forall entries,
          fst (ReadDir env sp (snd (Stat env sp w))) = Ok entries ->
          let mk := MakeDir env fs targetDir true
                            (snd (ReadDir env sp (snd (Stat env sp w)))) in
          calls o
          = ([Stat_ sp; ReadDir_ sp; MakeDir_ fs targetDir true]
             ++ match fst mk with
                | Some _ => []
                | None =>
                    calls (Goput.rangeEntries
                             entries
                             (fun entryInDir =>
                                Goput.putOne env fuel fs
                                  (Path.Join sp (DirEntry.Name entryInDir)) targetDir)
                             (snd mk))
                end)%list)
      /\ (forall before fs' src dst resource n r after,
             calls o
             = (before ++ UploadFileParallel_ fs' src dst resource n r :: after)%list ->
             In (MakeDir_ fs' dst true) before))
  /\ (forall (W : Type) (env : Collaborators W) (fs : FileSystem) (fuel : nat)
             (sourcePath T : string) (w : W),
         acceptsAll env fs ->
         holdsExampleTree env (MakeLocalPath env sourcePath) ->
         Path.rooted (resolved env w T) = true ->
         let root := MakeLocalPath env sourcePath in
         let target := resolved env w T in
         let o := Goput.putOne env (3 + fuel) fs sourcePath T w in
         value o = Goput.Returned None
         /\ filter isRemoteChange (calls o)
            = [MakeDir_ fs (Path.Join target "root") true;
               UploadFileParallel_ fs (Path.Join root "a.txt")
                                   (Path.Join target "root") "" 0 false;
               MakeDir_ fs (Path.Join (Path.Join target "root") "sub") true;
               UploadFileParallel_ fs (Path.Join (Path.Join root "sub") "b.txt")
                                   (Path.Join (Path.Join target "root") "sub")
                                   "" 0 false]).
Proof.
  split.
  - intros W env fs fuel sourcePath targetPath w [isDir] sp tp targetDir o
           Hrooted Hstat HisDir.
    simpl in HisDir. subst isDir. split.
    + intros entries Hread mk.
      pose proof (putOne_dir W env fs fuel sourcePath targetPath w entries Hstat Hread)
        as Hdir.
      cbv zeta in Hdir. fold sp tp targetDir mk o in Hdir.
      destruct (fst mk); destruct Hdir as [_ [_ Hc]]; exact Hc.
    + intros before fs' src dst resource n r after Hcalls.
      pose proof (putOne_dir_createdFirst env fs fuel sourcePath targetPath w
                    Hrooted Hstat) as Hfirst.
      destruct (createdFirst_before before [] (calls o) after fs' src dst resource n r
                  Hfirst Hcalls) as [[]|Hin].
      exact Hin.
  - intros W env fs fuel sourcePath T w Haccepts Htree Hrooted root target o.
    destruct (putOne_example_root W env fs Haccepts root Htree fuel sourcePath T w
                eq_refl Hrooted) as [Hvalue Hcalls].
    fold root target in Hcalls.
    split; [exact Hvalue|].
    subst o. change (3 + fuel) with (S (S (S fuel))).
    rewrite Hcalls. reflexivity.
Qed.

Lemma fake_acceptsAll : acceptsAll Fake.env Fake.fs.
Proof. split; intros; reflexivity. Qed.

Lemma fake_holdsExampleTree : holdsExampleTree Fake.env "/home/alice/root".
Proof. repeat split. Qed.

Lemma putOne_creates_before_uploading_witness :
  let o := Goput.putOne Fake.env 3 Fake.fs "root" "T" Fake.world in
  value o = Goput.Returned None
  /\ filter isRemoteChange (calls o)
     = [MakeDir_ Fake.fs "/tempZone/home/alice/T/root" true;
        UploadFileParallel_ Fake.fs "/home/alice/root/a.txt"
                            "/tempZone/home/alice/T/root" "" 0 false;
        MakeDir_ Fake.fs "/tempZone/home/alice/T/root/sub" true;
        UploadFileParallel_ Fake.fs "/home/alice/root/sub/b.txt"
                            "/tempZone/home/alice/T/root/sub" "" 0 false].
Proof.
  destruct putOne_creates_before_uploading as [_ Hexample].
  exact (Hexample Fake.World Fake.env Fake.fs 0 "root" "T" Fake.world
           fake_acceptsAll fake_holdsExampleTree eq_refl).
Defined.

(** C8: the walk of a local directory is fail-fast.  When the creation of
    the sub-collection fails, [putOne] returns that error and no entry is
    processed.  When the entries before some entry went through and that
    entry returns an error, [putOne] returns that very error, in the world
    that entry left and with that entry's calls as its last calls: no entry
    after it is processed. *)
Theorem putOne_fail_fast :
  forall (W : Type) (env : Collaborators W) (fs : FileSystem) (fuel : nat)
         (sourcePath targetPath : string) (w : W) (st : FileInfo.t)
         (entries : list DirEntry.t),
    let sp := MakeLocalPath env sourcePath in
    let tp := resolved env w targetPath in
    let targetDir := Path.Join tp (Path.Base sp) in
    let mk := MakeDir env fs targetDir true
                      (snd (ReadDir env sp (snd (Stat env sp w)))) in
    let child := fun entryInDir =>
                   Goput.putOne env fuel fs
                                (Path.Join sp (DirEntry.Name entryInDir)) targetDir in
    let o := Goput.putOne env (S fuel) fs sourcePath targetPath w in
    fst (Stat env sp w) = Ok st ->
    FileInfo.IsDir st = true ->
    fst (ReadDir env sp (snd (Stat env sp w))) = Ok entries ->
    (forall err,
        fst mk = Some err ->
        value o = Goput.Returned (Some err)
        /\ calls o = [Stat_ sp; ReadDir_ sp; MakeDir_ fs targetDir true])
    /\ (forall pre entry post err,
           fst mk = None ->
           entries = (pre ++ entry :: post)%list ->
           value (Goput.rangeEntries pre child (snd mk)) = Goput.Returned None ->
           let w' := world (Goput.rangeEntries pre child (snd mk)) in
           value (child entry w') = Goput.Returned (Some err) ->
           value o = Goput.Returned (Some err)
           /\ world o = world (child entry w')
           /\ calls o = ([Stat_ sp; ReadDir_ sp; MakeDir_ fs targetDir true]
                         ++ calls (Goput.rangeEntries pre child (snd mk))
                         ++ calls (child entry w'))%list).
Proof.
  intros W env fs fuel sourcePath targetPath w [isDir] entries sp tp targetDir mk
         child o Hstat HisDir Hread.
  simpl in HisDir. subst isDir.
  pose proof (putOne_dir W env fs fuel sourcePath targetPath w entries Hstat Hread)
    as Hdir.
  cbv zeta in Hdir. fold sp tp targetDir mk child o in Hdir.
  split.
  - intros err Hmk. rewrite Hmk in Hdir. destruct Hdir as [Hv [_ Hc]].
    split; assumption.
  - intros pre entry post err Hmk Hentries Hpre w' Hfail.
    rewrite Hmk in Hdir. destruct Hdir as [Hv [Hw Hc]].
    destruct (rangeEntries_aborts pre entry post child (snd mk) err Hpre Hfail)
      as [Hv' [Hw' Hc']].
    rewrite Hv, Hw, Hc, Hentries, Hv', Hw', Hc'. repeat split.
Qed.

(** The directory [bad] holds [w.txt], [x.txt] and [y.txt], and the remote
    refuses [x.txt]: [w.txt] is uploaded, [x.txt] is tried, [y.txt] is not. *)
Lemma putOne_fail_fast_witness :
  let o := Goput.putOne Fake.faulty 2 Fake.fs "bad" "T" Fake.world in
  value o = Goput.Returned (Some (Fake.refused "/tempZone/home/alice/T/bad/x.txt"))
  /\ calls o = [Stat_ "/home/alice/bad"; ReadDir_ "/home/alice/bad";
                MakeDir_ Fake.fs "/tempZone/home/alice/T/bad" true;
                Stat_ "/home/alice/bad/w.txt";
                UploadFileParallel_ Fake.fs "/home/alice/bad/w.txt"
                                    "/tempZone/home/alice/T/bad" "" 0 false;
                Stat_ "/home/alice/bad/x.txt";
                UploadFileParallel_ Fake.fs "/home/alice/bad/x.txt"
                                    "/tempZone/home/alice/T/bad" "" 0 false].
Proof.
  destruct (putOne_fail_fast Fake.World Fake.faulty Fake.fs 1 "bad" "T" Fake.world
              dirInfo (entriesNamed ["w.txt"; "x.txt"; "y.txt"])
              eq_refl eq_refl eq_refl) as [_ Hstops].
  destruct (Hstops (entriesNamed ["w.txt"]) {| DirEntry.Name := "x.txt" |}
              (entriesNamed ["y.txt"])
              (Fake.refused "/tempZone/home/alice/T/bad/x.txt")
              eq_refl eq_refl eq_refl eq_refl) as [Hvalue [_ Hcalls]].
  split.
  - exact Hvalue.
  - rewrite Hcalls. reflexivity.
Defined.

(** *** More fuel changes nothing *)

(** A run of [putOne] that returned within its nesting bound runs the same
    under a larger one: the bound is no part of what [putOne] does. *)
Lemma rangeEntries_sameRun {W : Type} (entries : list DirEntry.t)
      (body' body : DirEntry.t -> M W (Goput.run (option error))) :
  (forall e w r, value (body e w) = Goput.Returned r -> sameRun (body' e w) (body e w)) ->
  forall w r,
    value (Goput.rangeEntries entries body w) = Goput.Returned r ->
    sameRun (Goput.rangeEntries entries body' w) (Goput.rangeEntries entries body w).
Proof.
  intros Hbody. induction entries as [|e rest IH]; intros w r Hret.
  - repeat split.
  - pose proof (rangeEntries_cons W e rest body w) as Hcons.
    pose proof (rangeEntries_cons W e rest body' w) as Hcons'.
    cbv zeta in Hcons, Hcons'.
    destruct (value (body e w)) as [[err|]|] eqn:Hvalue.
    + destruct (Hbody e w (Some err) Hvalue) as [Hv [Hw Hc]].
      rewrite Hv, Hvalue in Hcons'.
      destruct Hcons as [Hv1 [Hw1 Hc1]]. destruct Hcons' as [Hv2 [Hw2 Hc2]].
      unfold sameRun. rewrite Hv1, Hw1, Hc1, Hv2, Hw2, Hc2, Hw, Hc. repeat split.
    + destruct (Hbody e w None Hvalue) as [Hv [Hw Hc]].
      rewrite Hv, Hvalue in Hcons'.
      destruct Hcons as [Hv1 [Hw1 Hc1]]. destruct Hcons' as [Hv2 [Hw2 Hc2]].
      rewrite Hv1 in Hret.
      destruct (IH (world (body e w)) r Hret) as [Hv3 [Hw3 Hc3]].
      unfold sameRun. rewrite Hv1, Hw1, Hc1, Hv2, Hw2, Hc2, Hw, Hc, Hv3, Hw3, Hc3.
      repeat split.
    + destruct Hcons as [Hv1 _]. rewrite Hv1 in Hret. discriminate.
Qed.

Lemma putOne_more_fuel {W : Type} (env : Collaborators W) (fs : FileSystem)
      (fuel : nat) :
  forall (sourcePath targetPath : string) (w : W) (r : option error),
    value (Goput.putOne env fuel fs sourcePath targetPath w) = Goput.Returned r ->
    sameRun (Goput.putOne env (S fuel) fs sourcePath targetPath w)
            (Goput.putOne env fuel fs sourcePath targetPath w).
Proof.
  induction fuel as [|fuel IH]; intros sourcePath targetPath w r Hret;
    [discriminate|].
  set (sp := MakeLocalPath env sourcePath).
  destruct (fst (Stat env sp w)) as [[isDir]|err] eqn:Hstat.
  - destruct isDir.
    + destruct (fst (ReadDir env sp (snd (Stat env sp w)))) as [entries|err] eqn:Hread.
      * pose proof (putOne_dir W env fs fuel sourcePath targetPath w entries Hstat Hread)
          as Hdir.
        pose proof (putOne_dir W env fs (S fuel) sourcePath targetPath w entries
                      Hstat Hread) as Hdir'.
        cbv zeta in Hdir, Hdir'. fold sp in Hdir, Hdir'.
        destruct (fst (MakeDir env fs _ true _)).
        -- destruct Hdir as [Hv [Hw Hc]]. destruct Hdir' as [Hv' [Hw' Hc']].
           unfold sameRun. rewrite Hv, Hw, Hc, Hv', Hw', Hc'. repeat split.
        -- destruct Hdir as [Hv [Hw Hc]]. destruct Hdir' as [Hv' [Hw' Hc']].
           rewrite Hv in Hret.
           match type of Hret with
           | value (Goput.rangeEntries _ ?body ?w') = _ =>
               destruct (rangeEntries_sameRun entries
                           (fun entryInDir =>
                              Goput.putOne env (S fuel) fs
                                (Path.Join sp (DirEntry.Name entryInDir))
                                (Path.Join (resolved env w targetPath) (Path.Base sp)))
                           body
                           (fun e w0 r0 Hr => IH _ _ w0 r0 Hr) w' r Hret)
                 as [Hv3 [Hw3 Hc3]]
           end.
           unfold sameRun. rewrite Hv, Hw, Hc, Hv', Hw', Hc', Hv3, Hw3, Hc3.
           repeat split.
      * destruct (putOne_readdir_fails W env fs fuel sourcePath targetPath w err
                    Hstat Hread) as [Hv [Hc Hw]].
        destruct (putOne_readdir_fails W env fs (S fuel) sourcePath targetPath w err
                    Hstat Hread) as [Hv' [Hc' Hw']].
        unfold sameRun. rewrite Hv, Hw, Hc, Hv', Hw', Hc'. repeat split.
    + destruct (putOne_file W env fs fuel sourcePath targetPath w Hstat)
        as [Hv [Hw Hc]].
      destruct (putOne_file W env fs (S fuel) sourcePath targetPath w Hstat)
        as [Hv' [Hw' Hc']].
      unfold sameRun. rewrite Hv, Hw, Hc, Hv', Hw', Hc'. repeat split.
  - destruct (putOne_stat_fails W env fs fuel sourcePath targetPath w err Hstat)
      as [Hv [Hc Hw]].
    destruct (putOne_stat_fails W env fs (S fuel) sourcePath targetPath w err Hstat)
      as [Hv' [Hc' Hw']].
    unfold sameRun. rewrite Hv, Hw, Hc, Hv', Hw', Hc'. repeat split.
Qed.

Corollary putOne_any_more_fuel {W : Type} (env : Collaborators W) (fs : FileSystem)
          (extra fuel : nat) (sourcePath targetPath : string) (w : W)
          (r : option error) :
  value (Goput.putOne env fuel fs sourcePath targetPath w) = Goput.Returned r ->
  sameRun (Goput.putOne env (extra + fuel) fs sourcePath targetPath w)
          (Goput.putOne env fuel fs sourcePath targetPath w).
Proof.
  intros Hret. induction extra as [|extra IH]; [repeat split|].
  destruct IH as [Hv [Hw Hc]].
  assert (Hret' : value (Goput.putOne env (extra + fuel) fs sourcePath targetPath w)
                  = Goput.Returned r) by (rewrite Hv; exact Hret).
  destruct (putOne_more_fuel env fs (extra + fuel) sourcePath targetPath w r Hret')
    as [Hv' [Hw' Hc']].
  change (S extra + fuel) with (S (extra + fuel)).
  unfold sameRun. rewrite Hv', Hw', Hc', Hv, Hw, Hc. repeat split.
Qed.

(** * Further properties of the commands *)

(** ** [rm] *)

Lemma Forall_filter_nil {A : Type} (p q : A -> bool) (l : list A) :
  (forall a, q a = true -> p a = false) ->
  Forall (fun a => q a = true) l -> filter p l = [].
Proof.
  intros Hpq Hall. induction Hall as [|a rest Ha Hrest IH]; [reflexivity|].
  simpl. rewrite (Hpq a Ha). exact IH.
Qed.

(** X1: on a collection, with [recurse] set, the remover issues the
    classification query and then exactly one removal: [RemoveDir] on the
    resolved path, recursive, with the caller's [force].  No [RemoveFile] is
    issued, and what [RemoveDir] returns is what the remover returns, an
    error wrapped. *)
Theorem removeOne_collection_recursive :
  forall (W : Type) (env : Collaborators W) (fs : FileSystem)
         (targetPath : string) (force : bool) (w : W) (entry : Entry.t),
    fst (StatIRODSPath env fs (resolved env w targetPath) w) = Ok entry ->
    Entry.Type_ entry = DirectoryEntry ->
    let p := resolved env w targetPath in
    let o := Rm.removeOne env fs targetPath force true w in
    calls o = [StatIRODSPath_ fs p; RemoveDir_ fs p true force]
    /\ filter isRemoval (calls o) = [RemoveDir_ fs p true force]
    /\ value o =
       match fst (RemoveDir env fs p true force (snd (StatIRODSPath env fs p w))) with
       | Some err => Some (Wrap ("failed to remove dir " ++ p) err)
       | None => None
       end
    /\ world o = snd (RemoveDir env fs p true force (snd (StatIRODSPath env fs p w))).
Proof.
  intros W env fs targetPath force w entry Hstat Hdir p o.
  subst o p. revert Hstat. run_removeOne. intros Hstat.
  rewrite Hstat. cbn. rewrite Hdir. cbn.
  destruct (fst (RemoveDir env fs _ true force _)); cbn; repeat split.
Qed.

(** The collection [z] goes, and only it. *)
Lemma removeOne_collection_recursive_witness :
  let o := Rm.removeOne Fake.env Fake.fs "z" false true Fake.world in
  calls o = [StatIRODSPath_ Fake.fs "/tempZone/home/alice/z";
             RemoveDir_ Fake.fs "/tempZone/home/alice/z" true false]
  /\ value o = None
  /\ Fake.collections (world o)
     = map Fake.coll ["/tempZone/home/alice"; "/tempZone/home/alice/y"].
Proof.
  destruct (removeOne_collection_recursive Fake.World Fake.env Fake.fs "z" false
              Fake.world
              {| Entry.Type_ := DirectoryEntry; Entry.Path := "/tempZone/home/alice/z";
                 Entry.Name := "z"; Entry.Size := 0 |}
              eq_refl eq_refl) as [Hcalls [_ [Hvalue Hworld]]].
  split; [exact Hcalls|]. split; [exact Hvalue|].
  rewrite Hworld. reflexivity.
Defined.

(** X2: a run of the remover makes no call but the classification query and
    removals, and at most one removal; when it returns [nil], it has issued
    exactly one removal. *)
Theorem removeOne_removes_at_most_once :
  forall (W : Type) (env : Collaborators W) (fs : FileSystem)
         (targetPath : string) (force recurse : bool) (w : W),
    let o := Rm.removeOne env fs targetPath force recurse w in
    Forall (fun c => isRemoverCall c = true) (calls o)
    /\ length (filter isRemoval (calls o)) <= 1
    /\ (value o = None -> length (filter isRemoval (calls o)) = 1).
Proof.
  intros W env fs targetPath force recurse w o. subst o.
  run_removeOne.
  destruct (fst (StatIRODSPath env fs _ w)) as [entry|err]; cbn.
  - destruct (Entry.Type_ entry); cbn.
    + destruct (fst (RemoveFile env fs _ force _)); cbn;
        (split; [repeat constructor|]); (split; [lia|]); intros H;
        try discriminate; reflexivity.
    + destruct recurse; cbn.
      * destruct (fst (RemoveDir env fs _ true force _)); cbn;
          (split; [repeat constructor|]); (split; [lia|]); intros H;
          try discriminate; reflexivity.
      * split; [repeat constructor|]. split; [lia|]. discriminate.
  - split; [repeat constructor|]. split; [lia|]. discriminate.
Qed.

(** ** [ls] *)

(** Every way a run of [listOne] can go, what it prints made explicit. *)
Ltac walk_listOne env :=
  repeat first
    [ progress cbn
    | rewrite (printDataObjects_prints env)
    | rewrite (printCollections_prints env)
    | rewrite (printDataObject_prints env)
    | match goal with
      | |- context [match ?X with Ok _ => _ | Err _ => _ end] => destruct X
      | |- context [if negb ?b then _ else _] => destruct b
      end ].

(** X3: [listOne] gives back the metadata connection it took, on every way
    out, and between taking and giving back it only looks things up: it
    never changes the remote.  When no connection is to be had, it returns
    that error, wrapped, and has done and printed nothing else. *)
Theorem listOne_returns_connection :
  forall (W : Type) (env : Collaborators W) (fs : FileSystem)
         (sourcePath : string) (longFormat veryLongFormat : bool) (w : W),
    let o := Ls.listOne env fs sourcePath longFormat veryLongFormat w in
    (forall conn,
        fst (GetMetadataConnection env fs w) = Ok conn ->
        exists lookups,
          calls o = (GetMetadataConnection_ fs :: lookups
                     ++ [ReturnMetadataConnection_ fs conn])%list
          /\ Forall (fun c => isLookup c = true) lookups)
    /\ (forall err,
           fst (GetMetadataConnection env fs w) = Err err ->
           value o = Some (Wrap "failed to get connection" err)
           /\ calls o = [GetMetadataConnection_ fs]
           /\ stdout o = []).
Proof.
  intros W env fs sourcePath longFormat veryLongFormat w o. subst o. split.
  - intros conn. run_listOne. intros Hconn. rewrite Hconn.
    walk_listOne env;
      match goal with
      | |- exists lookups, _ :: ?l = _ /\ _ => exists (removelast l)
      end;
      (split; [reflexivity | repeat constructor]).
  - intros err. run_listOne. intros Hconn. rewrite Hconn. cbn. repeat split.
Qed.

Lemma listOne_returns_connection_witness :
  let o := Ls.listOne Fake.env Fake.fs "b" true false Fake.world in
  exists lookups,
    calls o = (GetMetadataConnection_ Fake.fs :: lookups
               ++ [ReturnMetadataConnection_ Fake.fs (ConnectionHandle 1)])%list
    /\ Forall (fun c => isLookup c = true) lookups.
Proof.
  destruct (listOne_returns_connection Fake.World Fake.env Fake.fs "b" true false
              Fake.world) as [Hconn _].
  exact (Hconn (ConnectionHandle 1) eq_refl).
Defined.

(** X4: [listOne] prints only when it succeeds: a run that returns an error
    has printed nothing. *)
Theorem listOne_prints_only_on_success :
  forall (W : Type) (env : Collaborators W) (fs : FileSystem)
         (sourcePath : string) (longFormat veryLongFormat : bool) (w : W)
         (err : error),
    value (Ls.listOne env fs sourcePath longFormat veryLongFormat w) = Some err ->
    stdout (Ls.listOne env fs sourcePath longFormat veryLongFormat w) = [].
Proof.
  intros W env fs sourcePath longFormat veryLongFormat w err.
  run_listOne.
  destruct (fst (GetMetadataConnection env fs w)) as [conn|connErr]; cbn;
    [|reflexivity].
  walk_listOne env; intros H; try discriminate H; reflexivity.
Qed.

Lemma listOne_prints_only_on_success_witness :
  stdout (Ls.listOne Fake.env Fake.fs "nowhere/x" true false Fake.world) = [].
Proof.
  exact (listOne_prints_only_on_success Fake.World Fake.env Fake.fs "nowhere/x"
           true false Fake.world
           (Wrap "failed to get collection /tempZone/home/alice/nowhere"
                 (Fake.notFound "/tempZone/home/alice/nowhere"))
           eq_refl).
Defined.

(** X5: when listing the sub-collections fails, the data objects are not
    asked for; when listing the data objects fails, the sub-collections that
    were fetched are not printed.  Either error is returned wrapped with the
    path. *)
Theorem listOne_listing_fails :
  forall (W : Type) (env : Collaborators W) (fs : FileSystem)
         (sourcePath : string) (longFormat veryLongFormat : bool) (w : W)
         (conn : IRODSConnection) (collection : IRODSCollection.t),
    let p := resolved env w sourcePath in
    let w1 := snd (GetMetadataConnection env fs w) in
    let w2 := snd (GetCollection env conn p w1) in
    let w3 := snd (ListSubCollections env conn p w2) in
    let o := Ls.listOne env fs sourcePath longFormat veryLongFormat w in
    fst (GetMetadataConnection env fs w) = Ok conn ->
    fst (GetCollection env conn p w1) = Ok collection ->
    (forall err,
        fst (ListSubCollections env conn p w2) = Err err ->
        value o = Some (Wrap ("failed to list sub-collections in " ++ p) err)
        /\ calls o = [GetMetadataConnection_ fs; GetCollection_ conn p;
                      ListSubCollections_ conn p; ReturnMetadataConnection_ fs conn]
        /\ stdout o = [])
    /\ (forall colls err,
           fst (ListSubCollections env conn p w2) = Ok colls ->
           fst (ListDataObjects env conn collection w3) = Err err ->
           value o = Some (Wrap ("failed to list data-objects in " ++ p) err)
           /\ calls o = [GetMetadataConnection_ fs; GetCollection_ conn p;
                         ListSubCollections_ conn p; ListDataObjects_ conn collection;
                         ReturnMetadataConnection_ fs conn]
           /\ stdout o = []).
Proof.
  intros W env fs sourcePath longFormat veryLongFormat w conn collection
         p w1 w2 w3 o Hconn Hcoll.
  subst o w3 w2 w1 p. revert Hconn Hcoll. run_listOne.
  intros Hconn. rewrite Hconn. cbn. intros Hcoll. rewrite Hcoll. cbn. split.
  - intros err Hcolls. rewrite Hcolls. cbn. repeat split.
  - intros colls err Hcolls Hobjs. rewrite Hcolls. cbn. rewrite Hobjs. cbn.
    repeat split.
Qed.

Lemma listOne_listing_fails_witness :
  let o := Ls.listOne (FakeListing.refusing false true) Fake.fs "." false false
                      Fake.world in
  value o = Some (Wrap "failed to list data-objects in /tempZone/home/alice"
                       (Fake.refused "/tempZone/home/alice"))
  /\ stdout o = [].
Proof.
  destruct (listOne_listing_fails Fake.World (FakeListing.refusing false true) Fake.fs
              "." false false Fake.world (ConnectionHandle 1)
              (Fake.coll "/tempZone/home/alice") eq_refl eq_refl) as [_ Hobjs].
  destruct (Hobjs (map Fake.coll ["/tempZone/home/alice/z"; "/tempZone/home/alice/y"])
              (Fake.refused "/tempZone/home/alice") eq_refl eq_refl)
    as [Hvalue [_ Hstdout]].
  split; assumption.
Defined.

(** X6: what [printDataObject] prints for one data object.  The very long
    format wins over the long one when both are asked for; it prints two
    lines for each replica, the long format one, the short format the one
    line of the name.  So a data object without replicas shows in the short
    format only.  Printing calls no collaborator and leaves the world as it
    is. *)
Theorem printDataObject_lines :
  forall (W : Type) (env : Collaborators W) (entry : IRODSDataObject.t)
         (longFormat : bool) (w : W),
    let replicas := length (IRODSDataObject.Replicas entry) in
    Ls.printDataObject env entry true longFormat w
    = Ls.printDataObject env entry true (negb longFormat) w
    /\ length (stdout (Ls.printDataObject env entry true longFormat w)) = 2 * replicas
    /\ length (stdout (Ls.printDataObject env entry false true w)) = replicas
    /\ stdout (Ls.printDataObject env entry false false w)
       = ["  " ++ IRODSDataObject.Name entry ++ newline]
    /\ (forall veryLongFormat,
           calls (Ls.printDataObject env entry veryLongFormat longFormat w) = []
           /\ world (Ls.printDataObject env entry veryLongFormat longFormat w) = w).
Proof.
  intros W env entry longFormat w replicas. subst replicas.
  rewrite !printDataObject_prints. cbn.
  split; [reflexivity|]. split; [|split; [|split]].
  - unfold dataObjectLines.
    induction (IRODSDataObject.Replicas entry) as [|r rest IH]; [reflexivity|].
    cbn [flat_map length app]. rewrite IH. cbn [length]. lia.
  - unfold dataObjectLines. apply length_map.
  - reflexivity.
  - intros veryLongFormat. rewrite printDataObject_prints. split; reflexivity.
Qed.

(** ** [rm] and [ls]: the commands *)

Lemma range_filter_nil {W A : Type} (p : Call -> bool) (xs : list A)
      (body : A -> M W (option error)) (wrap : A -> error -> error) :
  (forall x w, filter p (calls (body x w)) = []) ->
  forall w, filter p (calls (range xs body wrap w)) = [].
Proof.
  intros Hbody. induction xs as [|x rest IH]; intros w; [reflexivity|].
  pose proof (range_cons x rest body wrap w) as Hcons. cbv zeta in Hcons.
  destruct (value (body x w)).
  - destruct Hcons as [_ [_ [Hc _]]]. rewrite Hc. apply Hbody.
  - destruct Hcons as [_ [_ [Hc _]]]. rewrite Hc, filter_app, Hbody, IH. reflexivity.
Qed.

Lemma removeOne_never_releases {W : Type} (env : Collaborators W) (fs : FileSystem)
      (targetPath : string) (force recurse : bool) (w : W) :
  filter isRelease (calls (Rm.removeOne env fs targetPath force recurse w)) = [].
Proof.
  run_removeOne.
  destruct (fst (StatIRODSPath env fs _ w)) as [entry|err]; cbn; [|reflexivity].
  destruct (Entry.Type_ entry); cbn.
  - destruct (fst (RemoveFile env fs _ force _)); reflexivity.
  - destruct recurse; cbn; [|reflexivity].
    destruct (fst (RemoveDir env fs _ true force _)); reflexivity.
Qed.

Lemma listOne_never_releases {W : Type} (env : Collaborators W) (fs : FileSystem)
      (sourcePath : string) (longFormat veryLongFormat : bool) (w : W) :
  filter isRelease
         (calls (Ls.listOne env fs sourcePath longFormat veryLongFormat w)) = [].
Proof.
  run_listOne.
  destruct (fst (GetMetadataConnection env fs w)) as [conn|connErr]; cbn;
    [|reflexivity].
  walk_listOne env; reflexivity.
Qed.

(** X7: [rm] without arguments fails with "not enough input arguments".  It
    has opened the file system client by then, and it releases it; it makes no
    query and no removal. *)
Theorem processRmCommand_no_arguments :
  forall (W : Type) (env : Collaborators W) (command : Command.t) (w : W)
         (fs : FileSystem),
    preludePasses env command w fs ->
    let o := Rm.processRmCommand env command [] w in
    value o = Some (Errorf "not enough input arguments")
    /\ calls o = (preludeCalls env command w ++ [Release_ fs])%list
    /\ stdout o = [].
Proof.
  intros W env command w fs Hprelude o.
  destruct (processRmCommand_after_prelude env command [] w fs Hprelude)
    as [Hvalue [Hcalls Hstdout]].
  subst o. rewrite Hvalue, Hcalls, Hstdout. repeat split.
Qed.

Lemma processRmCommand_no_arguments_witness :
  let command := {| Command.Flags := [("recurse", "true"); ("force", "false")] |} in
  let o := Rm.processRmCommand Fake.env command [] Fake.world in
  value o = Some (Errorf "not enough input arguments")
  /\ calls o = [ProcessCommonFlags_ command; InputMissingFields_; GetAccount_;
                GetIRODSFSClient_ (Account "alice"); Release_ Fake.fs].
Proof.
  destruct (processRmCommand_no_arguments Fake.World Fake.env
              {| Command.Flags := [("recurse", "true"); ("force", "false")] |}
              Fake.world Fake.fs (conj eq_refl (conj eq_refl eq_refl)))
    as [Hvalue [Hcalls _]].
  split; [exact Hvalue | exact Hcalls].
Defined.

(** X8: [rm] removes its arguments in their order and stops at the first one
    that fails: the error is returned, wrapped with that argument, the
    arguments after it are left alone, and the client is released. When
    every argument goes through, [rm] returns [nil]. *)
Theorem processRmCommand_stops_at_first_failure :
  forall (W : Type) (env : Collaborators W) (command : Command.t)
         (args : list string) (w : W) (fs : FileSystem),
    preludePasses env command w fs ->
    let w0 := afterPrelude env command w in
    let before := preludeCalls env command w in
    let force := boolFlag command "force" in
    let recurse := boolFlag command "recurse" in
    let remove1 := fun sourcePath => Rm.removeOne env fs sourcePath force recurse in
    let removed := fun sourcePaths => removeEach env fs force recurse sourcePaths in
    let o := Rm.processRmCommand env command args w in
    (forall pre sourcePath post err,
        args = (pre ++ sourcePath :: post)%list ->
        value (removed pre w0) = None ->
        value (remove1 sourcePath (world (removed pre w0))) = Some err ->
        value o = Some (Wrap ("failed to perform rm " ++ sourcePath) err)
        /\ calls o = (before ++ calls (removed pre w0)
                      ++ calls (remove1 sourcePath (world (removed pre w0)))
                      ++ [Release_ fs])%list)
    /\ (args <> [] ->
        value (removed args w0) = None ->
        value o = None
        /\ calls o = (before ++ calls (removed args w0) ++ [Release_ fs])%list).
Proof.
  intros W env command args w fs Hprelude w0 before force recurse remove1 removed o.
  destruct (processRmCommand_after_prelude env command args w fs Hprelude)
    as [Hvalue [Hcalls _]].
  fold w0 before force recurse o in Hvalue, Hcalls.
  assert (Hloop : args <> [] ->
                  removeAll env fs force recurse args w0 = removed args w0).
  { destruct args; [congruence|reflexivity]. }
  split.
  - intros pre sourcePath post err Hargs Hpre Hfail.
    rewrite Hloop in Hvalue, Hcalls by (rewrite Hargs; destruct pre; discriminate).
    rewrite Hargs in Hvalue, Hcalls.
    destruct (range_aborts pre sourcePath post remove1
                (fun sourcePath err => Wrap ("failed to perform rm " ++ sourcePath) err)
                w0 err Hpre Hfail) as [Hv [Hc _]].
    rewrite Hvalue, Hcalls. unfold removed, removeEach. fold remove1.
    rewrite Hv, Hc, <- !app_assoc. split; reflexivity.
  - intros Hargs Hall. rewrite (Hloop Hargs) in Hvalue, Hcalls.
    rewrite Hvalue, Hcalls, Hall. split; reflexivity.
Qed.

(** [rm a gone b]: [a] is removed, [gone] is not there, [b] stays. *)
Lemma processRmCommand_stops_at_first_failure_witness :
  let command := {| Command.Flags := [("recurse", "false"); ("force", "false")] |} in
  let o := Rm.processRmCommand Fake.env command ["a"; "gone"; "b"] Fake.world in
  value o = Some (Wrap "failed to perform rm gone"
                       (Wrap "failed to stat /tempZone/home/alice/gone"
                             (Fake.notFound "/tempZone/home/alice/gone")))
  /\ calls o = [ProcessCommonFlags_ command; InputMissingFields_; GetAccount_;
                GetIRODSFSClient_ (Account "alice");
                StatIRODSPath_ Fake.fs "/tempZone/home/alice/a";
                RemoveFile_ Fake.fs "/tempZone/home/alice/a" false;
                StatIRODSPath_ Fake.fs "/tempZone/home/alice/gone";
                Release_ Fake.fs].
Proof.
  destruct (processRmCommand_stops_at_first_failure Fake.World Fake.env
              {| Command.Flags := [("recurse", "false"); ("force", "false")] |}
              ["a"; "gone"; "b"] Fake.world Fake.fs
              (conj eq_refl (conj eq_refl eq_refl))) as [Hstops _].
  destruct (Hstops ["a"] "gone" ["b"]
              (Wrap "failed to stat /tempZone/home/alice/gone"
                    (Fake.notFound "/tempZone/home/alice/gone"))
              eq_refl eq_refl eq_refl) as [Hvalue Hcalls].
  split; [exact Hvalue|]. rewrite Hcalls. reflexivity.
Defined.

(** X9: a client that was opened is released exactly once, as the last
    call, whatever [rm] or [ls] did in between and whatever they return. *)
Theorem commands_release_the_client :
  forall (W : Type) (env : Collaborators W) (command : Command.t)
         (args : list string) (w : W) (fs : FileSystem),
    preludePasses env command w fs ->
    let rm := Rm.processRmCommand env command args w in
    let ls := Ls.processLsCommand env command args w in
    (filter isRelease (calls rm) = [Release_ fs]
     /\ exists before, calls rm = (before ++ [Release_ fs])%list)
    /\ (filter isRelease (calls ls) = [Release_ fs]
        /\ exists before, calls ls = (before ++ [Release_ fs])%list).
Proof.
  intros W env command args w fs Hprelude rm ls.
  destruct (processRmCommand_after_prelude env command args w fs Hprelude)
    as [_ [Hrm _]].
  destruct (processLsCommand_after_prelude env command args w fs Hprelude)
    as [_ [Hls _]].
  subst rm ls. rewrite Hrm, Hls. split; split.
  - rewrite !filter_app.
    assert (Hbody : filter isRelease
                      (calls (removeAll env fs (boolFlag command "force")
                                (boolFlag command "recurse") args
                                (afterPrelude env command w))) = []).
    { destruct args as [|a rest]; [reflexivity|].
      apply range_filter_nil. intros x w'. apply removeOne_never_releases. }
    rewrite Hbody. reflexivity.
  - eexists. rewrite app_assoc. reflexivity.
  - rewrite !filter_app.
    assert (Hbody : filter isRelease
                      (calls (listAll env fs (boolFlag command "long")
                                (boolFlag command "verylong")
                                (match args with [] => ["."] | _ => args end)
                                (afterPrelude env command w))) = []).
    { apply range_filter_nil. intros x w'. apply listOne_never_releases. }
    rewrite Hbody. reflexivity.
  - eexists. rewrite app_assoc. reflexivity.
Qed.

Lemma commands_release_the_client_witness :
  let command := {| Command.Flags := [("recurse", "false"); ("force", "false")] |} in
  filter isRelease (calls (Rm.processRmCommand Fake.env command ["gone"] Fake.world))
  = [Release_ Fake.fs]
  /\ filter isRelease (calls (Ls.processLsCommand Fake.env command ["gone"] Fake.world))
     = [Release_ Fake.fs].
Proof.
  destruct (commands_release_the_client Fake.World Fake.env
              {| Command.Flags := [("recurse", "false"); ("force", "false")] |}
              ["gone"] Fake.world Fake.fs (conj eq_refl (conj eq_refl eq_refl)))
    as [[Hrm _] [Hls _]].
  split; assumption.
Defined.

(** X10: how [rm] and [ls] end before they have a client.  An error of the
    common flags is returned, wrapped, whether or not they say to continue;
    without an error and without leave to continue the command returns [nil]
    and does nothing; an error of the missing fields, or of the opening of the
    client, is returned wrapped.  No client was opened, so none is released,
    and no argument is looked at. *)
Theorem commands_stop_at_the_start :
  forall (W : Type) (env : Collaborators W) (command : Command.t)
         (args : list string) (w : W),
    let flags := ProcessCommonFlags env command w in
    let fields := InputMissingFields env (snd flags) in
    let account := GetAccount env (snd fields) in
    let client := GetIRODSFSClient env (fst account) (snd account) in
    let both := fun (v : option error) (cs : list Call) =>
                  endsWith (Rm.processRmCommand env command args w) v cs
                  /\ endsWith (Ls.processLsCommand env command args w) v cs in
    (forall err,
        snd (fst flags) = Some err ->
        both (Some (Wrap "failed to process common flags" err))
             [ProcessCommonFlags_ command])
    /\ (fst flags = (false, None) -> both None [ProcessCommonFlags_ command])
    /\ (fst flags = (true, None) ->
        (forall err,
            snd (fst fields) = Some err ->
            both (Some (Wrap "failed to input missing fields" err))
                 [ProcessCommonFlags_ command; InputMissingFields_])
        /\ (snd (fst fields) = None ->
            forall err,
              fst client = Err err ->
              both (Some (Wrap "failed to get iRODS FS Client" err))
                   [ProcessCommonFlags_ command; InputMissingFields_; GetAccount_;
                    GetIRODSFSClient_ (fst account)])).
Proof.
  intros W env command args w flags fields account client both.
  subst both client account fields flags. cbv beta.
  unfold endsWith, Rm.processRmCommand, Ls.processLsCommand, defer, bind, call, ret.
  cbn. split; [|split].
  - intros err Hflags. rewrite Hflags. cbn. repeat split.
  - intros Hflags. rewrite Hflags. cbn. repeat split.
  - intros Hflags. rewrite Hflags. cbn. split.
    + intros err Hfields. rewrite Hfields. cbn. repeat split.
    + intros Hfields err Hclient. rewrite Hfields. cbn. rewrite Hclient. cbn.
      repeat split.
Qed.

Lemma commands_stop_at_the_start_witness :
  let command := {| Command.Flags := [] |} in
  value (Rm.processRmCommand (FakePrelude.stopping 3) command ["a"] Fake.world)
  = Some (Wrap "failed to process common flags" FakePrelude.flagsError)
  /\ calls (Ls.processLsCommand (FakePrelude.stopping 2) command ["a"] Fake.world)
     = [ProcessCommonFlags_ command]
  /\ calls (Rm.processRmCommand (FakePrelude.stopping 5) command ["a"] Fake.world)
     = [ProcessCommonFlags_ command; InputMissingFields_; GetAccount_;
        GetIRODSFSClient_ (Account "alice")].
Proof.
  split; [|split].
  - destruct (commands_stop_at_the_start Fake.World (FakePrelude.stopping 3)
                {| Command.Flags := [] |} ["a"] Fake.world) as [Hflags _].
    destruct (Hflags FakePrelude.flagsError eq_refl) as [[Hvalue _] _].
    exact Hvalue.
  - destruct (commands_stop_at_the_start Fake.World (FakePrelude.stopping 2)
                {| Command.Flags := [] |} ["a"] Fake.world) as [_ [Hstop _]].
    destruct (Hstop eq_refl) as [_ [_ [Hcalls _]]].
    exact Hcalls.
  - destruct (commands_stop_at_the_start Fake.World (FakePrelude.stopping 5)
                {| Command.Flags := [] |} ["a"] Fake.world) as [_ [_ Hgoes]].
    destruct (Hgoes eq_refl) as [_ Hclient].
    destruct (Hclient eq_refl FakePrelude.clientError eq_refl) as [[_ [Hcalls _]] _].
    exact Hcalls.
Defined.

(** ** [goput]: [putOne] *)

(** X11: a local file goes up with exactly one upload, into the resolved
    target, on no named resource, with no fixed number of tasks and without
    replication; no collection is made for it.  What the upload returns is
    what [putOne] returns, an error as it is. *)
Theorem putOne_regular_file :
  forall (W : Type) (env : Collaborators W) (fs : FileSystem) (fuel : nat)
         (sourcePath targetPath : string) (w : W) (st : FileInfo.t),
    let sp := MakeLocalPath env sourcePath in
    let tp := resolved env w targetPath in
    let up := UploadFileParallel env fs sp tp "" 0 false (snd (Stat env sp w)) in
    let o := Goput.putOne env (S fuel) fs sourcePath targetPath w in
    fst (Stat env sp w) = Ok st ->
    FileInfo.IsDir st = false ->
    value o = Goput.Returned (fst up)
    /\ world o = snd up
    /\ calls o = [Stat_ sp; UploadFileParallel_ fs sp tp "" 0 false]
    /\ filter isRemoteChange (calls o) = [UploadFileParallel_ fs sp tp "" 0 false].
Proof.
  intros W env fs fuel sourcePath targetPath w [isDir] sp tp up o Hstat HisDir.
  simpl in HisDir. subst isDir.
  destruct (putOne_file W env fs fuel sourcePath targetPath w Hstat) as [Hv [Hw Hc]].
  fold sp tp up o in Hv, Hw, Hc. rewrite Hv, Hw, Hc. repeat split.
Qed.

Lemma putOne_regular_file_witness :
  let o := Goput.putOne Fake.env 1 Fake.fs "root/a.txt" "T" Fake.world in
  value o = Goput.Returned None
  /\ calls o = [Stat_ "/home/alice/root/a.txt";
                UploadFileParallel_ Fake.fs "/home/alice/root/a.txt"
                                    "/tempZone/home/alice/T" "" 0 false]
  /\ Fake.objects (world o)
     = (Fake.objects Fake.world
        ++ [{| IRODSDataObject.Path := "/tempZone/home/alice/T/a.txt";
               IRODSDataObject.Name := "a.txt";
               IRODSDataObject.Size := 0; IRODSDataObject.Replicas := [] |}])%list.
Proof.
  destruct (putOne_regular_file Fake.World Fake.env Fake.fs 0 "root/a.txt" "T"
              Fake.world fileInfo eq_refl eq_refl) as [Hvalue [Hworld [Hcalls _]]].
  split; [exact Hvalue|]. split; [exact Hcalls|].
  rewrite Hworld. reflexivity.
Defined.

(** X12: when the local path cannot be looked at, or is a directory that
    cannot be read, [putOne] returns that error as it is and has changed
    nothing on the remote: the directory is read before its sub-collection
    is made. *)
Theorem putOne_local_failure :
  forall (W : Type) (env : Collaborators W) (fs : FileSystem) (fuel : nat)
         (sourcePath targetPath : string) (w : W),
    let sp := MakeLocalPath env sourcePath in
    let o := Goput.putOne env (S fuel) fs sourcePath targetPath w in
    (forall err,
        fst (Stat env sp w) = Err err ->
        value o = Goput.Returned (Some err)
        /\ calls o = [Stat_ sp]
        /\ filter isRemoteChange (calls o) = [])
    /\ (forall st err,
           fst (Stat env sp w) = Ok st ->
           FileInfo.IsDir st = true ->
           fst (ReadDir env sp (snd (Stat env sp w))) = Err err ->
           value o = Goput.Returned (Some err)
           /\ calls o = [Stat_ sp; ReadDir_ sp]
           /\ filter isRemoteChange (calls o) = []).
Proof.
  intros W env fs fuel sourcePath targetPath w sp o. split.
  - intros err Hstat.
    destruct (putOne_stat_fails W env fs fuel sourcePath targetPath w err Hstat)
      as [Hv [Hc _]].
    fold sp o in Hv, Hc. rewrite Hv, Hc. repeat split.
  - intros [isDir] err Hstat HisDir Hread. simpl in HisDir. subst isDir.
    destruct (putOne_readdir_fails W env fs fuel sourcePath targetPath w err
                Hstat Hread) as [Hv [Hc _]].
    fold sp o in Hv, Hc. rewrite Hv, Hc. repeat split.
Qed.

Lemma putOne_local_failure_witness :
  let o := Goput.putOne Fake.env 3 Fake.fs "nothing" "T" Fake.world in
  value o = Goput.Returned
              (Some (External 2 "stat /home/alice/nothing: no such file or directory"))
  /\ filter isRemoteChange (calls o) = [].
Proof.
  destruct (putOne_local_failure Fake.World Fake.env Fake.fs 2 "nothing" "T" Fake.world)
    as [Hstat _].
  destruct (Hstat (External 2 "stat /home/alice/nothing: no such file or directory")
              eq_refl) as [Hvalue [_ Hnone]].
  split; assumption.
Defined.

(** X13: an empty local directory is mirrored as its sub-collection and
    nothing else: one [MakeDir], no upload, and [putOne] returns what the
    [MakeDir] returned. *)
Theorem putOne_empty_directory :
  forall (W : Type) (env : Collaborators W) (fs : FileSystem) (fuel : nat)
         (sourcePath targetPath : string) (w : W) (st : FileInfo.t),
    let sp := MakeLocalPath env sourcePath in
    let targetDir := Path.Join (resolved env w targetPath) (Path.Base sp) in
    let mk := MakeDir env fs targetDir true
                      (snd (ReadDir env sp (snd (Stat env sp w)))) in
    let o := Goput.putOne env (S fuel) fs sourcePath targetPath w in
    fst (Stat env sp w) = Ok st ->
    FileInfo.IsDir st = true ->
    fst (ReadDir env sp (snd (Stat env sp w))) = Ok [] ->
    value o = Goput.Returned (fst mk)
    /\ world o = snd mk
    /\ calls o = [Stat_ sp; ReadDir_ sp; MakeDir_ fs targetDir true].
Proof.
  intros W env fs fuel sourcePath targetPath w [isDir] sp targetDir mk o
         Hstat HisDir Hread.
  simpl in HisDir. subst isDir.
  pose proof (putOne_dir W env fs fuel sourcePath targetPath w [] Hstat Hread) as Hdir.
  cbv zeta in Hdir. fold sp targetDir mk o in Hdir.
  destruct (fst mk); destruct Hdir as [Hv [Hw Hc]]; rewrite Hv, Hw, Hc;
    repeat split.
Qed.

Lemma putOne_empty_directory_witness :
  let o := Goput.putOne FakeEmpty.env 1 Fake.fs "empty" "T" Fake.world in
  value o = Goput.Returned None
  /\ calls o = [Stat_ "/home/alice/empty"; ReadDir_ "/home/alice/empty";
                MakeDir_ Fake.fs "/tempZone/home/alice/T/empty" true]
  /\ Fake.objects (world o) = Fake.objects Fake.world.
Proof.
  destruct (putOne_empty_directory Fake.World FakeEmpty.env Fake.fs 0 "empty" "T"
              Fake.world dirInfo eq_refl eq_refl eq_refl) as [Hvalue [Hworld Hcalls]].
  split; [exact Hvalue|]. split; [exact Hcalls|].
  rewrite Hworld. reflexivity.
Defined.

Lemma rangeEntries_Forall {W : Type} (P : Call -> Prop) (entries : list DirEntry.t)
      (body : DirEntry.t -> M W (Goput.run (option error))) :
  (forall e w, Forall P (calls (body e w))) ->
  forall w, Forall P (calls (Goput.rangeEntries entries body w)).
Proof.
  intros Hbody. induction entries as [|e rest IH]; intros w; [constructor|].
  pose proof (rangeEntries_cons W e rest body w) as Hcons. cbv zeta in Hcons.
  destruct (value (body e w)) as [[err|]|]; destruct Hcons as [_ [_ Hc]];
    rewrite Hc; try apply Hbody.
  apply Forall_app. split; [apply Hbody | apply IH].
Qed.

Lemma putOne_uploader_calls {W : Type} (env : Collaborators W) (fs : FileSystem)
      (fuel : nat) (sourcePath targetPath : string) (w : W) :
  Forall (fun c => isUploaderCall c = true)
         (calls (Goput.putOne env fuel fs sourcePath targetPath w)).
Proof.
  revert sourcePath targetPath w.
  induction fuel as [|fuel IH]; intros sourcePath targetPath w; [constructor|].
  set (sp := MakeLocalPath env sourcePath).
  destruct (fst (Stat env sp w)) as [[isDir]|err] eqn:Hstat.
  - destruct isDir.
    + destruct (fst (ReadDir env sp (snd (Stat env sp w)))) as [entries|err]
        eqn:Hread.
      * pose proof (putOne_dir W env fs fuel sourcePath targetPath w entries
                      Hstat Hread) as Hdir.
        cbv zeta in Hdir. fold sp in Hdir.
        destruct (fst (MakeDir env fs _ true _)); destruct Hdir as [_ [_ Hc]];
          rewrite Hc; [repeat constructor|].
        apply Forall_app. split; [repeat constructor|].
        apply rangeEntries_Forall. intros e w'. apply IH.
      * destruct (putOne_readdir_fails W env fs fuel sourcePath targetPath w err
                    Hstat Hread) as [_ [Hc _]].
        rewrite Hc. repeat constructor.
    + destruct (putOne_file W env fs fuel sourcePath targetPath w Hstat)
        as [_ [_ Hc]].
      rewrite Hc. repeat constructor.
  - destruct (putOne_stat_fails W env fs fuel sourcePath targetPath w err Hstat)
      as [_ [Hc _]].
    rewrite Hc. repeat constructor.
Qed.

(** X14: whatever the local tree and the remote answer, and however deep the
    walk goes, [putOne] only looks at the local tree, makes collections and
    uploads files: it removes nothing and it opens and releases no client. *)
Theorem putOne_only_adds :
  forall (W : Type) (env : Collaborators W) (fs : FileSystem) (fuel : nat)
         (sourcePath targetPath : string) (w : W),
    let o := Goput.putOne env fuel fs sourcePath targetPath w in
    Forall (fun c => isUploaderCall c = true) (calls o)
    /\ filter isRemoval (calls o) = []
    /\ filter isRelease (calls o) = [].
Proof.
  intros W env fs fuel sourcePath targetPath w o.
  pose proof (putOne_uploader_calls env fs fuel sourcePath targetPath w) as Hall.
  fold o in Hall.
  split; [exact Hall|]. split.
  - apply (Forall_filter_nil isRemoval isUploaderCall); [|exact Hall].
    intros c. destruct c; simpl; congruence.
  - apply (Forall_filter_nil isRelease isUploaderCall); [|exact Hall].
    intros c. destruct c; simpl; congruence.
Qed.

(** ** [goput]: the command *)

Lemma rangeSources_cons {W : Type} (env : Collaborators W) (fuel : nat)
      (fs : FileSystem) (sourcePath : string) (rest : list string)
      (targetPath : string) (w : W) :
  let first := Goput.putOne env fuel fs sourcePath targetPath w in
  let o := GoputCommand.rangeSources env fuel fs (sourcePath :: rest) targetPath w in
  match value first with
  | Goput.Returned None =>
      let r := GoputCommand.rangeSources env fuel fs rest targetPath (world first) in
      value o = value r /\ world o = world r
      /\ calls o = (calls first ++ calls r)%list
      /\ logged o = (logged first ++ logged r)%list
  | Goput.Returned (Some err) =>
      value o = Goput.Returned (Some err) /\ world o = world first
      /\ calls o = calls first
      /\ logged o = (logged first ++ [Error err])%list
  | Goput.OutOfFuel =>
      value o = Goput.OutOfFuel /\ world o = world first
      /\ calls o = calls first
      /\ logged o = logged first
  end.
Proof.
  cbn [GoputCommand.rangeSources].
  unfold GoputCommand.logged_putOne, bind, Log, ret.
  destruct (Goput.putOne env fuel fs sourcePath targetPath w) as [v w1 cs out lg].
  cbn. destruct v as [[err|]|]; cbn.
  - rewrite ?app_nil_r. repeat split.
  - name_outcomes. repeat split.
  - rewrite ?app_nil_r. repeat split.
Qed.

Lemma rangeSources_aborts {W : Type} (env : Collaborators W) (fuel : nat)
      (fs : FileSystem) (pre : list string) (sourcePath : string)
      (post : list string) (targetPath : string) (w : W) (err : error) :
  let before := GoputCommand.rangeSources env fuel fs pre targetPath w in
  let failing := Goput.putOne env fuel fs sourcePath targetPath (world before) in
  let o := GoputCommand.rangeSources env fuel fs (pre ++ sourcePath :: post)
                                     targetPath w in
  value before = Goput.Returned None ->
  value failing = Goput.Returned (Some err) ->
  value o = Goput.Returned (Some err)
  /\ calls o = (calls before ++ calls failing)%list
  /\ logged o = (logged before ++ logged failing ++ [Error err])%list.
Proof.
  revert w. induction pre as [|p pre IH]; intros w before failing o Hpre Hfail.
  - pose proof (rangeSources_cons env fuel fs sourcePath post targetPath w) as Hcons.
    cbv zeta in Hcons. subst before failing o. cbn in Hfail. cbn [app].
    rewrite Hfail in Hcons. destruct Hcons as [Hv [_ [Hc Hl]]].
    rewrite Hv, Hc, Hl. repeat split.
  - pose proof (rangeSources_cons env fuel fs p pre targetPath w) as Hbefore.
    pose proof (rangeSources_cons env fuel fs p (pre ++ sourcePath :: post)
                  targetPath w) as Hcons.
    cbv zeta in Hbefore, Hcons. subst before failing o.
    change ((p :: pre) ++ sourcePath :: post)%list
      with (p :: (pre ++ sourcePath :: post))%list.
    destruct (value (Goput.putOne env fuel fs p targetPath w)) as [[e|]|].
    + destruct Hbefore as [Hv _]. rewrite Hv in Hpre. discriminate.
    + destruct Hbefore as [Hv [Hw [Hc Hl]]]. destruct Hcons as [Hv' [_ [Hc' Hl']]].
      rewrite Hv in Hpre. rewrite Hw in Hfail.
      destruct (IH _ Hpre Hfail) as [IHv [IHc IHl]].
      rewrite Hv', Hc', Hl', IHv, IHc, IHl, Hw, Hc, Hl, <- !app_assoc.
      repeat split.
    + destruct Hbefore as [Hv _]. rewrite Hv in Hpre. discriminate.
Qed.

Lemma rangeSources_Forall {W : Type} (env : Collaborators W) (fuel : nat)
      (fs : FileSystem) (P : Call -> Prop) (sourcePaths : list string)
      (targetPath : string) :
  (forall s w, Forall P (calls (Goput.putOne env fuel fs s targetPath w))) ->
  forall w, Forall P (calls (GoputCommand.rangeSources env fuel fs sourcePaths
                                                      targetPath w)).
Proof.
  intros Hone. induction sourcePaths as [|s rest IH]; intros w; [constructor|].
  pose proof (rangeSources_cons env fuel fs s rest targetPath w) as Hcons.
  cbv zeta in Hcons.
  destruct (value (Goput.putOne env fuel fs s targetPath w)) as [[e|]|].
  - destruct Hcons as [_ [_ [Hc _]]]. rewrite Hc. apply Hone.
  - destruct Hcons as [_ [_ [Hc _]]]. rewrite Hc.
    apply Forall_app. split; [apply Hone | apply IH].
  - destruct Hcons as [_ [_ [Hc _]]]. rewrite Hc. apply Hone.
Qed.

Lemma processCommand_after_prelude {W : Type} (env : Collaborators W) (fuel : nat)
      (command : Command.t) (args : list string) (w : W) (fs : FileSystem) :
  goputPreludePasses env command w fs ->
  let o := GoputCommand.processCommand env fuel command args w in
  let body := uploadAll env fuel fs args (goputAfterPrelude env command w) in
  value o = value body
  /\ calls o = (goputPreludeCalls env command w ++ calls body ++ [Release_ fs])%list
  /\ logged o = (flagsLog env command w ++ logged body)%list
  /\ stdout o = stdout body.
Proof.
  unfold goputPreludePasses, goputAfterPrelude, goputPreludeCalls, goputAccountOf,
    afterMissingFields, flagsLog, GoputCommand.processCommand, defer.
  destruct (ProcessCommonFlags env command w) as [[cont ferr] w1] eqn:Hf.
  cbn [fst snd].
  destruct (InputMissingFields env w1) as [[upd merr] w2] eqn:Hm. cbn [fst snd].
  destruct (GetAccount env w2) as [account w3] eqn:Ha. cbn [fst snd].
  destruct (NewFileSystemWithDefault env account "gocommands-put" w3) as [r w4]
    eqn:Hn.
  cbn [fst snd]. intros [Hflags [Hmissing Hclient]]. subst cont merr r.
  unfold uploadAll, bind, call, Log, ret. rewrite Hf. cbn [fst snd].
  destruct ferr as [e|]; cbn [negb app]; rewrite Hm; cbn [fst snd app];
    rewrite Ha; cbn [fst snd app]; rewrite Hn; cbn [fst snd app];
    destruct args as [|a [|b rest]]; cbn [GoputCommand.rangeSources]; unfold ret;
    repeat match goal with
      | |- context [GoputCommand.logged_putOne ?e ?f ?s ?p ?t ?n w4] =>
          destruct (GoputCommand.logged_putOne e f s p t n w4)
      | |- context [GoputCommand.rangeSources ?e ?f ?s ?l ?t w4] =>
          destruct (GoputCommand.rangeSources e f s l t w4)
      end;
    cbn; rewrite ?app_nil_r; repeat split.
Qed.

Lemma uploadAll_uploader_calls {W : Type} (env : Collaborators W) (fuel : nat)
      (fs : FileSystem) (args : list string) (w : W) :
  Forall (fun c => isUploaderCall c = true) (calls (uploadAll env fuel fs args w)).
Proof.
  destruct args as [|a [|b rest]]; [constructor| |];
    apply rangeSources_Forall; intros s w'; apply putOne_uploader_calls.
Qed.

Lemma processCommand_early {W : Type} (env : Collaborators W) (fuel : nat)
      (command : Command.t) (args : list string) (w : W) :
  let flags := ProcessCommonFlags env command w in
  let fields := InputMissingFields env (snd flags) in
  let account := GetAccount env (snd fields) in
  let client := NewFileSystemWithDefault env (fst account) "gocommands-put"
                                         (snd account) in
  let o := GoputCommand.processCommand env fuel command args w in
  (fst (fst flags) = false ->
   value o = Goput.Returned (snd (fst flags))
   /\ calls o = [ProcessCommonFlags_ command]
   /\ logged o = flagsLog env command w)
  /\ (fst (fst flags) = true ->
      forall err,
        snd (fst fields) = Some err ->
        value o = Goput.Returned (Some err)
        /\ calls o = [ProcessCommonFlags_ command; InputMissingFields_]
        /\ logged o = (flagsLog env command w ++ [Error err])%list)
  /\ (fst (fst flags) = true ->
      snd (fst fields) = None ->
      forall err,
        fst client = Err err ->
        value o = Goput.Returned (Some err)
        /\ calls o = [ProcessCommonFlags_ command; InputMissingFields_; GetAccount_;
                      NewFileSystemWithDefault_ (fst account) "gocommands-put"]
        /\ logged o = flagsLog env command w).
Proof.
  unfold flagsLog, GoputCommand.processCommand, defer.
  destruct (ProcessCommonFlags env command w) as [[cont ferr] w1] eqn:Hf.
  cbn [fst snd].
  destruct (InputMissingFields env w1) as [[upd merr] w2] eqn:Hm. cbn [fst snd].
  destruct (GetAccount env w2) as [account w3] eqn:Ha. cbn [fst snd].
  destruct (NewFileSystemWithDefault env account "gocommands-put" w3) as [r w4]
    eqn:Hn.
  cbn [fst snd]. unfold bind, call, Log, ret. rewrite Hf. cbn [fst snd].
  split; [|split].
  - intros ->. destruct ferr; cbn; repeat split.
  - intros -> err ->.
    destruct ferr; cbn [negb app]; rewrite Hm; cbn; repeat split.
  - intros -> -> err ->.
    destruct ferr; cbn [negb app]; rewrite Hm; cbn [fst snd app];
      rewrite Ha; cbn [fst snd app]; rewrite Hn; cbn; repeat split.
Qed.

(** X15: what [goput] uploads, once its client is open.  Without arguments
    it uploads nothing and returns no error; one argument goes into the
    working collection [./]; of two or more the last is the target and the
    others are the sources, in their order.  The client is released after
    the uploads. *)
Theorem processCommand_targets :
  forall (W : Type) (env : Collaborators W) (fuel : nat) (command : Command.t)
         (args : list string) (w : W) (fs : FileSystem),
    goputPreludePasses env command w fs ->
    let w0 := goputAfterPrelude env command w in
    let before := goputPreludeCalls env command w in
    let upload := fun sourcePaths targetPath =>
                    GoputCommand.rangeSources env fuel fs sourcePaths targetPath w0 in
    let o := GoputCommand.processCommand env fuel command args w in
    (args = [] ->
     value o = Goput.Returned None /\ calls o = (before ++ [Release_ fs])%list)
    /\ (forall sourcePath,
           args = [sourcePath] ->
           continuesAs o before (upload [sourcePath] "./") [Release_ fs])
    /\ (forall sourcePaths targetPath,
           sourcePaths <> [] ->
           args = (sourcePaths ++ [targetPath])%list ->
           continuesAs o before (upload sourcePaths targetPath) [Release_ fs]).
Proof.
  intros W env fuel command args w fs Hprelude w0 before upload o.
  destruct (processCommand_after_prelude env fuel command args w fs Hprelude)
    as [Hvalue [Hcalls [_ Hout]]].
  fold w0 before o in Hvalue, Hcalls, Hout.
  split; [|split].
  - intros Hargs. rewrite Hargs in Hvalue, Hcalls. split; assumption.
  - intros sourcePath Hargs. rewrite Hargs in Hvalue, Hcalls, Hout.
    repeat split; assumption.
  - intros sourcePaths targetPath Hsome Hargs.
    assert (Hbody : uploadAll env fuel fs args w0 = upload sourcePaths targetPath).
    { rewrite Hargs. unfold upload.
      rewrite <- (removelast_last sourcePaths targetPath) at 2.
      rewrite <- (last_last sourcePaths targetPath "") at 3.
      destruct sourcePaths as [|a [|b rest]]; [congruence|reflexivity|reflexivity]. }
    rewrite Hbody in Hvalue, Hcalls, Hout. repeat split; assumption.
Qed.

(** [goput root/a.txt root/sub/b.txt T]: both files go into [T]. *)
Lemma processCommand_targets_witness :
  let command := {| Command.Flags := [] |} in
  let o := GoputCommand.processCommand Fake.env 1 command
             ["root/a.txt"; "root/sub/b.txt"; "T"] Fake.world in
  value o = Goput.Returned None
  /\ calls o = [ProcessCommonFlags_ command; InputMissingFields_; GetAccount_;
                NewFileSystemWithDefault_ (Account "alice") "gocommands-put";
                Stat_ "/home/alice/root/a.txt";
                UploadFileParallel_ Fake.fs "/home/alice/root/a.txt"
                                    "/tempZone/home/alice/T" "" 0 false;
                Stat_ "/home/alice/root/sub/b.txt";
                UploadFileParallel_ Fake.fs "/home/alice/root/sub/b.txt"
                                    "/tempZone/home/alice/T" "" 0 false;
                Release_ Fake.fs].
Proof.
  destruct (processCommand_targets Fake.World Fake.env 1 {| Command.Flags := [] |}
              ["root/a.txt"; "root/sub/b.txt"; "T"] Fake.world Fake.fs
              (conj eq_refl (conj eq_refl eq_refl))) as [_ [_ Hmany]].
  destruct (Hmany ["root/a.txt"; "root/sub/b.txt"] "T" ltac:(discriminate) eq_refl)
    as [Hvalue [Hcalls _]].
  split; [rewrite Hvalue; reflexivity | rewrite Hcalls; reflexivity].
Defined.

(** X16: [goput] stops at the first source that fails: the later sources are
    not looked at, the error is logged and returned as it is, not wrapped,
    and the client is still released. *)
Theorem processCommand_stops_at_first_failure :
  forall (W : Type) (env : Collaborators W) (fuel : nat) (command : Command.t)
         (args : list string) (w : W) (fs : FileSystem),
    goputPreludePasses env command w fs ->
    let w0 := goputAfterPrelude env command w in
    let before := goputPreludeCalls env command w in
    let upload := fun sourcePaths targetPath =>
                    GoputCommand.rangeSources env fuel fs sourcePaths targetPath w0 in
    let o := GoputCommand.processCommand env fuel command args w in
    forall pre sourcePath post targetPath err,
      args = [sourcePath] /\ pre = [] /\ post = [] /\ targetPath = "./"
      \/ args = (pre ++ sourcePath :: post ++ [targetPath])%list ->
      let failing := Goput.putOne env fuel fs sourcePath targetPath
                                  (world (upload pre targetPath)) in
      value (upload pre targetPath) = Goput.Returned None ->
      value failing = Goput.Returned (Some err) ->
      value o = Goput.Returned (Some err)
      /\ calls o = (before ++ calls (upload pre targetPath) ++ calls failing
                    ++ [Release_ fs])%list
      /\ last (logged o) "" = Error err.
Proof.
  intros W env fuel command args w fs Hprelude w0 before upload o
         pre sourcePath post targetPath err Hargs failing Hpre Hfail.
  destruct (processCommand_after_prelude env fuel command args w fs Hprelude)
    as [Hvalue [Hcalls [Hlogged _]]].
  fold w0 before o in Hvalue, Hcalls, Hlogged.
  subst upload failing. cbv beta in *.
  assert (Hbody : uploadAll env fuel fs args w0
                  = GoputCommand.rangeSources env fuel fs
                      (pre ++ sourcePath :: post)%list targetPath w0).
  { destruct Hargs as [[Hone [Hnil [Hnil' Hcwd]]]|Hmany].
    - subst args pre post targetPath. reflexivity.
    - rewrite Hmany.
      change (pre ++ sourcePath :: post ++ [targetPath])%list
        with (pre ++ (sourcePath :: post) ++ [targetPath])%list.
      rewrite app_assoc.
      rewrite <- (removelast_last (pre ++ sourcePath :: post) targetPath) at 2.
      rewrite <- (last_last (pre ++ sourcePath :: post) targetPath "") at 3.
      destruct (pre ++ sourcePath :: post)%list as [|a [|b rest]] eqn:Hsources;
        [destruct pre; discriminate|reflexivity|reflexivity]. }
  destruct (rangeSources_aborts env fuel fs pre sourcePath post targetPath w0 err
              Hpre Hfail) as [Hv [Hc Hl]].
  rewrite Hbody in Hvalue, Hcalls, Hlogged.
  rewrite Hvalue, Hcalls, Hlogged, Hv, Hc, Hl. split; [reflexivity|]. split.
  - rewrite <- !app_assoc. reflexivity.
  - rewrite !app_assoc. apply last_last.
Qed.

(** [goput root/a.txt bad root/sub/b.txt T] on a remote that refuses
    [T/bad/x.txt]: [b.txt] and [bad/y.txt] are never uploaded. *)
Lemma processCommand_stops_at_first_failure_witness :
  let command := {| Command.Flags := [] |} in
  let o := GoputCommand.processCommand Fake.faulty 2 command
             ["root/a.txt"; "bad"; "root/sub/b.txt"; "T"] Fake.world in
  value o = Goput.Returned (Some (Fake.refused "/tempZone/home/alice/T/bad/x.txt"))
  /\ filter isRemoteChange (calls o)
     = [UploadFileParallel_ Fake.fs "/home/alice/root/a.txt"
                            "/tempZone/home/alice/T" "" 0 false;
        MakeDir_ Fake.fs "/tempZone/home/alice/T/bad" true;
        UploadFileParallel_ Fake.fs "/home/alice/bad/w.txt"
                            "/tempZone/home/alice/T/bad" "" 0 false;
        UploadFileParallel_ Fake.fs "/home/alice/bad/x.txt"
                            "/tempZone/home/alice/T/bad" "" 0 false]
  /\ last (logged o) "" = Error (Fake.refused "/tempZone/home/alice/T/bad/x.txt").
Proof.
  destruct (processCommand_stops_at_first_failure Fake.World Fake.faulty 2
              {| Command.Flags := [] |}
              ["root/a.txt"; "bad"; "root/sub/b.txt"; "T"] Fake.world Fake.fs
              (conj eq_refl (conj eq_refl eq_refl))
              ["root/a.txt"] "bad" ["root/sub/b.txt"] "T"
              (Fake.refused "/tempZone/home/alice/T/bad/x.txt")
              (or_intror eq_refl) eq_refl eq_refl) as [Hvalue [Hcalls Hlogged]].
  split; [exact Hvalue|]. split; [rewrite Hcalls; reflexivity | exact Hlogged].
Defined.

(** X17: how [goput] ends before it uploads.  When the common flags say not
    to continue, one call is made and their error is returned as it is (nil
    when there is none).  When they say to continue, an error of theirs is
    only logged: the command goes on to the missing fields.  An error of the
    missing fields is logged and returned as it is; when the client cannot
    be opened its error is returned as it is, not logged, and nothing is
    released. *)
Theorem processCommand_stops_at_the_start :
  forall (W : Type) (env : Collaborators W) (fuel : nat) (command : Command.t)
         (args : list string) (w : W),
    let flags := ProcessCommonFlags env command w in
    let fields := InputMissingFields env (snd flags) in
    let account := GetAccount env (snd fields) in
    let client := NewFileSystemWithDefault env (fst account) "gocommands-put"
                                           (snd account) in
    let o := GoputCommand.processCommand env fuel command args w in
    (fst (fst flags) = false ->
     value o = Goput.Returned (snd (fst flags))
     /\ calls o = [ProcessCommonFlags_ command])
    /\ (forall err,
           fst flags = (true, Some err) ->
           hd_error (logged o) = Some (Error err)
           /\ firstn 2 (calls o) = [ProcessCommonFlags_ command; InputMissingFields_])
    /\ (fst (fst flags) = true ->
        (forall err,
            snd (fst fields) = Some err ->
            value o = Goput.Returned (Some err)
            /\ calls o = [ProcessCommonFlags_ command; InputMissingFields_]
            /\ last (logged o) "" = Error err)
        /\ (snd (fst fields) = None ->
            forall err,
              fst client = Err err ->
              value o = Goput.Returned (Some err)
              /\ calls o = [ProcessCommonFlags_ command; InputMissingFields_;
                            GetAccount_;
                            NewFileSystemWithDefault_ (fst account) "gocommands-put"]
              /\ logged o = flagsLog env command w)).
Proof.
  intros W env fuel command args w flags fields account client o.
  destruct (processCommand_early env fuel command args w)
    as [Hstop [Hfields Hclient]].
  fold flags fields account client o in Hstop, Hfields, Hclient.
  split; [|split].
  - intros Hcont. destruct (Hstop Hcont) as [Hv [Hc _]]. split; assumption.
  - intros err Hflags.
    assert (Hcont : fst (fst flags) = true) by (rewrite Hflags; reflexivity).
    assert (Hlog : flagsLog env command w = [Error err]).
    { unfold flagsLog. fold flags. rewrite Hflags. reflexivity. }
    destruct (snd (fst fields)) as [e|] eqn:Hmissing.
    + destruct (Hfields Hcont e eq_refl) as [_ [Hc Hl]].
      rewrite Hc, Hl, Hlog. split; reflexivity.
    + destruct (fst client) as [fs|e] eqn:Hopen.
      * destruct (processCommand_after_prelude env fuel command args w fs
                    (conj Hcont (conj Hmissing Hopen))) as [_ [Hc [Hl _]]].
        fold o in Hc, Hl. rewrite Hc, Hl, Hlog. split; reflexivity.
      * destruct (Hclient Hcont eq_refl e eq_refl) as [_ [Hc Hl]].
        rewrite Hc, Hl, Hlog. split; reflexivity.
  - intros Hcont. split.
    + intros err Hmissing. destruct (Hfields Hcont err Hmissing) as [Hv [Hc Hl]].
      rewrite Hv, Hc, Hl. repeat split. apply last_last.
    + intros Hmissing err Hopen. exact (Hclient Hcont Hmissing err Hopen).
Qed.

(** The flags fail but say to continue, and the client cannot be opened:
    the flags' error is only logged, the client's error is returned. *)
Lemma processCommand_stops_at_the_start_witness :
  let command := {| Command.Flags := [] |} in
  (let o := GoputCommand.processCommand (FakePrelude.stopping 3) 1 command ["a"]
              Fake.world in
   hd_error (logged o) = Some (Error FakePrelude.flagsError)
   /\ firstn 2 (calls o) = [ProcessCommonFlags_ command; InputMissingFields_])
  /\ (let o := GoputCommand.processCommand (FakePrelude.stopping 5) 1 command ["a"]
                 Fake.world in
      value o = Goput.Returned (Some FakePrelude.clientError)
      /\ calls o = [ProcessCommonFlags_ command; InputMissingFields_; GetAccount_;
                    NewFileSystemWithDefault_ (Account "alice") "gocommands-put"]).
Proof.
  split.
  - destruct (processCommand_stops_at_the_start Fake.World (FakePrelude.stopping 3) 1
                {| Command.Flags := [] |} ["a"] Fake.world) as [_ [Hlogged _]].
    exact (Hlogged FakePrelude.flagsError eq_refl).
  - destruct (processCommand_stops_at_the_start Fake.World (FakePrelude.stopping 5) 1
                {| Command.Flags := [] |} ["a"] Fake.world) as [_ [_ Hgoes]].
    destruct (Hgoes eq_refl) as [_ Hclient].
    destruct (Hclient eq_refl FakePrelude.clientError eq_refl) as [Hvalue [Hcalls _]].
    split; [exact Hvalue | exact Hcalls].
Defined.

(** X18: whatever its arguments and whatever its collaborators answer,
    [goput] makes no other calls than those of its start, the uploader's and
    the release of its client: it removes nothing and never looks at the
    remote tree, not even at the target.  A client that was opened is
    released once, at the end. *)
Theorem processCommand_only_adds :
  forall (W : Type) (env : Collaborators W) (fuel : nat) (command : Command.t)
         (args : list string) (w : W),
    let o := GoputCommand.processCommand env fuel command args w in
    Forall (fun c => isGoputCall c = true) (calls o)
    /\ filter isRemoval (calls o) = []
    /\ filter isStatIRODSPath (calls o) = []
    /\ filter isLookup (calls o) = []
    /\ (forall fs,
           goputPreludePasses env command w fs ->
           filter isRelease (calls o) = [Release_ fs]
           /\ exists before, calls o = (before ++ [Release_ fs])%list).
Proof.
  intros W env fuel command args w o.
  assert (Hupload : forall c, isUploaderCall c = true -> isGoputCall c = true).
  { intros c. destruct c; simpl; congruence. }
  assert (Hall : Forall (fun c => isGoputCall c = true) (calls o)).
  { destruct (processCommand_early env fuel command args w)
      as [Hstop [Hfields Hclient]].
    fold o in Hstop, Hfields, Hclient.
    destruct (fst (fst (ProcessCommonFlags env command w))) eqn:Hcont.
    - destruct (snd (fst (InputMissingFields env (snd (ProcessCommonFlags env command w)))))
        as [e|] eqn:Hmissing.
      + destruct (Hfields eq_refl e eq_refl) as [_ [Hc _]]. rewrite Hc.
        repeat constructor.
      + match type of Hclient with
        | _ -> _ -> forall err, fst ?c = _ -> _ => destruct (fst c) as [fs|e] eqn:Hopen
        end.
        * destruct (processCommand_after_prelude env fuel command args w fs
                      (conj Hcont (conj Hmissing Hopen))) as [_ [Hc _]].
          fold o in Hc. rewrite Hc. rewrite !Forall_app. split; [|split].
          -- repeat constructor.
          -- eapply Forall_impl; [exact Hupload|]. apply uploadAll_uploader_calls.
          -- repeat constructor.
        * destruct (Hclient eq_refl eq_refl e eq_refl) as [_ [Hc _]]. rewrite Hc.
          repeat constructor.
    - destruct (Hstop eq_refl) as [_ [Hc _]]. rewrite Hc. repeat constructor. }
  split; [exact Hall|]. split; [|split; [|split]].
  - apply (Forall_filter_nil isRemoval isGoputCall); [|exact Hall].
    intros c. destruct c; simpl; congruence.
  - apply (Forall_filter_nil isStatIRODSPath isGoputCall); [|exact Hall].
    intros c. destruct c; simpl; congruence.
  - apply (Forall_filter_nil isLookup isGoputCall); [|exact Hall].
    intros c. destruct c; simpl; congruence.
  - intros fs Hprelude.
    destruct (processCommand_after_prelude env fuel command args w fs Hprelude)
      as [_ [Hc _]].
    fold o in Hc. rewrite Hc. split.
    + rewrite !filter_app.
      rewrite (Forall_filter_nil isRelease isUploaderCall
                 (calls (uploadAll env fuel fs args (goputAfterPrelude env command w)))).
      * reflexivity.
      * intros c. destruct c; simpl; congruence.
      * apply uploadAll_uploader_calls.
    + eexists. rewrite app_assoc. reflexivity.
Qed.

(** ** [init] *)

(** Every way a run of [init] can go. *)
Ltac walk_init env command w :=
  unfold Init.processInitCommand, Init.bind, Init.call, Init.ret, Init.Println;
  destruct (Init.ProcessCommonFlags env command w) as [[cont ferr] w1];
  cbn [fst snd]; destruct ferr as [ferr|]; [|destruct cont; cbn [negb]];
  [ | destruct (Init.InputMissingFields env w1) as [[updated merr] w2];
      cbn [fst snd]; destruct merr as [merr|];
      [ | destruct (Init.ToIRODSAccount env w2) as [[account|aerr] w3];
          cbn [fst snd];
          [ destruct (Init.TestConnect env account w3) as [[cerr|] w4] eqn:Hconnect;
            cbn [fst snd];
            [ | destruct updated;
                [ destruct (Init.SaveEnvironment env w4) as [[serr|] w5]
                | destruct (Init.PrintAccount env w4) as [[perr|] w5] ] ]
          | ] ]
    | ];
  cbn.

(** X19: [init] saves the environment only when the missing fields were
    asked for and the connection test on the account has passed; the save
    is then its last call and nothing is printed. *)
Theorem processInitCommand_saves_after_connecting :
  forall (W : Type) (env : Init.Collaborators W) (command : Command.t)
         (args : list string) (w : W),
    let flags := Init.ProcessCommonFlags env command w in
    let fields := Init.InputMissingFields env (snd flags) in
    let account := Init.ToIRODSAccount env (snd fields) in
    let o := Init.processInitCommand env command args w in
    In Init.SaveEnvironment_ (Init.calls o) ->
    fst (fst fields) = true
    /\ exists a,
        fst account = Ok a
        /\ fst (Init.TestConnect env a (snd account)) = None
        /\ Init.calls o = [Init.ProcessCommonFlags_ command; Init.InputMissingFields_;
                           Init.ToIRODSAccount_; Init.TestConnect_ a;
                           Init.SaveEnvironment_]
        /\ Init.stdout o = [].
Proof.
  intros W env command args w. walk_init env command w; intros Hin;
    try (repeat (destruct Hin as [Hin|Hin]; [discriminate Hin|]); destruct Hin);
    (split; [reflexivity|]); exists account; rewrite Hconnect; repeat split.
Qed.

Lemma processInitCommand_saves_after_connecting_witness :
  let o := Init.processInitCommand (Init.fake true None) {| Command.Flags := [] |}
                                   [] tt in
  Init.calls o = [Init.ProcessCommonFlags_ {| Command.Flags := [] |};
                  Init.InputMissingFields_; Init.ToIRODSAccount_;
                  Init.TestConnect_ (Account "alice"); Init.SaveEnvironment_]
  /\ Init.stdout o = [].
Proof.
  destruct (processInitCommand_saves_after_connecting unit (Init.fake true None)
              {| Command.Flags := [] |} [] tt
              (or_intror (or_intror (or_intror (or_intror (or_introl eq_refl))))))
    as [_ [a [Haccount [_ [Hcalls Hout]]]]].
  injection Haccount as <-. split; [exact Hcalls | exact Hout].
Defined.

(** X20: when no field was missing and the connection test passes, [init]
    changes nothing: it prints that gocommands is already configured, has
    the account printed and saves nothing.  Only a failure of that printing
    is returned, wrapped. *)
Theorem processInitCommand_already_configured :
  forall (W : Type) (env : Init.Collaborators W) (command : Command.t)
         (args : list string) (w : W) (a : IRODSAccount),
    let flags := Init.ProcessCommonFlags env command w in
    let fields := Init.InputMissingFields env (snd flags) in
    let account := Init.ToIRODSAccount env (snd fields) in
    let test := Init.TestConnect env a (snd account) in
    let o := Init.processInitCommand env command args w in
    fst flags = (true, None) ->
    fst fields = (false, None) ->
    fst account = Ok a ->
    fst test = None ->
    Init.stdout o = ["gocommands is already configured for following account:"
                     ++ newline]
    /\ Init.calls o = [Init.ProcessCommonFlags_ command; Init.InputMissingFields_;
                       Init.ToIRODSAccount_; Init.TestConnect_ a; Init.PrintAccount_]
    /\ Init.value o = match fst (Init.PrintAccount env (snd test)) with
                      | Some err => Some (Wrap "failed to print account info" err)
                      | None => None
                      end
    /\ ~ In Init.SaveEnvironment_ (Init.calls o).
Proof.
  intros W env command args w a. cbv zeta.
  unfold Init.processInitCommand, Init.bind, Init.call, Init.ret, Init.Println.
  destruct (Init.ProcessCommonFlags env command w) as [[cont ferr] w1].
  cbn [fst snd]. intros [= -> ->]. cbn [fst snd negb].
  destruct (Init.InputMissingFields env w1) as [[updated merr] w2].
  cbn [fst snd]. intros [= -> ->].
  destruct (Init.ToIRODSAccount env w2) as [account w3]. cbn [fst snd].
  intros ->.
  destruct (Init.TestConnect env a w3) as [test w4]. cbn [fst snd].
  intros ->.
  destruct (Init.PrintAccount env w4) as [[perr|] w5]; cbn;
    (split; [reflexivity|]); (split; [reflexivity|]); (split; [reflexivity|]);
    intros Hin; repeat (destruct Hin as [Hin|Hin]; [discriminate Hin|]);
    destruct Hin.
Qed.

Lemma processInitCommand_already_configured_witness :
  let o := Init.processInitCommand (Init.fake false None) {| Command.Flags := [] |}
                                   [] tt in
  Init.stdout o = ["gocommands is already configured for following account:"
                   ++ newline]
  /\ Init.value o = None
  /\ ~ In Init.SaveEnvironment_ (Init.calls o).
Proof.
  destruct (processInitCommand_already_configured unit (Init.fake false None)
              {| Command.Flags := [] |} [] tt (Account "alice")
              eq_refl eq_refl eq_refl eq_refl) as [Hout [_ [Hvalue Hsave]]].
  split; [exact Hout|]. split; [exact Hvalue | exact Hsave].
Defined.

(** X21: an error of [init] is never a collaborator's error as it is: it is
    that error wrapped in the message of the step that failed.  Whatever
    failed before the account is printed, nothing was printed. *)
Theorem processInitCommand_wraps_errors :
  forall (W : Type) (env : Init.Collaborators W) (command : Command.t)
         (args : list string) (w : W) (e : error),
    let o := Init.processInitCommand env command args w in
    Init.value o = Some e ->
    exists msg cause,
      e = Wrap msg cause
      /\ In msg initMessages
      /\ (msg <> "failed to print account info" -> Init.stdout o = [])
      /\ (msg = "failed to connect to iRODS server" ->
          ~ In Init.SaveEnvironment_ (Init.calls o)).
Proof.
  intros W env command args w e. walk_init env command w; intros Hvalue;
    try discriminate Hvalue; injection Hvalue as <-;
    eexists; eexists; (split; [reflexivity|]);
    (split; [unfold initMessages; simpl; tauto|]);
    (split; [intros Hmsg; try reflexivity; congruence|]);
    intros Hmsg; try discriminate Hmsg;
    intros Hin; repeat (destruct Hin as [Hin|Hin]; [discriminate Hin|]);
    destruct Hin.
Qed.

(** The server cannot be reached after the fields were asked for. *)
Lemma processInitCommand_wraps_errors_witness :
  let unreachable := External 111 "connection refused" in
  let o := Init.processInitCommand (Init.fake true (Some unreachable))
                                   {| Command.Flags := [] |} [] tt in
  exists msg cause,
    Wrap "failed to connect to iRODS server" unreachable = Wrap msg cause
    /\ In msg initMessages
    /\ (msg <> "failed to print account info" -> Init.stdout o = [])
    /\ (msg = "failed to connect to iRODS server" ->
        ~ In Init.SaveEnvironment_ (Init.calls o)).
Proof.
  exact (processInitCommand_wraps_errors unit
           (Init.fake true (Some (External 111 "connection refused")))
           {| Command.Flags := [] |} [] tt
           (Wrap "failed to connect to iRODS server"
                 (External 111 "connection refused")) eq_refl).
Defined.
